(** * Screen fraud detector: the detection and fraud-signal engine

    A shallow embedding of [backend/model/simple_detector.py],
    [backend/model/transaction_analyzer.py], [backend/model/detector.py]
    and of the upload endpoint of [backend/app.py].

    The repository's own logic (weights, thresholds, loops, exception
    handlers, the order in which lists are filled) is embedded as Rocq
    functions.  What the code obtains from cv2, numpy, PIL, pytesseract, [re]
    and the clock is taken from a [Backend]: one function per library call.

    Python numbers are read through the interface [Scalar], which has two
    interpretations: exact rationals ([Q]) and IEEE binary64
    ([PrimFloat.float], the representation CPython uses).  Statements that
    only follow the control flow hold for every scalar; statements about
    values and orders are proved in both interpretations, the binary64 ones
    from the specification of the primitive floats ([FloatAxioms]). *)

From Stdlib Require Import ZArith QArith Qabs Lqa Lia List Bool Ascii String.
From Stdlib Require Import DecimalString Floats.
From stdpp Require Import base gmap strings.
Import ListNotations.

#[local] Set Warnings "-inexact-float".
#[local] Open Scope string_scope.
#[local] Open Scope Z_scope.

(** ** Numbers *)

(** The arithmetic the engine uses on scores and confidences. *)
Class Scalar : Type := {
  num : Type;
  of_Q : Q -> num;              (* a decimal or integer literal *)
  add : num -> num -> num;
  sub : num -> num -> num;
  mul : num -> num -> num;
  div : num -> num -> num;
  absv : num -> num;
  ltb : num -> num -> bool      (* [a < b] *)
}.

Declare Scope num_scope.
Delimit Scope num_scope with num.
Bind Scope num_scope with num.
Notation "# q" := (of_Q q%Q) (at level 1, q at level 0, format "# q") : num_scope.
Infix "+" := add : num_scope.
Infix "-" := sub : num_scope.
Infix "*" := mul : num_scope.
Infix "/" := div : num_scope.
Notation "a <? b" := (ltb a b) : num_scope.
Notation "a >? b" := (ltb b a) : num_scope.

(** Exact rationals. *)
Definition Q_scalar : Scalar := {|
  num := Q;
  of_Q := fun q => q;
  add := Qplus;
  sub := Qminus;
  mul := Qmult;
  div := Qdiv;
  absv := Qabs;
  ltb := fun a b => negb (Qle_bool b a)
|}.

(** IEEE 754 binary64, round to nearest even.  A literal [n/d] with small
    [n] and [d] is the correctly rounded quotient of two exact integers,
    which is the double nearest to the decimal, as Python's parser gives. *)
Definition float_of_Q (q : Q) : float :=
  let n := PrimFloat.of_uint63 (Uint63.of_Z (Z.abs (Qnum q))) in
  let d := PrimFloat.of_uint63 (Uint63.of_Z (Zpos (Qden q))) in
  if (Qnum q <? 0)%Z then PrimFloat.opp (PrimFloat.div n d) else PrimFloat.div n d.

Definition binary64_scalar : Scalar := {|
  num := float;
  of_Q := float_of_Q;
  add := PrimFloat.add;
  sub := PrimFloat.sub;
  mul := PrimFloat.mul;
  div := PrimFloat.div;
  absv := PrimFloat.abs;
  ltb := PrimFloat.ltb
|}.

Section PythonNumbers.
Context {S : Scalar}.
#[local] Open Scope num_scope.

Definition of_Z (z : Z) : num := of_Q (inject_Z z).

(** [min(a, b)]: the first argument unless the second is smaller. *)
Definition py_min (a b : num) : num := if b <? a then b else a.

(** [max(a, b, c)]: the first of the largest. *)
Definition py_max3 (a b c : num) : num :=
  let m := if b >? a then b else a in
  if c >? m then c else m.
End PythonNumbers.

(** ** Exceptions *)

(** What a call gives back: a value, or an exception with its message
    ([str(e)]). *)
Inductive Outcome (A : Type) : Type :=
| Returned (a : A)
| Raised (e : string).
Arguments Returned {A} a.
Arguments Raised {A} e.

Definition obind {A B} (m : Outcome A) (k : A -> Outcome B) : Outcome B :=
  match m with
  | Returned a => k a
  | Raised e => Raised e
  end.

(** [try: m  except Exception as e: h e] *)
Definition try_except {A} (m : Outcome A) (h : string -> A) : A :=
  match m with
  | Returned a => a
  | Raised e => h e
  end.

Declare Scope outcome_scope.
Delimit Scope outcome_scope with outcome.
Notation "'call' x <- m 'in' k" := (obind m (fun x => k))
  (at level 10, x name, m at level 100, k at level 200) : outcome_scope.

(** ** Python strings and sequences *)

Definition lower_ascii (c : ascii) : ascii :=
  let n := nat_of_ascii c in
  if (65 <=? n)%nat && (n <=? 90)%nat then ascii_of_nat (n + 32) else c.

(** [s.lower()], on the ASCII letters. *)
Fixpoint lower (s : string) : string :=
  match s with
  | EmptyString => EmptyString
  | String c r => String (lower_ascii c) (lower r)
  end.

(** [needle in hay] *)
Fixpoint contains (needle hay : string) : bool :=
  String.prefix needle hay ||
  match hay with
  | EmptyString => false
  | String _ r => contains needle r
  end.

(** A Python [str] is held as its UTF-8 bytes: a byte [10xxxxxx] continues
    a character, every other byte starts one. *)
Definition continues (c : ascii) : bool :=
  let n := nat_of_ascii c in (128 <=? n)%nat && (n <? 192)%nat.

(** [len(s)] for a string: the number of its characters. *)
Fixpoint str_len (s : string) : Z :=
  match s with
  | EmptyString => 0
  | String c r => (if continues c then 0 else 1) + str_len r
  end.

(** [s[:n]] for a string: its first [n] characters. *)
Fixpoint str_prefix (n : nat) (s : string) : string :=
  match s with
  | EmptyString => EmptyString
  | String c r =>
      if continues c then String c (str_prefix n r)
      else match n with
           | O => EmptyString
           | Datatypes.S n' => String c (str_prefix n' r)
           end
  end.

(** [str(n)] for an integer. *)
Definition str_Z (z : Z) : string := NilZero.string_of_int (Z.to_int z).
Definition str_nat (n : nat) : string := str_Z (Z.of_nat n).

(** [sep.join(l)] *)
Definition join (sep : string) (l : list string) : string := String.concat sep l.

(** [len(l)] *)
Definition len {A} (l : list A) : Z := Z.of_nat (List.length l).

(** [range(start, stop, step)] for a positive step. *)
Definition py_range (start stop step : Z) : list Z :=
  List.map (fun k => start + Z.of_nat k * step)
           (List.seq 0 (Z.to_nat ((stop - start + step - 1) / step))).

(** [range(start, stop, step)] where the step is computed: zero raises. *)
Definition py_range_checked (start stop step : Z) : Outcome (list Z) :=
  if step =? 0 then Raised "range() arg 3 must not be zero"
  else Returned (py_range start stop step).

(** [l[a:b]] for [0 <= a]; a slice past the end is cut short. *)
Definition slice {A} (a b : Z) (l : list A) : list A :=
  List.firstn (Z.to_nat (b - a)) (List.skipn (Z.to_nat a) l).

(** [l[a:]] *)
Definition slice_from {A} (a : Z) (l : list A) : list A := List.skipn (Z.to_nat a) l.

(** A two-dimensional array of integers (a grayscale plane), by rows. *)
Definition Grid : Type := list (list Z).

(** [g.shape] as [(h, w)] *)
Definition shape {A} (g : list (list A)) : Z * Z :=
  (len g, match g with [] => 0 | r :: _ => len r end).

(** [g[i0:i1, j0:j1]] *)
Definition slice2 {A} (i0 i1 j0 j1 : Z) (g : list (list A)) : list (list A) :=
  List.map (slice j0 j1) (slice i0 i1 g).

(** [len(set(l))] *)
Definition len_set (l : list string) : Z := len (remove_dups l).

(** ** Data model *)

(** The uniform output of every extractor:
    [{'suspicious': ..., 'score': ..., 'reason': ...}]. *)
Module Signal.
Record t {S : Scalar} : Type := make {
  suspicious : bool;
  score : num;
  reason : string
}.
Arguments make {S} suspicious score reason.
End Signal.

(** One entry of [tampered_regions]. *)
Module Region.
Record t {S : Scalar} : Type := make {
  x : Z;
  y : Z;
  width : Z;
  height : Z;
  confidence : num
}.
Arguments make {S} x y width height confidence.
End Region.

(** [{'type': ..., 'severity': ..., 'description': ...}] *)
Module FraudIndicator.
Record t : Type := make {
  type : string;
  severity : string;
  description : string
}.
End FraudIndicator.

(** What the engine reads of a PIL image.  [_getexif] lists the EXIF items
    with their tag names resolved ([ExifTags.TAGS.get(tag, tag)]) and their
    values as strings, in the order of the dictionary; [None] stands for an
    image without the attribute or without EXIF.  [to_cv] is
    [cv2.cvtColor(np.array(image), cv2.COLOR_RGB2BGR)]: every analysis
    reads that array through [cv2.COLOR_BGR2GRAY] and through its shape
    only, so it is kept as its grayscale plane. *)
Module Image.
Record t : Type := make {
  format : option string;
  size : Z * Z;                                     (* (width, height) *)
  mode : string;
  _getexif : Outcome (option (list (string * string)));
  to_cv : Outcome Grid
}.
End Image.

(** The library calls of the engine.  [rng] is the state of [np.random]. *)
Class Backend (S : Scalar) : Type := {
  (* simple_detector.py *)
  cv2_dct : Grid -> Outcome (list (list num));        (* cv2.dct(np.float32(gray)) *)
  np_var : list (list num) -> num;
  cv2_noise : Grid -> Outcome Grid;                   (* absdiff(gray, GaussianBlur(gray, (5, 5), 0)) *)
  np_var_block : Grid -> num;
  np_mean : list num -> num;
  np_std : list num -> num;
  cv2_Canny : Grid -> Outcome Grid;                   (* cv2.Canny(gray, 50, 150) *)
  Contour : Type;
  cv2_findContours : Grid -> Outcome (list Contour);  (* RETR_EXTERNAL, CHAIN_APPROX_SIMPLE *)
  cv2_contourArea : Contour -> num;
  (* transaction_analyzer.py *)
  cv2_convertScaleAbs : Grid -> Grid;                 (* alpha=1.5, beta=30 *)
  pytesseract_image_to_string : Grid -> Outcome string;
  re_findall : string -> string -> list string;
  py_repr : list string -> string;                    (* a list inside an f-string *)
  cv2_matchTemplate : Grid -> Grid -> num;            (* TM_CCOEFF_NORMED, entry [0][0] *)
  datetime_now_isoformat : string;
  (* np.random *)
  rng : Type;
  np_random_uniform : num -> num -> rng -> num * rng;
  np_random_randint : Z -> Z -> rng -> Z * rng
}.

(** ** simple_detector.py *)

Module SimpleImageDetector.

Record Breakdown {S : Scalar} : Type := {
  jpeg_compression : Signal.t;
  noise_patterns : Signal.t;
  edge_consistency : Signal.t;
  metadata : Signal.t
}.

(** The dictionary [detect_tampering] returns; [tampered_regions] is a key
    only when regions were found. *)
Record Result {S : Scalar} : Type := {
  is_authentic : bool;
  confidence : num;
  details : string;
  analysis_breakdown : Breakdown;
  tampered_regions : option (list Region.t)
}.

Section WithBackend.
Context {S : Scalar} {B : Backend S}.
#[local] Open Scope num_scope.
#[local] Open Scope outcome_scope.

Definition analysis_failed : Signal.t :=
  Signal.make false #0 "Analysis failed".

Definition _analyze_jpeg_compression (pil_image : Image.t) (cv_image : Grid)
  : Signal.t :=
  try_except
    (if negb (bool_decide (Image.format pil_image = Some "JPEG")) then
       Returned (Signal.make false #0 "Not a JPEG image")
     else
       let gray := cv_image in
       call dct <- cv2_dct gray in
       let high_freq :=
         List.map (slice_from (snd (shape gray) / 2))
                  (slice_from (fst (shape gray) / 2) dct) in
       let hf_variance := np_var high_freq in
       if hf_variance <? #0.1 then
         Returned (Signal.make true #0.7 "Over-compressed regions detected")
       else if hf_variance >? #100 then
         Returned (Signal.make true #0.6 "Inconsistent compression artifacts")
       else
         Returned (Signal.make false #0.2 "Normal compression artifacts"))
    (fun _ => analysis_failed).

Definition _analyze_noise_patterns (cv_image : Grid) : Signal.t :=
  try_except
    (let gray := cv_image in
     call noise <- cv2_noise gray in
     let '(h, w) := shape noise in
     let block_size := 32%Z in
     let noise_variances :=
       List.flat_map (fun i =>
         List.map (fun j =>
           np_var_block (slice2 i (i + block_size) j (j + block_size) noise))
           (py_range 0 (w - block_size) block_size))
         (py_range 0 (h - block_size) block_size) in
     if (len noise_variances <? 2)%Z then
       Returned (Signal.make false #0 "Image too small for analysis")
     else
       let mean_variance := np_mean noise_variances in
       let std_variance := np_std noise_variances in
       let consistent := Signal.make false #0.1 "Consistent noise patterns" in
       if mean_variance >? #0 then
         let cv_noise := std_variance / mean_variance in
         if cv_noise >? #1.5 then
           Returned (Signal.make true #0.8 "Inconsistent noise patterns across regions")
         else if cv_noise >? #1.0 then
           Returned (Signal.make true #0.5 "Moderate noise inconsistencies")
         else Returned consistent
       else Returned consistent)
    (fun _ => analysis_failed).

Definition _analyze_edge_consistency (cv_image : Grid) : Signal.t :=
  try_except
    (let gray := cv_image in
     call edges <- cv2_Canny gray in
     call contours <- cv2_findContours edges in
     if (len contours =? 0)%Z then
       Returned (Signal.make false #0 "No significant edges detected")
     else
       (* [edge_lengths] is computed and never read *)
       let edge_areas :=
         List.filter (fun a => a >? #10) (List.map cv2_contourArea contours) in
       if (len edge_areas <? 2)%Z then
         Returned (Signal.make false #0 "Insufficient edge data")
       else
         let mean_area := np_mean edge_areas in
         let std_area := np_std edge_areas in
         if std_area >? mean_area * #2 then
           Returned (Signal.make true #0.6 "Irregular edge patterns detected")
         else
           Returned (Signal.make false #0.1 "Consistent edge patterns"))
    (fun _ => analysis_failed).

Definition software_tags : list string :=
  ["Software"; "ProcessingSoftware"; "PhotoshopSettings"].
Definition editing_software : list string :=
  ["Photoshop"; "GIMP"; "Paint.NET"; "Canva"].
Definition timestamp_tags : list string :=
  ["DateTime"; "DateTimeOriginal"; "DateTimeDigitized"].

(** [exif_data[tag_name] = value] for every item, in order. *)
Definition exif_dict (items : list (string * string)) : gmap string string :=
  List.fold_left (fun d kv => <[kv.1 := kv.2]> d) items ∅.

(** The dictionary [exif_data] of [_analyze_metadata]. *)
Definition exif_data_of (exif : option (list (string * string)))
  : gmap string string :=
  match exif with
  | Some items => exif_dict items
  | None => ∅
  end.

(** One round of [for tag in software_tags]: the inner loop stops at the
    first editor whose lower-cased name occurs in the tag's value. *)
Definition software_step (exif_data : gmap string string)
    (st : list string * num) (tag : string) : list string * num :=
  match exif_data !! tag with
  | Some value =>
      let software := lower value in
      match List.find (fun editor => contains (lower editor) software)
                      editing_software with
      | Some editor =>
          ((st.1 ++ ["Edited with " +:+ editor])%list, st.2 + #0.4)
      | None => st
      end
  | None => st
  end.

(** [suspicious_indicators] and [score] when the timestamp check starts. *)
Definition metadata_before_timestamps (exif_data : gmap string string)
  : list string * num :=
  let suspicious_indicators : list string := [] in
  let score := #0 in
  let st :=
    if bool_decide (exif_data = ∅)
    then ((suspicious_indicators ++ ["No EXIF metadata"])%list, score + #0.3)
    else (suspicious_indicators, score) in
  List.fold_left (software_step exif_data) software_tags st.

(** [timestamps] *)
Definition timestamps_of (exif_data : gmap string string) : list string :=
  omap (fun tag => exif_data !! tag) timestamp_tags.

Definition _analyze_metadata (image : Image.t) : Signal.t :=
  try_except
    (call exif <- Image._getexif image in
     let exif_data := exif_data_of exif in
     let '(suspicious_indicators, score) := metadata_before_timestamps exif_data in
     let timestamps := timestamps_of exif_data in
     let '(suspicious_indicators, score) :=
       if (len_set timestamps >? 1)%Z
       then ((suspicious_indicators ++ ["Inconsistent timestamps"])%list,
             score + #0.2)
       else (suspicious_indicators, score) in
     match suspicious_indicators with
     | _ :: _ =>
         Returned (Signal.make true (py_min score #1.0)
                               (join "; " suspicious_indicators))
     | [] => Returned (Signal.make false #0.05 "Normal metadata")
     end)
    (fun _ => analysis_failed).

(** Nothing in the body can raise, so its handler is left out. *)
Definition _find_tampered_regions (cv_image : Grid)
    (jpeg_analysis noise_analysis edge_analysis : Signal.t) : list Region.t :=
  let regions : list Region.t := [] in
  let '(h, w) := shape cv_image in
  if Signal.suspicious jpeg_analysis || Signal.suspicious noise_analysis
     || Signal.suspicious edge_analysis
  then
    let region :=
      Region.make (w / 4) (h / 4) (w / 3) (h / 3)
        (py_max3 (Signal.score jpeg_analysis) (Signal.score noise_analysis)
                 (Signal.score edge_analysis)) in
    (regions ++ [region])%list
  else regions.

(** One of the four blocks of "Combine results": a suspicious signal adds
    [score * weight] and a line of details; the weight is always added to
    [max_score]. *)
Definition weigh (label : string) (weight : num) (analysis : Signal.t)
    (st : num * num * list string) : num * num * list string :=
  let '(total_score, max_score, details) := st in
  let '(total_score, details) :=
    if Signal.suspicious analysis
    then (total_score + Signal.score analysis * weight,
          (details ++ [label +:+ ": " +:+ Signal.reason analysis])%list)
    else (total_score, details) in
  (total_score, max_score + weight, details).

(** The part of [detect_tampering] from "Combine results" to the verdict:
    [(is_authentic, confidence, details)] and the generator afterwards. *)
Definition combine_results
    (jpeg_analysis noise_analysis edge_analysis metadata_analysis : Signal.t)
    (g : rng) : (bool * num * list string) * rng :=
  let st : num * num * list string := (#0, #0, []) in
  let st := weigh "JPEG compression" #0.3 jpeg_analysis st in
  let st := weigh "Noise patterns" #0.3 noise_analysis st in
  let st := weigh "Edge analysis" #0.25 edge_analysis st in
  let st := weigh "Metadata" #0.15 metadata_analysis st in
  let '(total_score, max_score, details) := st in
  let confidence :=
    if max_score >? #0 then py_min (total_score / max_score) #0.95 else #0.1 in
  let is_authentic := confidence <? #0.4 in
  match details with
  | [] =>
      let '(confidence, g) := np_random_uniform #0.75 #0.90 g in
      ((true, confidence, ["No significant tampering indicators detected"]), g)
  | _ :: _ => ((is_authentic, confidence, details), g)
  end.

(** An exception of the conversion is logged and raised again; the
    extractors absorb their own. *)
Definition detect_tampering (image : Image.t) (g : rng) : Outcome Result * rng :=
  match Image.to_cv image with
  | Raised e => (Raised e, g)
  | Returned cv_image =>
      let jpeg_analysis := _analyze_jpeg_compression image cv_image in
      let noise_analysis := _analyze_noise_patterns cv_image in
      let edge_analysis := _analyze_edge_consistency cv_image in
      let metadata_analysis := _analyze_metadata image in
      let '((is_authentic, confidence, details), g) :=
        combine_results jpeg_analysis noise_analysis edge_analysis
                        metadata_analysis g in
      let tampered_regions :=
        _find_tampered_regions cv_image jpeg_analysis noise_analysis
                               edge_analysis in
      (Returned
         {| is_authentic := is_authentic;
            confidence := confidence;
            details := join "; " details;
            analysis_breakdown :=
              {| jpeg_compression := jpeg_analysis;
                 noise_patterns := noise_analysis;
                 edge_consistency := edge_analysis;
                 metadata := metadata_analysis |};
            tampered_regions :=
              match tampered_regions with
              | [] => None
              | _ :: _ => Some tampered_regions
              end |},
       g)
  end.
End WithBackend.
End SimpleImageDetector.

(** ** transaction_analyzer.py *)

Module TransactionAnalyzer.
#[local] Open Scope outcome_scope.

(** [{'format': ..., 'size': ..., 'mode': ..., 'exif': ...}] *)
Record Metadata : Type := {
  format : option string;
  size : Z * Z;
  mode : string;
  exif : list (string * string)
}.

(** The result of [_analyze_metadata]; its handler returns an empty
    [metadata] dictionary, here [None]. *)
Record MetadataAnalysis : Type := {
  metadata : option Metadata;
  suspicious : bool;
  reason : string
}.

Record TextAnalysis : Type := {
  extracted_text : string;
  banking_keywords_found : Z;
  suspicious_text : bool;
  text_fraud_indicators : list FraudIndicator.t;    (* key 'fraud_indicators' *)
  text_quality : string
}.

(** An entry of [copy_paste_regions]; [x1 y1 x2 y2] are the keys of its
    ['location'], [width height] those of its ['size']. *)
Record CopyPaste {S : Scalar} : Type := {
  x1 : Z; y1 : Z; x2 : Z; y2 : Z;
  width : Z; height : Z;
  confidence : num;
  description : string
}.

(** An entry of [resolution_inconsistencies]. *)
Record Inconsistency : Type := {
  inc_severity : string;                            (* key 'severity' *)
  inc_description : string;                         (* key 'description' *)
  regions_affected : Z
}.

Record PatternAnalysis {S : Scalar} : Type := {
  copy_paste_regions : list CopyPaste;
  resolution_inconsistencies : list Inconsistency;
  visual_quality_score : num
}.

Record ReverseSearch : Type := {
  found_matches : bool;
  similar_images : Z;
  earliest_occurrence : option string;
  warnings : list string
}.

(** The dictionary [analyze_transaction_screenshot] returns.  The keys that
    only one of its two shapes has are options. *)
Record Result {S : Scalar} : Type := {
  error : option string;
  metadata_analysis : option MetadataAnalysis;
  text_analysis : option TextAnalysis;
  pattern_analysis : option PatternAnalysis;
  reverse_search : option ReverseSearch;
  fraud_indicators : list FraudIndicator.t;
  recommendations : list string;
  overall_risk : string;
  analysis_timestamp : option string
}.

Definition banking_keywords : list string :=
  ["balance"; "transfer"; "payment"; "transaction"; "account";
   "bank"; "debit"; "credit"; "upi"; "gpay"; "paytm"; "phonepe";
   "amount"; "paid"; "received"; "wallet"; "rupees"; "inr"; "$"].

Definition fraud_patterns : list string :=
  ["\$\d+,?\d*\.?\d*";
   "₹\d+,?\d*\.?\d*";
   "\d{1,3}(,\d{3})*(\.\d{2})?";
   "\d{2}[-/]\d{2}[-/]\d{4}";
   "\d{2}:\d{2}"].

Definition software_indicators : list string :=
  ["photoshop"; "gimp"; "canva"; "paint"; "editor"].

Definition common_resolutions : list (Z * Z) :=
  [(1080, 1920); (1080, 2400); (750, 1334); (828, 1792);
   (1440, 2560); (1080, 2280)].

Definition is_high (i : FraudIndicator.t) : bool :=
  bool_decide (FraudIndicator.severity i = "high").
Definition is_medium (i : FraudIndicator.t) : bool :=
  bool_decide (FraudIndicator.severity i = "medium").

Definition _calculate_overall_risk (fraud_indicators : list FraudIndicator.t)
  : string :=
  match fraud_indicators with
  | [] => "low"
  | _ :: _ =>
      let high_risk_count := len (List.filter is_high fraud_indicators) in
      let medium_risk_count := len (List.filter is_medium fraud_indicators) in
      if high_risk_count >=? 2 then "very_high"
      else if high_risk_count >=? 1 then "high"
      else if medium_risk_count >=? 3 then "high"
      else if medium_risk_count >=? 1 then "medium"
      else "low"
  end.

Definition _analyze_metadata (image : Image.t) : MetadataAnalysis :=
  try_except
    (call raw <- Image._getexif image in
     let exif_data : list (string * string) :=
       match raw with
       | Some items => items
       | None => []
       end in
     let metadata :=
       {| format := Image.format image; size := Image.size image;
          mode := Image.mode image; exif := exif_data |} in
     let '(suspicious, reason) :=
       match List.find (fun kv =>
               List.existsb (fun indicator => contains indicator (lower kv.2))
                            software_indicators) exif_data with
       | Some kv => (true, "Image editing software detected: " +:+ kv.2)
       | None => (false, "")
       end in
     let '(suspicious, reason) :=
       match exif_data with
       | [] => (true, "No EXIF metadata found (common in edited screenshots)")
       | _ :: _ => (suspicious, reason)
       end in
     Returned {| metadata := Some metadata; suspicious := suspicious;
                 reason := reason |})
    (fun _ => {| metadata := None; suspicious := false;
                 reason := "Analysis failed" |}).

Section WithBackend.
Context {S : Scalar} {B : Backend S}.
#[local] Open Scope num_scope.

Definition indicator (type severity description : string) : FraudIndicator.t :=
  FraudIndicator.make type severity description.

(** One round of [for pattern in self.fraud_patterns]. *)
Definition pattern_step (text : string)
    (st : list FraudIndicator.t * bool) (pattern : string)
  : list FraudIndicator.t * bool :=
  let matches := re_findall pattern text in
  match matches with
  | [] => st
  | _ :: _ =>
      if (len_set matches <? len matches)%Z then
        ((st.1 ++ [indicator "duplicate_amounts" "high"
                     ("Duplicate amounts detected: " +:+ py_repr matches)])%list,
         true)
      else st
  end.

Definition _analyze_text_content (cv_image : Grid) : TextAnalysis :=
  try_except
    (let gray := cv_image in
     let enhanced := cv2_convertScaleAbs gray in
     call text <- pytesseract_image_to_string enhanced in
     let fraud_indicators : list FraudIndicator.t := [] in
     let suspicious_text := false in
     let banking_keyword_count :=
       len (List.filter (fun keyword => contains (lower keyword) (lower text))
                        banking_keywords) in
     let '(fraud_indicators, suspicious_text) :=
       List.fold_left (pattern_step text) fraud_patterns
                      (fraud_indicators, suspicious_text) in
     let amount_patterns := re_findall "[₹$]\s*\d+[,.]?\d*" text in
     let '(fraud_indicators, suspicious_text) :=
       if (len amount_patterns >? 1)%Z then
         let formats := re_findall "[₹$]\s*\d+([,.]\d+)*" text in
         if (len_set formats >? 1)%Z then
           ((fraud_indicators ++
               [indicator "inconsistent_formatting" "medium"
                          "Inconsistent amount formatting detected"])%list,
            true)
         else (fraud_indicators, suspicious_text)
       else (fraud_indicators, suspicious_text) in
     let very_large_amounts := re_findall "[₹$]\s*\d{7,}" text in
     let fraud_indicators :=
       match very_large_amounts with
       | [] => fraud_indicators
       | _ :: _ =>
           (fraud_indicators ++
              [indicator "unrealistic_amount" "medium"
                 ("Unusually large amounts: " +:+ py_repr very_large_amounts)])%list
       end in
     Returned
       {| extracted_text := str_prefix 500 text;
          banking_keywords_found := banking_keyword_count;
          suspicious_text := suspicious_text;
          text_fraud_indicators := fraud_indicators;
          text_quality :=
            if (str_len text >? 50)%Z then "good" else "poor" |})
    (fun _ =>
       {| extracted_text := ""; banking_keywords_found := 0;
          suspicious_text := false; text_fraud_indicators := [];
          text_quality := "failed" |}).

Definition block_size : Z := 32.

(** [blocks]: the tiles [(block, i, j)] in the order they are appended. *)
Definition tile (gray : Grid) : list (Grid * Z * Z) :=
  let '(h, w) := shape gray in
  List.flat_map (fun i =>
    List.map (fun j =>
      (slice2 i (i + block_size) j (j + block_size) gray, i, j))
      (py_range 0 (w - block_size) (block_size / 2)))
    (py_range 0 (h - block_size) (block_size / 2)).

(** The test before [continue]: "Skip adjacent blocks". *)
Definition adjacent (y1 x1 y2 x2 : Z) : bool :=
  (Z.abs (y1 - y2) <? block_size)%Z && (Z.abs (x1 - x2) <? block_size)%Z.

(** The body of the inner loop for one pair of blocks. *)
Definition compare_pair (b1 b2 : Grid * Z * Z) : list CopyPaste :=
  let '(block1, y1, x1) := b1 in
  let '(block2, y2, x2) := b2 in
  if adjacent y1 x1 y2 x2 then []
  else
    let correlation := cv2_matchTemplate block1 block2 in
    if correlation >? #0.9 then
      [{| x1 := x1; y1 := y1; x2 := x2; y2 := y2;
          width := block_size; height := block_size;
          confidence := correlation;
          description :=
            "Highly similar regions at (" +:+ str_Z x1 +:+ "," +:+ str_Z y1
            +:+ ") and (" +:+ str_Z x2 +:+ "," +:+ str_Z y2 +:+ ")" |}]
    else [].

(** [for idx, b1 in enumerate(blocks): for b2 in blocks[idx+1:]: ...] *)
Fixpoint compare_blocks (blocks : list (Grid * Z * Z)) : list CopyPaste :=
  match blocks with
  | [] => []
  | b1 :: rest =>
      (List.flat_map (compare_pair b1) rest ++ compare_blocks rest)%list
  end.

(** [np.sum(region > 0) / region.size] *)
Definition edge_density (region : Grid) : num :=
  of_Z (len (List.filter (fun p => (p >? 0)%Z) (List.concat region)))
  / of_Z (len (List.concat region)).

(** [edge_density_regions]; a step [h//4] or [w//4] of zero raises. *)
Definition density_regions (edges : Grid) (h w : Z) : Outcome (list num) :=
  call rows <- py_range_checked 0 h (h / 4) in
  call cols <- match rows with
               | [] => Returned []
               | _ :: _ => py_range_checked 0 w (w / 4)
               end in
  Returned
    (List.flat_map (fun i =>
       List.map (fun j =>
         edge_density (slice2 i (i + h / 4) j (j + w / 4) edges)) cols) rows).

Definition _analyze_visual_patterns (cv_image : Grid) : PatternAnalysis :=
  try_except
    (let gray := cv_image in
     let '(h, w) := shape gray in
     let blocks := tile gray in
     let copy_paste_regions := compare_blocks blocks in
     call edges <- cv2_Canny gray in
     call edge_density_regions <- density_regions edges h w in
     let resolution_inconsistencies :=
       if (len edge_density_regions >? 1)%Z then
         let density_std := np_std edge_density_regions in
         let density_mean := np_mean edge_density_regions in
         if density_std >? density_mean * #0.5 then
           [{| inc_severity := "medium";
               inc_description := "Inconsistent image sharpness across regions";
               regions_affected :=
                 len (List.filter
                        (fun d => absv (d - density_mean) >? density_std)
                        edge_density_regions) |}]
         else []
       else [] in
     Returned
       {| copy_paste_regions := copy_paste_regions;
          resolution_inconsistencies := resolution_inconsistencies;
          visual_quality_score :=
            match edge_density_regions with
            | [] => #0.0
            | _ :: _ => np_mean edge_density_regions
            end |})
    (fun _ =>
       {| copy_paste_regions := []; resolution_inconsistencies := [];
          visual_quality_score := #0.0 |}).

(** [image.size] is a pair, so nothing in the body can raise and its
    handler is left out. *)
Definition _simulate_reverse_search (image : Image.t) (g : rng)
  : ReverseSearch * rng :=
  let '(width, height) := Image.size image in
  let found_matches :=
    bool_decide ((width, height) ∈ common_resolutions) in
  if found_matches then
    let '(n, g) := np_random_randint 1 5 g in
    ({| found_matches := true; similar_images := n;
        earliest_occurrence := Some "2023-01-15";
        warnings := ["Resolution matches common screenshot templates"] |}, g)
  else
    ({| found_matches := false; similar_images := 0;
        earliest_occurrence := None; warnings := [] |}, g).

(** The indicators gathered from the metadata, the text and the visual
    patterns, in this order: [fraud_indicators] as it stands when the
    recommendations are generated. *)
Definition collect_indicators (metadata_analysis : MetadataAnalysis)
    (text_analysis : TextAnalysis) (pattern_analysis : PatternAnalysis)
  : list FraudIndicator.t :=
  let fraud_indicators : list FraudIndicator.t := [] in
  let fraud_indicators :=
    if suspicious metadata_analysis then
      (fraud_indicators ++
         [indicator "metadata" "medium" (reason metadata_analysis)])%list
    else fraud_indicators in
  let fraud_indicators :=
    if suspicious_text text_analysis then
      (fraud_indicators ++ text_fraud_indicators text_analysis)%list
    else fraud_indicators in
  let fraud_indicators :=
    (fraud_indicators ++
       List.map (fun region =>
              indicator "copy_paste" "high"
                ("Potential copy-paste detected: " +:+ description region))
           (copy_paste_regions pattern_analysis))%list in
  (fraud_indicators ++
     List.map (fun inconsistency =>
            indicator "resolution" (inc_severity inconsistency)
                      (inc_description inconsistency))
         (resolution_inconsistencies pattern_analysis))%list.

(** "Generate recommendations", on the indicators gathered so far. *)
Definition generate_recommendations (fraud_indicators : list FraudIndicator.t)
  : list string :=
  let recommendations : list string := [] in
  if (len fraud_indicators =? 0)%Z then
    (recommendations ++
       ["Screenshot appears authentic with no major fraud indicators detected"])%list
  else
    let recommendations :=
      (recommendations ++
         ["⚠️ " +:+ str_Z (len fraud_indicators)
          +:+ " potential fraud indicators detected"])%list in
    let recommendations :=
      if List.existsb is_high fraud_indicators then
        (recommendations ++
           ["🚨 HIGH RISK: Manual verification strongly recommended"])%list
      else recommendations in
    (recommendations ++
       ["🔍 Verify transaction details through official banking channels";
        "📱 Cross-check with actual bank/payment app statements"])%list.

(** The part of [analyze_transaction_screenshot] after the four analyses
    have run: from "Collect fraud indicators" to the returned dictionary. *)
Definition compile_report (metadata_analysis : MetadataAnalysis)
    (text_analysis : TextAnalysis) (pattern_analysis : PatternAnalysis)
    (reverse_search : ReverseSearch) : Result :=
  let fraud_indicators :=
    collect_indicators metadata_analysis text_analysis pattern_analysis in
  let recommendations := generate_recommendations fraud_indicators in
  let '(fraud_indicators, recommendations) :=
    if found_matches reverse_search then
      ((fraud_indicators ++
          [indicator "reverse_search" "high"
             "Similar images found online - possible template reuse"])%list,
       (recommendations ++
          ["🌐 Similar images found online - verify authenticity carefully"])%list)
    else (fraud_indicators, recommendations) in
  {| error := None;
     metadata_analysis := Some metadata_analysis;
     text_analysis := Some text_analysis;
     pattern_analysis := Some pattern_analysis;
     reverse_search := Some reverse_search;
     fraud_indicators := fraud_indicators;
     recommendations := recommendations;
     overall_risk := _calculate_overall_risk fraud_indicators;
     analysis_timestamp := Some datetime_now_isoformat |}.

(** The dictionary of the outer handler. *)
Definition failure_report (e : string) : Result :=
  {| error := Some ("Analysis failed: " +:+ e);
     metadata_analysis := None; text_analysis := None;
     pattern_analysis := None; reverse_search := None;
     fraud_indicators := [];
     recommendations := ["Analysis failed - manual verification required"];
     overall_risk := "unknown";
     analysis_timestamp := None |}.

(** [try: ... except Exception as e: return {...}].  The body starts with
    the conversion, which may raise; the four analyses have handlers of
    their own. *)
Definition analyze_transaction_screenshot (image : Image.t) (g : rng)
  : Result * rng :=
  try_except
    (call cv_image <- Image.to_cv image in
     let metadata_analysis := _analyze_metadata image in
     let text_analysis := _analyze_text_content cv_image in
     let pattern_analysis := _analyze_visual_patterns cv_image in
     let '(reverse_search, g) := _simulate_reverse_search image g in
     Returned
       (compile_report metadata_analysis text_analysis pattern_analysis
                       reverse_search, g))
    (fun e => (failure_report e, g)).
End WithBackend.
End TransactionAnalyzer.

(** ** detector.py *)

Module ImageAuthenticityDetector.

(** The detector object, by the attributes [detect_tampering] reads. *)
Record t : Type := {
  model_type : string;
  model : option string;
  is_loaded : bool
}.

(** [_load_model]: the simple model, a missing model file, the branch
    "not yet implemented" and the handler all end in the same state. *)
Definition _load_model (self : t) : t :=
  {| model_type := "simple"; model := Some "simple_cv_detector";
     is_loaded := true |}.

(** The merged dictionary [{**basic_result, 'transaction_analysis': ...,
    'analysis_type': ...}]; [transaction_analysis] is a key in transaction
    mode only. *)
Record Result {S : Scalar} : Type := {
  is_authentic : bool;
  confidence : num;
  details : string;
  analysis_breakdown : SimpleImageDetector.Breakdown;
  tampered_regions : option (list Region.t);
  transaction_analysis : option TransactionAnalyzer.Result;
  analysis_type : string
}.

Section WithBackend.
Context {S : Scalar} {B : Backend S}.
#[local] Open Scope num_scope.

Definition merge (basic_result : SimpleImageDetector.Result)
    (transaction_analysis : option TransactionAnalyzer.Result)
    (analysis_type : string) : Result :=
  {| is_authentic := SimpleImageDetector.is_authentic basic_result;
     confidence := SimpleImageDetector.confidence basic_result;
     details := SimpleImageDetector.details basic_result;
     analysis_breakdown := SimpleImageDetector.analysis_breakdown basic_result;
     tampered_regions := SimpleImageDetector.tampered_regions basic_result;
     transaction_analysis := transaction_analysis;
     analysis_type := analysis_type |}.

(** "Update overall confidence based on transaction analysis"; the key
    ['fraud_indicators'] is in both shapes of the analysis. *)
Definition reconcile (result : Result)
    (fraud_indicators : list FraudIndicator.t) : Result :=
  let fraud_count := len fraud_indicators in
  let high_risk_count :=
    len (List.filter TransactionAnalyzer.is_high fraud_indicators) in
  if (high_risk_count >? 0)%Z then
    {| is_authentic := false;
       confidence := py_min (confidence result * #0.3) #0.5;
       details :=
         "HIGH RISK: " +:+ str_Z high_risk_count
         +:+ " critical fraud indicators detected";
       analysis_breakdown := analysis_breakdown result;
       tampered_regions := tampered_regions result;
       transaction_analysis := transaction_analysis result;
       analysis_type := analysis_type result |}
  else if (fraud_count >? 2)%Z then
    {| is_authentic := is_authentic result;
       confidence := confidence result * #0.6;
       details :=
         "MODERATE RISK: " +:+ str_Z fraud_count
         +:+ " suspicious patterns found";
       analysis_breakdown := analysis_breakdown result;
       tampered_regions := tampered_regions result;
       transaction_analysis := transaction_analysis result;
       analysis_type := analysis_type result |}
  else result.

(** Both branches of [if self.model == "simple_cv_detector"] call the
    simple detector; any exception leaves as a [RuntimeError]. *)
Definition detect_tampering (self : t) (image : Image.t)
    (analyze_transactions : bool) (g : rng) : Outcome Result * rng :=
  if negb (is_loaded self) then
    (Raised "Detection failed: Model not loaded", g)
  else
    match SimpleImageDetector.detect_tampering image g with
    | (Raised e, g) => (Raised ("Detection failed: " +:+ e), g)
    | (Returned basic_result, g) =>
        if analyze_transactions then
          let '(transaction_analysis, g) :=
            TransactionAnalyzer.analyze_transaction_screenshot image g in
          let result :=
            merge basic_result (Some transaction_analysis) "comprehensive" in
          (Returned
             (reconcile result
                (TransactionAnalyzer.fraud_indicators transaction_analysis)),
           g)
        else
          (Returned (merge basic_result None "basic"), g)
    end.
End WithBackend.










End ImageAuthenticityDetector.

(** ** app.py *)

Module App.

Definition ALLOWED_EXTENSIONS : list string := ["png"; "jpg"; "jpeg"].

(** [s.rsplit(sep, 1)] for a one-character separator: the text before the
    last separator and the text after it, or [s] alone. *)
Fixpoint rsplit1 (sep : ascii) (s : string) : list string :=
  match s with
  | EmptyString => [EmptyString]
  | String c r =>
      match rsplit1 sep r with
      | [a; b] => [String c a; b]
      | _ => if Ascii.eqb c sep then [EmptyString; r] else [String c r]
      end
  end.

(** [l[i]] *)
Definition index (l : list string) (i : nat) : Outcome string :=
  match l !! i with
  | Some s => Returned s
  | None => Raised "list index out of range"
  end.

Definition allowed_file (filename : string) : Outcome bool :=
  if negb (contains "." filename) then Returned false
  else
    obind (index (rsplit1 "." filename) 1) (fun extension =>
    Returned (bool_decide (lower extension ∈ ALLOWED_EXTENSIONS))).

(** An uploaded file: its name, what [Image.open] makes of it and what
    [convert('RGB')] makes of the opened image. *)
Record Upload : Type := {
  filename : string;
  Image_open : Outcome Image.t;
  convert_RGB : Outcome Image.t
}.

(** [request.files.get('image')] and [request.form.get('transaction_mode')].
    The first access to [request.files] parses the body of the request; for
    a body over [MAX_CONTENT_LENGTH] it raises [RequestEntityTooLarge],
    which is not a [ValueError]: [files_image] is then [Raised]. *)
Record Request : Type := {
  files_image : Outcome (option Upload);
  form_transaction_mode : option string
}.

(** Every exception leaves as a [ValueError]. *)
Definition preprocess_image (image_file : Upload) : Outcome Image.t :=
  match
    obind (Image_open image_file) (fun image =>
    if negb (bool_decide (Image.mode image = "RGB"))
    then convert_RGB image_file
    else Returned image)
  with
  | Returned image => Returned image
  | Raised e => Raised ("Invalid image file: " +:+ e)
  end.

(** An entry of ['suspicious_regions']: of type ['copy_paste'], with the
    keys of the region, or of type ['resolution_inconsistency'], with
    those of the inconsistency. *)
Inductive SuspiciousRegion {S : Scalar} : Type :=
| copy_paste_entry (region : TransactionAnalyzer.CopyPaste)
| resolution_entry (issue : TransactionAnalyzer.Inconsistency).

(** [response['transaction_analysis']] *)
Record TransactionView {S : Scalar} : Type := {
  metadata_analysis : option TransactionAnalyzer.MetadataAnalysis;
  text_analysis : option TransactionAnalyzer.TextAnalysis;
  fraud_indicators : list FraudIndicator.t;
  recommendations : list string;
  suspicious_regions : list SuspiciousRegion
}.

(** The dictionary [response]; the keys set under a condition are
    options. *)
Record Response {S : Scalar} : Type := {
  result : string;
  confidence : num;
  processing_time : num;
  analysis_type : string;
  details : option string;
  tampered_regions : option (list Region.t);
  transaction_analysis : option TransactionView;
  reverse_search : option TransactionAnalyzer.ReverseSearch
}.

(** What the endpoint serves: [{'error': ...}] or the response. *)
Inductive Body {S : Scalar} : Type :=
| ErrorBody (error : string)
| Analysis (response : Response).

Section WithBackend.
Context {S : Scalar} {B : Backend S}.

(** [pattern_analysis.get('copy_paste_regions', [])] followed by
    [pattern_analysis.get('resolution_inconsistencies', [])]. *)
Definition collect_suspicious_regions
    (pattern_analysis : option TransactionAnalyzer.PatternAnalysis)
  : list SuspiciousRegion :=
  let suspicious_regions : list SuspiciousRegion := [] in
  let suspicious_regions :=
    (suspicious_regions ++
       List.map copy_paste_entry
         match pattern_analysis with
         | Some p => TransactionAnalyzer.copy_paste_regions p
         | None => []
         end)%list in
  (suspicious_regions ++
     List.map resolution_entry
       match pattern_analysis with
       | Some p => TransactionAnalyzer.resolution_inconsistencies p
       | None => []
       end)%list.

(** "Prepare response": from the result of the detector to [response]. *)
Definition prepare_response (result : ImageAuthenticityDetector.Result)
    (processing_time : num) : Response :=
  let transaction_data :=
    ImageAuthenticityDetector.transaction_analysis result in
  {| result :=
       if ImageAuthenticityDetector.is_authentic result
       then "Original" else "Edited";
     confidence := ImageAuthenticityDetector.confidence result;
     processing_time := processing_time;
     analysis_type := ImageAuthenticityDetector.analysis_type result;
     details := Some (ImageAuthenticityDetector.details result);
     tampered_regions :=
       match ImageAuthenticityDetector.tampered_regions result with
       | Some (_ :: _ as regions) => Some regions
       | _ => None
       end;
     transaction_analysis :=
       match transaction_data with
       | Some data =>
           Some
             {| metadata_analysis := TransactionAnalyzer.metadata_analysis data;
                text_analysis := TransactionAnalyzer.text_analysis data;
                fraud_indicators := TransactionAnalyzer.fraud_indicators data;
                recommendations := TransactionAnalyzer.recommendations data;
                suspicious_regions :=
                  collect_suspicious_regions
                    (TransactionAnalyzer.pattern_analysis data) |}
       | None => None
       end;
     reverse_search :=
       match transaction_data with
       | Some data =>
           match TransactionAnalyzer.reverse_search data with
           | Some search =>
               if TransactionAnalyzer.found_matches search then
                 Some
                   {| TransactionAnalyzer.found_matches := true;
                      TransactionAnalyzer.similar_images :=
                        TransactionAnalyzer.similar_images search;
                      TransactionAnalyzer.earliest_occurrence :=
                        TransactionAnalyzer.earliest_occurrence search;
                      TransactionAnalyzer.warnings :=
                        TransactionAnalyzer.warnings search |}
               else None
           | None => None
           end
       | None => None
       end |}.

(** [request.form.get('transaction_mode', 'true').lower() == 'true'] *)
Definition transaction_mode_of (request : Request) : bool :=
  bool_decide
    (lower match form_transaction_mode request with
           | Some v => v
           | None => "true"
           end = "true").

(** The endpoint [/analyze]: the body served and its status.  [detector]
    is the module's detector and [processing_time] what the clock
    measured.  A [ValueError] can only come from [preprocess_image] and
    is served as 400 with its message; any other exception is served as
    500: from the access to [request.files], from the detector, and from
    [jsonify(response)], the last statement of the [try] block.
    [jsonify] is Flask's: it sorts the keys of every dictionary and raises
    a [TypeError] on the response it cannot serialise, such as one whose
    EXIF dictionary has keys of two types, names for the tags PIL knows
    and integers for the others.  The dictionaries with the single key
    ['error'] are always served. *)
Definition analyze_image (detector : ImageAuthenticityDetector.t)
    (request : Request) (jsonify : Response -> Outcome unit)
    (processing_time : num) (g : rng)
  : (Body * Z) * rng :=
  match files_image request with
  | Raised _ => ((ErrorBody "Internal server error during analysis", 500), g)
  | Returned None => ((ErrorBody "No image file provided", 400), g)
  | Returned (Some file) =>
      if bool_decide (filename file = "") then
        ((ErrorBody "No file selected", 400), g)
      else
        match allowed_file (filename file) with
        | Raised _ =>
            ((ErrorBody "Internal server error during analysis", 500), g)
        | Returned false =>
            ((ErrorBody "Invalid file type. Only PNG, JPG, JPEG allowed",
              400), g)
        | Returned true =>
            let transaction_mode := transaction_mode_of request in
            match preprocess_image file with
            | Raised e => ((ErrorBody e, 400), g)
            | Returned image =>
                match
                  ImageAuthenticityDetector.detect_tampering
                    detector image transaction_mode g
                with
                | (Raised _, g) =>
                    ((ErrorBody "Internal server error during analysis",
                      500), g)
                | (Returned result, g) =>
                    let response := prepare_response result processing_time in
                    match jsonify response with
                    | Raised _ =>
                        ((ErrorBody "Internal server error during analysis",
                          500), g)
                    | Returned _ => ((Analysis response, 200), g)
                    end
                end
            end
        end
  end.
End WithBackend.
End App.

(** ** Sample inputs *)

Module Samples.
Section WithScalar.
Context {S : Scalar}.
#[local] Open Scope num_scope.

(** A backend for small flat images: the DCT quadrant has the variance
    [hf_variance], the noise residue and the edge map are black, the OCR
    gives [ocr], two blocks correlate as [correlation] says, and the
    generator returns the lower end of its range. *)
Definition backend (hf_variance : num) (ocr : Outcome string)
    (correlation : Grid -> Grid -> num) : Backend S := {|
  cv2_dct := fun _ => Returned [];
  np_var := fun _ => hf_variance;
  cv2_noise := fun g => Returned (List.map (List.map (fun _ => 0%Z)) g);
  np_var_block := fun _ => #0;
  np_mean := fun l => List.fold_left add l #0 / of_Z (len l);
  np_std := fun _ => #0;
  cv2_Canny := fun g => Returned (List.map (List.map (fun _ => 0%Z)) g);
  Contour := unit;
  cv2_findContours := fun _ => Returned [];
  cv2_contourArea := fun _ => #0;
  cv2_convertScaleAbs := fun g => g;
  pytesseract_image_to_string := fun _ => ocr;
  re_findall := fun _ _ => [];
  py_repr := fun l => "[" +:+ join ", " l +:+ "]";
  cv2_matchTemplate := correlation;
  datetime_now_isoformat := "2024-05-01T12:00:00";
  rng := nat;
  np_random_uniform := fun lo _ g => (lo, Datatypes.S g);
  np_random_randint := fun lo _ g => (lo, Datatypes.S g)
|}.

(** Identical blocks correlate perfectly, others not at all. *)
Definition same_block (b1 b2 : Grid) : num :=
  if bool_decide (b1 = b2) then #1 else #0.
End WithScalar.

(** The backend in exact arithmetic, with an OCR that reads nothing. *)
Definition plain : Backend Q_scalar :=
  backend (S := Q_scalar) 1%Q (Returned "") same_block.

(** The same backend on a machine without the OCR engine. *)
Definition without_ocr : Backend Q_scalar :=
  backend (S := Q_scalar) 1%Q
          (Raised "tesseract is not installed or it's not in your PATH")
          same_block.

(** An 8 x 8 gray square. *)
Definition gray8 : Grid := List.repeat (List.repeat 128 8) 8.

(** A PNG screenshot with ordinary EXIF. *)
Definition png : Image.t :=
  Image.make (Some "PNG") (8, 8) "RGB"
    (Returned (Some [("Make", "Canon"); ("DateTime", "2024:01:01 10:00:00")]))
    (Returned gray8).

(** A JPEG of the same pixels. *)
Definition jpeg : Image.t :=
  Image.make (Some "JPEG") (8, 8) "RGB"
    (Returned (Some [("Make", "Canon"); ("DateTime", "2024:01:01 10:00:00")]))
    (Returned gray8).

(** A photo whose capture and digitization times differ. *)
Definition retimed : Image.t :=
  Image.make (Some "PNG") (8, 8) "RGB"
    (Returned (Some [("Software", "Adobe Photoshop 24.0");
                     ("DateTime", "2024:01:01 10:00:00");
                     ("DateTimeOriginal", "2023:12:24 18:30:00")]))
    (Returned gray8).

(** An image that cannot be converted to a three-channel array. *)
Definition unconvertible : Image.t :=
  Image.make (Some "PNG") (8, 8) "P"
    (Returned None) (Raised "Invalid number of channels in input image").

(** A 33 x 65 plane with period 16 in both directions: its three tiles, at
    columns 0, 16 and 32 of row 0, are equal. *)
Definition striped : Grid :=
  List.map (fun i => List.map (fun j => (i mod 16) * 16 + j mod 16)
                              (py_range 0 65 1))
           (py_range 0 33 1).

(** A screenshot without EXIF whose pixels are the striped plane: the blocks
    at columns 0 and 32 are copies of each other. *)
Definition cloned : Image.t :=
  Image.make (Some "PNG") (65, 33) "RGB" (Returned None) (Returned striped).

(** The four analyses of a 1080 x 1920 screenshot in which the metadata, the
    text and the visual patterns show nothing, and whose resolution is in the
    table of the reverse search. *)
Definition clean_metadata : TransactionAnalyzer.MetadataAnalysis :=
  {| TransactionAnalyzer.metadata :=
       Some {| TransactionAnalyzer.format := Some "PNG";
               TransactionAnalyzer.size := (1080, 1920);
               TransactionAnalyzer.mode := "RGB";
               TransactionAnalyzer.exif := [("Make", "Canon")] |};
     TransactionAnalyzer.suspicious := false;
     TransactionAnalyzer.reason := "" |}.

Definition clean_text : TransactionAnalyzer.TextAnalysis :=
  {| TransactionAnalyzer.extracted_text := "Paid to A. Kumar";
     TransactionAnalyzer.banking_keywords_found := 1;
     TransactionAnalyzer.suspicious_text := false;
     TransactionAnalyzer.text_fraud_indicators := [];
     TransactionAnalyzer.text_quality := "poor" |}.

Definition clean_patterns : @TransactionAnalyzer.PatternAnalysis Q_scalar :=
  {| TransactionAnalyzer.copy_paste_regions := [];
     TransactionAnalyzer.resolution_inconsistencies := [];
     TransactionAnalyzer.visual_quality_score := (0.02%Q : @num Q_scalar) |}.

Definition template_match : TransactionAnalyzer.ReverseSearch :=
  {| TransactionAnalyzer.found_matches := true;
     TransactionAnalyzer.similar_images := 3;
     TransactionAnalyzer.earliest_occurrence := Some "2023-01-15";
     TransactionAnalyzer.warnings :=
       ["Resolution matches common screenshot templates"] |}.

(** The signals of the fusion example: three suspicious pixel signals with
    scores 0.7, 0.1 and 0.1, and a quiet metadata signal. *)
Section Fusion.
Context {S : Scalar}.
#[local] Open Scope num_scope.
Definition fusion_jpeg : Signal.t :=
  Signal.make true #0.7 "Over-compressed regions detected".
Definition fusion_noise : Signal.t :=
  Signal.make true #0.1 "Moderate noise inconsistencies".
Definition fusion_edge : Signal.t :=
  Signal.make true #0.1 "Irregular edge patterns detected".
Definition fusion_metadata : Signal.t :=
  Signal.make false #0.05 "Normal metadata".
End Fusion.
End Samples.

(** ** The risk policy, in the words of the specification *)

(** [very_high] if high >= 2; else [high] if high >= 1 or medium >= 3; else
    [medium] if medium >= 1; else [low]. *)
Definition spec_risk (high medium : Z) : string :=
  if high >=? 2 then "very_high"
  else if (high >=? 1) || (medium >=? 3) then "high"
  else if medium >=? 1 then "medium"
  else "low".

(** The number of indicators of a severity. *)
Definition count_severity (s : string) (l : list FraudIndicator.t) : Z :=
  len (List.filter (fun i => bool_decide (FraudIndicator.severity i = s)) l).


(** ** Orders used in the statements *)

(** The rank of a risk label. *)
Definition risk_rank (risk : string) : Z :=
  if bool_decide (risk = "very_high") then 3
  else if bool_decide (risk = "high") then 2
  else if bool_decide (risk = "medium") then 1
  else 0.

(** ** The values of the four signals *)

(** The pairs [(suspicious, score)] that the extractors of the simple
    detector can return, read off their [return] statements.  For the
    metadata the score is [min(score, 1.0)] where [score] starts from [0],
    gains [0.3] for a missing EXIF, [0.4] for each of the three software
    tags that names an editor and [0.2] for inconsistent timestamps. *)
Section SignalValues.
Context {S : Scalar}.
#[local] Open Scope num_scope.

Definition jpeg_values : list (bool * num) :=
  [(false, #0); (true, #0.7); (true, #0.6); (false, #0.2)].

Definition noise_values : list (bool * num) :=
  [(false, #0); (true, #0.8); (true, #0.5); (false, #0.1)].

Definition edge_values : list (bool * num) :=
  [(false, #0); (true, #0.6); (false, #0.1)].

Definition metadata_sums (base : num) : list num :=
  List.flat_map (fun s => [s; s + #0.2])
    [base; base + #0.4; base + #0.4 + #0.4; base + #0.4 + #0.4 + #0.4].

Definition metadata_values : list (bool * num) :=
  (false, #0) :: (false, #0.05)
  :: List.map (fun s => (true, py_min s #1.0))
       (metadata_sums (#0 + #0.3) ++ List.tl (metadata_sums #0))%list.

(** A signal with the given flag and score. *)
Definition signal_of (p : bool * num) : Signal.t := Signal.make p.1 p.2 "".
End SignalValues.

(** ** Further sample inputs *)

Module Lab.
(** A backend for a spliced picture: the noise of the blocks has a standard
    deviation three times its mean, and the edge map has two contours of
    area 20 whose areas vary as much. *)
Definition spliced : Backend Q_scalar := {|
  cv2_dct := fun _ => Returned [];
  np_var := fun _ => (1%Q : @num Q_scalar);
  cv2_noise := fun g => Returned g;
  np_var_block := fun _ => (1%Q : @num Q_scalar);
  np_mean := fun _ => (1%Q : @num Q_scalar);
  np_std := fun _ => (3%Q : @num Q_scalar);
  cv2_Canny := fun g => Returned g;
  Contour := unit;
  cv2_findContours := fun _ => Returned [tt; tt];
  cv2_contourArea := fun _ => (20%Q : @num Q_scalar);
  cv2_convertScaleAbs := fun g => g;
  pytesseract_image_to_string := fun _ => Returned "";
  re_findall := fun _ _ => [];
  py_repr := fun l => "[" +:+ join ", " l +:+ "]";
  cv2_matchTemplate := Samples.same_block (S := Q_scalar);
  datetime_now_isoformat := "2024-05-01T12:00:00";
  rng := nat;
  np_random_uniform := fun lo _ g => (lo, Datatypes.S g);
  np_random_randint := fun lo _ g => (lo, Datatypes.S g)
|}.

(** A machine on which every library call of the analyses fails. *)
Definition blind : Backend Q_scalar := {|
  cv2_dct := fun _ => Raised "cv2.error";
  np_var := fun _ => (0%Q : @num Q_scalar);
  cv2_noise := fun _ => Raised "cv2.error";
  np_var_block := fun _ => (0%Q : @num Q_scalar);
  np_mean := fun _ => (0%Q : @num Q_scalar);
  np_std := fun _ => (0%Q : @num Q_scalar);
  cv2_Canny := fun _ => Raised "cv2.error";
  Contour := unit;
  cv2_findContours := fun _ => Raised "cv2.error";
  cv2_contourArea := fun _ => (0%Q : @num Q_scalar);
  cv2_convertScaleAbs := fun g => g;
  pytesseract_image_to_string :=
    fun _ => Raised "tesseract is not installed or it's not in your PATH";
  re_findall := fun _ _ => [];
  py_repr := fun l => "[" +:+ join ", " l +:+ "]";
  cv2_matchTemplate := Samples.same_block (S := Q_scalar);
  datetime_now_isoformat := "2024-05-01T12:00:00";
  rng := nat;
  np_random_uniform := fun lo _ g => (lo, Datatypes.S g);
  np_random_randint := fun lo _ g => (lo, Datatypes.S g)
|}.

(** A picture whose EXIF block cannot be parsed. *)
Definition unreadable : Image.t :=
  Image.make (Some "PNG") (8, 8) "RGB" (Raised "not a TIFF file (header b'' not valid)")
    (Returned Samples.gray8).

(** The detector of the application. *)
Definition loaded : ImageAuthenticityDetector.t :=
  ImageAuthenticityDetector._load_model
    (ImageAuthenticityDetector.Build_t "simple" None false).

(** The upload of the cloned screenshot under an upper-case extension, and
    a request that carries it without the field [transaction_mode]. *)
Definition upload : App.Upload :=
  {| App.filename := "receipt.PNG";
     App.Image_open := Returned Samples.cloned;
     App.convert_RGB := Returned Samples.cloned |}.

Definition request : App.Request :=
  {| App.files_image := Returned (Some upload);
     App.form_transaction_mode := None |}.

(** A request whose body is over the limit of 10 MB. *)
Definition oversized : App.Request :=
  {| App.files_image := Raised "413 Request Entity Too Large";
     App.form_transaction_mode := None |}.

(** [jsonify] on responses that can be serialised, and on one that
    cannot. *)
Definition serialised : @App.Response Q_scalar -> Outcome unit :=
  fun _ => Returned tt.

Definition unsortable : @App.Response Q_scalar -> Outcome unit :=
  fun _ => Raised "'<' not supported between instances of 'int' and 'str'".
End Lab.
(** * Properties *)

(** ** Risk aggregation *)

Lemma len_nonneg {A} (l : list A) : 0 <= len l.
Proof. unfold len. lia. Qed.

Lemma len_cons {A} (a : A) (l : list A) : len (a :: l) = 1 + len l.
Proof. unfold len. cbn [List.length]. lia. Qed.

Lemma len_app {A} (l k : list A) : len (l ++ k) = len l + len k.
Proof. unfold len. rewrite List.length_app. lia. Qed.

Lemma len_filter_perm {A} (f : A -> bool) (l l' : list A) :
  Permutation l l' -> len (List.filter f l) = len (List.filter f l').
Proof.
  induction 1 as [|a l l' _ IH|a b l|l l' l'' _ IH1 _ IH2]; cbn [List.filter].
  - reflexivity.
  - destruct (f a); rewrite ?len_cons, IH; reflexivity.
  - destruct (f a), (f b); rewrite ?len_cons; reflexivity.
  - congruence.
Qed.

Lemma risk_is_spec_risk (l : list FraudIndicator.t) :
  TransactionAnalyzer._calculate_overall_risk l
  = spec_risk (count_severity "high" l) (count_severity "medium" l).
Proof.
  unfold TransactionAnalyzer._calculate_overall_risk, spec_risk, count_severity.
  destruct l as [|i l]; [reflexivity|].
  fold (TransactionAnalyzer.is_high) (TransactionAnalyzer.is_medium).
  set (h := len (List.filter TransactionAnalyzer.is_high (i :: l))).
  set (m := len (List.filter TransactionAnalyzer.is_medium (i :: l))).
  destruct (h >=? 2); [reflexivity|].
  destruct (h >=? 1); [reflexivity|].
  destruct (m >=? 3); reflexivity.
Qed.

(** C4. The risk of a list of indicators is the banded function of its
    numbers of high and of medium indicators given by the specification, so it
    is the same for every ordering of the list; two high and no medium give
    [very_high], one high gives [high], three medium without a high give
    [high], one medium without a high gives [medium], and the empty list
    gives [low]. *)
Theorem C4_overall_risk_bands (l : list FraudIndicator.t) :
  TransactionAnalyzer._calculate_overall_risk l
  = spec_risk (count_severity "high" l) (count_severity "medium" l)
  /\ (forall l', Permutation l l' ->
        TransactionAnalyzer._calculate_overall_risk l'
        = TransactionAnalyzer._calculate_overall_risk l)
  /\ spec_risk 2 0 = "very_high"
  /\ (forall medium, spec_risk 1 medium = "high")
  /\ spec_risk 0 3 = "high"
  /\ spec_risk 0 1 = "medium"
  /\ TransactionAnalyzer._calculate_overall_risk [] = "low".
Proof.
  split; [apply risk_is_spec_risk|].
  split.
  - intros l' Hp. rewrite !risk_is_spec_risk. unfold count_severity.
    rewrite (len_filter_perm _ l l' Hp).
    rewrite (len_filter_perm (fun i => bool_decide (FraudIndicator.severity i = "medium")) l l' Hp).
    reflexivity.
  - repeat split.
Qed.

(** ** The fusion of the four signals *)

Section FusionExample.
Import SimpleImageDetector.
#[local] Open Scope num_scope.

(** The confidence of the example, in exact arithmetic. *)
Lemma fusion_example_Q (B : Backend Q_scalar) (g : rng) (rj rn re rm : string)
    (sm : @num Q_scalar) :
  exists conf : Q,
    combine_results (Signal.make true #0.7 rj) (Signal.make true #0.1 rn)
                    (Signal.make true #0.1 re) (Signal.make false sm rm) g
    = ((true, conf,
        ["JPEG compression: " +:+ rj; "Noise patterns: " +:+ rn;
         "Edge analysis: " +:+ re]), g)
    /\ (conf == (0.7 * 0.3 + 0.1 * 0.3 + 0.1 * 0.25) / (0.3 + 0.3 + 0.25 + 0.15))%Q
    /\ (conf == 0.265)%Q
    /\ (conf < 0.4)%Q.
Proof.
  eexists. split; [reflexivity|]. repeat split.
Qed.

(** The same run in binary64. *)
Lemma fusion_example_binary64 (B : Backend binary64_scalar) (g : rng)
    (rj rn re rm : string) (sm : @num binary64_scalar) :
  combine_results (Signal.make true #0.7 rj) (Signal.make true #0.1 rn)
                  (Signal.make true #0.1 re) (Signal.make false sm rm) g
  = ((true, 0.265%float,
      ["JPEG compression: " +:+ rj; "Noise patterns: " +:+ rn;
       "Edge analysis: " +:+ re]), g).
Proof. reflexivity. Qed.

(** C1, as amended.  For three suspicious pixel signals with the scores 0.7,
    0.1 and 0.1 and a metadata signal that is not suspicious, the fusion
    returns the confidence (0.7*0.3 + 0.1*0.3 + 0.1*0.25) / (0.3 + 0.3 +
    0.25 + 0.15) = 0.265, which is below 0.4, and [is_authentic = true];
    the run in binary64 gives the double 0.265 and the same verdict. *)
Theorem C1_fusion_example :
  (forall (B : Backend Q_scalar) (g : rng) (rj rn re rm : string)
          (sm : @num Q_scalar),
      exists conf : Q,
        combine_results (Signal.make true #0.7 rj) (Signal.make true #0.1 rn)
                        (Signal.make true #0.1 re) (Signal.make false sm rm) g
        = ((true, conf,
            ["JPEG compression: " +:+ rj; "Noise patterns: " +:+ rn;
             "Edge analysis: " +:+ re]), g)
        /\ (conf == (0.7 * 0.3 + 0.1 * 0.3 + 0.1 * 0.25)
                     / (0.3 + 0.3 + 0.25 + 0.15))%Q
        /\ (conf == 0.265)%Q
        /\ (conf < 0.4)%Q)
  /\ (forall (B : Backend binary64_scalar) (g : rng) (rj rn re rm : string)
             (sm : @num binary64_scalar),
        combine_results (Signal.make true #0.7 rj) (Signal.make true #0.1 rn)
                        (Signal.make true #0.1 re) (Signal.make false sm rm) g
        = ((true, 0.265%float,
            ["JPEG compression: " +:+ rj; "Noise patterns: " +:+ rn;
             "Edge analysis: " +:+ re]), g)).
Proof.
  split.
  - intros. apply fusion_example_Q.
  - intros. apply fusion_example_binary64.
Qed.

(** C1, as stated, fails on the sample signals: the verdict is
    [is_authentic = true], not [false], and the confidence is 0.265, which
    does not round to 0.367. *)
Lemma C1_stated_verdict_fails :
  let r := (combine_results (B := Samples.plain)
              Samples.fusion_jpeg Samples.fusion_noise
              Samples.fusion_edge Samples.fusion_metadata 0%nat).1 in
  r.1.1 = true
  /\ r.1.1 <> false
  /\ (r.1.2 == 0.265)%Q
  /\ ~ (0.3665 <= r.1.2 <= 0.3675)%Q.
Proof.
  cbv zeta. vm_compute. repeat split; try discriminate.
  intros [H _]. apply H. reflexivity.
Qed.
End FusionExample.

(** ** The simple detector on an image *)

Section SimpleDetector.
Import SimpleImageDetector.
#[local] Open Scope num_scope.

(** With no suspicious signal the details are empty and the verdict comes
    from the generator: this holds for every scalar. *)
Lemma combine_all_clear {S : Scalar} {B : Backend S}
    (j n e m : Signal.t) (g : rng) :
  Signal.suspicious j = false -> Signal.suspicious n = false ->
  Signal.suspicious e = false -> Signal.suspicious m = false ->
  combine_results j n e m g
  = ((true, (np_random_uniform #0.75 #0.90 g).1,
      ["No significant tampering indicators detected"]),
     (np_random_uniform #0.75 #0.90 g).2).
Proof.
  intros Hj Hn He Hm. unfold combine_results, weigh.
  rewrite Hj, Hn, He, Hm. cbn.
  destruct (np_random_uniform #0.75 #0.90 g); reflexivity.
Qed.

(** With a suspicious signal the generator is not consulted. *)
Lemma combine_keeps_generator {S : Scalar} {B : Backend S}
    (j n e m : Signal.t) (g : rng) :
  Signal.suspicious j || Signal.suspicious n || Signal.suspicious e
    || Signal.suspicious m = true ->
  (combine_results j n e m g).2 = g.
Proof.
  unfold combine_results, weigh.
  destruct (Signal.suspicious j), (Signal.suspicious n), (Signal.suspicious e),
    (Signal.suspicious m); cbn; intros H; try discriminate H; reflexivity.
Qed.

(** The detector returns as soon as the conversion does. *)
Lemma detect_tampering_returns {S : Scalar} {B : Backend S}
    (image : Image.t) (cv_image : Grid) (g : rng) :
  Image.to_cv image = Returned cv_image ->
  let j := _analyze_jpeg_compression image cv_image in
  let n := _analyze_noise_patterns cv_image in
  let e := _analyze_edge_consistency cv_image in
  let m := _analyze_metadata image in
  let c := combine_results j n e m g in
  detect_tampering image g
  = (Returned
       {| is_authentic := c.1.1.1;
          confidence := c.1.1.2;
          details := join "; " c.1.2;
          analysis_breakdown :=
            {| jpeg_compression := j; noise_patterns := n;
               edge_consistency := e; metadata := m |};
          tampered_regions :=
            match _find_tampered_regions cv_image j n e with
            | [] => None
            | r :: l => Some (r :: l)
            end |},
     c.2).
Proof.
  intros Hcv. cbv zeta. unfold detect_tampering. rewrite Hcv.
  destruct (combine_results _ _ _ _ g) as [[[a c] d] g']. cbn [fst snd].
  match goal with
  | |- context [_find_tampered_regions ?x ?j ?n ?e] =>
      destruct (_find_tampered_regions x j n e)
  end; reflexivity.
Qed.

(** The result on an image without a suspicious signal, for every scalar
    and every order [le] that the generator respects. *)
Lemma all_clear_result {S : Scalar} {B : Backend S} (le : num -> num -> Prop)
    (image : Image.t) (cv_image : Grid) (g : rng) :
  Image.to_cv image = Returned cv_image ->
  Signal.suspicious (_analyze_jpeg_compression image cv_image) = false ->
  Signal.suspicious (_analyze_noise_patterns cv_image) = false ->
  Signal.suspicious (_analyze_edge_consistency cv_image) = false ->
  Signal.suspicious (_analyze_metadata image) = false ->
  (forall (lo hi : num) (g0 : rng),
      le lo hi ->
      le lo (np_random_uniform lo hi g0).1 /\ le (np_random_uniform lo hi g0).1 hi) ->
  le #0.75 #0.90 ->
  exists r : Result,
    detect_tampering image g = (Returned r, (np_random_uniform #0.75 #0.90 g).2)
    /\ is_authentic r = true
    /\ confidence r = (np_random_uniform #0.75 #0.90 g).1
    /\ (le #0.75 (confidence r) /\ le (confidence r) #0.90)
    /\ details r = "No significant tampering indicators detected"
    /\ tampered_regions r = None.
Proof.
  intros Hcv Hj Hn He Hm Hgen Hle.
  pose proof (detect_tampering_returns image cv_image g Hcv) as Hr.
  cbv zeta in Hr. rewrite (combine_all_clear _ _ _ _ g Hj Hn He Hm) in Hr.
  eexists. split; [exact Hr|]. cbn [is_authentic confidence details tampered_regions fst snd].
  split; [reflexivity|]. split; [reflexivity|].
  split; [apply (Hgen _ _ g Hle)|].
  split; [reflexivity|].
  unfold _find_tampered_regions. rewrite Hj, Hn, He.
  destruct (shape cv_image); reflexivity.
Qed.

(** C5. On an image none of whose four signals is suspicious, the detector
    returns [is_authentic = true], the confidence that
    [np.random.uniform(0.75, 0.90)] draws, which lies in [0.75, 0.90] for a
    generator that keeps to its interval, and the single line "No
    significant tampering indicators detected" as details; in exact
    arithmetic and in binary64. *)
Theorem C5_all_clear_override :
  (forall (B : Backend Q_scalar) (image : Image.t) (cv_image : Grid) (g : rng),
      Image.to_cv image = Returned cv_image ->
      Signal.suspicious (_analyze_jpeg_compression (B := B) image cv_image) = false ->
      Signal.suspicious (_analyze_noise_patterns (B := B) cv_image) = false ->
      Signal.suspicious (_analyze_edge_consistency (B := B) cv_image) = false ->
      Signal.suspicious (_analyze_metadata (S := Q_scalar) image) = false ->
      (forall (lo hi : Q) (g0 : rng),
          (lo <= hi)%Q ->
          (lo <= (np_random_uniform (Backend := B) lo hi g0).1 <= hi)%Q) ->
      exists r : @Result Q_scalar,
        detect_tampering (B := B) image g
        = (Returned r, (np_random_uniform (Backend := B) 0.75%Q 0.90%Q g).2)
        /\ is_authentic r = true
        /\ confidence r = (np_random_uniform (Backend := B) 0.75%Q 0.90%Q g).1
        /\ (0.75 <= confidence r <= 0.90)%Q
        /\ details r = "No significant tampering indicators detected"
        /\ tampered_regions r = None)
  /\ (forall (B : Backend binary64_scalar) (image : Image.t) (cv_image : Grid)
             (g : rng),
        Image.to_cv image = Returned cv_image ->
        Signal.suspicious (_analyze_jpeg_compression (B := B) image cv_image) = false ->
        Signal.suspicious (_analyze_noise_patterns (B := B) cv_image) = false ->
        Signal.suspicious (_analyze_edge_consistency (B := B) cv_image) = false ->
        Signal.suspicious (_analyze_metadata (S := binary64_scalar) image) = false ->
        (forall (lo hi : float) (g0 : rng),
            (lo <=? hi)%float = true ->
            (lo <=? (np_random_uniform (Backend := B) lo hi g0).1)%float = true
            /\ ((np_random_uniform (Backend := B) lo hi g0).1 <=? hi)%float = true) ->
        exists r : @Result binary64_scalar,
          detect_tampering (B := B) image g
          = (Returned r,
             (np_random_uniform (Backend := B) 0.75%float 0.90%float g).2)
          /\ is_authentic r = true
          /\ confidence r
             = (np_random_uniform (Backend := B) 0.75%float 0.90%float g).1
          /\ ((0.75 <=? confidence r)%float = true
              /\ (confidence r <=? 0.90)%float = true)
          /\ details r = "No significant tampering indicators detected"
          /\ tampered_regions r = None).
Proof.
  split.
  - intros B image cv_image g Hcv Hj Hn He Hm Hgen.
    apply (all_clear_result (S := Q_scalar) Qle image cv_image g Hcv Hj Hn He Hm Hgen).
    discriminate.
  - intros B image cv_image g Hcv Hj Hn He Hm Hgen.
    apply (all_clear_result (S := binary64_scalar)
             (fun a b => (a <=? b)%float = true)
             image cv_image g Hcv Hj Hn He Hm Hgen).
    reflexivity.
Qed.

(** C5 on the sample PNG. *)
Lemma C5_all_clear_witness :
  exists r : @Result Q_scalar,
    detect_tampering (B := Samples.plain) Samples.png 0%nat = (Returned r, 1%nat)
    /\ is_authentic r = true
    /\ confidence r = 0.75%Q
    /\ (0.75 <= confidence r <= 0.90)%Q
    /\ details r = "No significant tampering indicators detected"
    /\ tampered_regions r = None.
Proof.
  apply (proj1 C5_all_clear_override Samples.plain Samples.png Samples.gray8 0%nat);
    try reflexivity.
  intros lo hi g0 H. split; [apply Qle_refl | exact H].
Defined.

(** The box of [_find_tampered_regions], for every scalar: present exactly
    when a pixel signal is suspicious, and then the single box below. *)
Lemma find_tampered_regions_box {S : Scalar} (cv_image : Grid)
    (j n e : Signal.t) :
  _find_tampered_regions cv_image j n e
  = if Signal.suspicious j || Signal.suspicious n || Signal.suspicious e
    then [Region.make ((shape cv_image).2 / 4) ((shape cv_image).1 / 4)
                      ((shape cv_image).2 / 3) ((shape cv_image).1 / 3)
                      (py_max3 (Signal.score j) (Signal.score n) (Signal.score e))]
    else [].
Proof.
  unfold _find_tampered_regions. destruct (shape cv_image) as [h w].
  destruct (_ || _); reflexivity.
Qed.

Lemma Q_ltb_true (a b : Q) : ltb (Scalar := Q_scalar) a b = true <-> (a < b)%Q.
Proof.
  cbn. rewrite negb_true_iff, <- not_true_iff_false, Qle_bool_iff.
  split; [apply Qnot_le_lt | apply Qlt_not_le].
Qed.

Lemma Q_ltb_false (a b : Q) : ltb (Scalar := Q_scalar) a b = false <-> (b <= a)%Q.
Proof. cbn. rewrite negb_false_iff. apply Qle_bool_iff. Qed.

(** In exact arithmetic [max(a, b, c)] is an upper bound of its arguments
    and one of them. *)
Lemma py_max3_is_max (a b c : Q) :
  let m := py_max3 (S := Q_scalar) a b c in
  (a <= m)%Q /\ (b <= m)%Q /\ (c <= m)%Q /\ (m = a \/ m = b \/ m = c).
Proof.
  cbv zeta. unfold py_max3.
  destruct (ltb (Scalar := Q_scalar) a b) eqn:Hab;
    [apply Q_ltb_true in Hab | apply Q_ltb_false in Hab].
  - destruct (ltb (Scalar := Q_scalar) b c) eqn:Hbc;
      [apply Q_ltb_true in Hbc | apply Q_ltb_false in Hbc];
      repeat split; auto; lra.
  - destruct (ltb (Scalar := Q_scalar) a c) eqn:Hac;
      [apply Q_ltb_true in Hac | apply Q_ltb_false in Hac];
      repeat split; auto; lra.
Qed.

(** The box lies inside an image of [h] rows and [w] columns. *)
Lemma box_inside (d : Z) :
  0 <= d -> 0 <= d / 4 /\ 0 <= d / 3 /\ d / 4 + d / 3 <= d.
Proof.
  intros Hd.
  pose proof (Z.div_pos d 4 Hd ltac:(lia)).
  pose proof (Z.div_pos d 3 Hd ltac:(lia)).
  pose proof (Z.mul_div_le d 4 ltac:(lia)).
  pose proof (Z.mul_div_le d 3 ltac:(lia)).
  lia.
Qed.

Lemma shape_nonneg {A} (g : list (list A)) : 0 <= (shape g).1 /\ 0 <= (shape g).2.
Proof.
  unfold shape. cbn [fst snd]. split; [apply len_nonneg|].
  destruct g; [lia | apply len_nonneg].
Qed.

(** The scores the three pixel extractors can return. *)
Lemma pixel_score_values {S : Scalar} {B : Backend S} (image : Image.t)
    (cv_image : Grid) :
  Signal.score (_analyze_jpeg_compression image cv_image)
    ∈ [(#0); #0.7; #0.6; #0.2]
  /\ Signal.score (_analyze_noise_patterns cv_image) ∈ [(#0); #0.8; #0.5; #0.1]
  /\ Signal.score (_analyze_edge_consistency cv_image) ∈ [(#0); #0.6; #0.1].
Proof.
  split; [|split].
  - unfold _analyze_jpeg_compression, analysis_failed.
    destruct (negb _); [cbn; repeat constructor|].
    destruct (cv2_dct cv_image); cbn [obind try_except]; [|cbn; repeat constructor].
    repeat match goal with |- context [if ?c then _ else _] => destruct c end;
      cbn; repeat constructor.
  - unfold _analyze_noise_patterns, analysis_failed.
    destruct (cv2_noise cv_image) as [noise|]; cbn [obind try_except];
      [|cbn; repeat constructor].
    destruct (shape noise).
    repeat match goal with |- context [if ?c then _ else _] => destruct c end;
      cbn; repeat constructor.
  - unfold _analyze_edge_consistency, analysis_failed.
    destruct (cv2_Canny cv_image) as [edges|]; cbn [obind try_except];
      [|cbn; repeat constructor].
    destruct (cv2_findContours edges); cbn [obind try_except];
      [|cbn; repeat constructor].
    repeat match goal with |- context [if ?c then _ else _] => destruct c end;
      cbn; repeat constructor.
Qed.

(** In binary64 [max(a, b, c)] is an upper bound of the scores the
    extractors return, and one of them. *)
Lemma py_max3_is_max_binary64 (a b c : float) :
  a ∈ [0; 0.7; 0.6; 0.2]%float -> b ∈ [0; 0.8; 0.5; 0.1]%float ->
  c ∈ [0; 0.6; 0.1]%float ->
  let m := py_max3 (S := binary64_scalar) a b c in
  ((a <=? m)%float = true /\ (b <=? m)%float = true /\ (c <=? m)%float = true)
  /\ (m = a \/ m = b \/ m = c).
Proof.
  rewrite !elem_of_cons, !elem_of_nil. intros Ha Hb Hc.
  repeat match goal with
    | H : _ \/ _ |- _ => destruct H as [H|H]
    | H : False |- _ => destruct H
    end; subst; vm_compute; auto.
Qed.

(** The key [tampered_regions] and its box, for every scalar. *)
Lemma tampered_region_result {S : Scalar} {B : Backend S} (image : Image.t)
    (cv_image : Grid) (g : rng) :
  Image.to_cv image = Returned cv_image ->
  let j := _analyze_jpeg_compression image cv_image in
  let n := _analyze_noise_patterns cv_image in
  let e := _analyze_edge_consistency cv_image in
  let h := (shape cv_image).1 in
  let w := (shape cv_image).2 in
  exists (r : Result) (g' : rng),
    detect_tampering image g = (Returned r, g')
    /\ (tampered_regions r <> None
        <-> Signal.suspicious j = true \/ Signal.suspicious n = true
            \/ Signal.suspicious e = true)
    /\ (tampered_regions r <> None ->
        tampered_regions r
        = Some [Region.make (w / 4) (h / 4) (w / 3) (h / 3)
                  (py_max3 (Signal.score j) (Signal.score n) (Signal.score e))]
        /\ 0 <= w / 4 /\ w / 4 + w / 3 <= w
        /\ 0 <= h / 4 /\ h / 4 + h / 3 <= h).
Proof.
  intros Hcv j n e h w.
  pose proof (detect_tampering_returns image cv_image g Hcv) as Hr.
  cbv zeta in Hr. fold j n e in Hr.
  rewrite (find_tampered_regions_box cv_image j n e) in Hr. fold h w in Hr.
  eexists. eexists. split; [exact Hr|]. cbn [tampered_regions].
  destruct (shape_nonneg cv_image) as [Hh Hw]. fold h in Hh. fold w in Hw.
  destruct (box_inside h Hh) as (Hh4 & _ & Hhb).
  destruct (box_inside w Hw) as (Hw4 & _ & Hwb).
  assert (Hor : Signal.suspicious j || Signal.suspicious n || Signal.suspicious e
                = true
                <-> Signal.suspicious j = true \/ Signal.suspicious n = true
                    \/ Signal.suspicious e = true)
    by (rewrite !orb_true_iff; tauto).
  rewrite <- Hor.
  destruct (Signal.suspicious j || Signal.suspicious n || Signal.suspicious e).
  - split; [split; [reflexivity | discriminate]|].
    intros _. repeat split; assumption.
  - split; [split; [intros H; now contradict H | discriminate]|].
    intros H. now contradict H.
Qed.

(** C10. For an image of [h] rows and [w] columns the result has the key
    [tampered_regions] exactly when one of the three pixel signals is
    suspicious; it then holds the single box [x = w//4], [y = h//4],
    [width = w//3], [height = h//3], which lies inside the image, and its
    confidence is the largest of the three pixel scores; in exact arithmetic
    and in binary64. *)
Theorem C10_tampered_region_box :
  (forall (B : Backend Q_scalar) (image : Image.t) (cv_image : Grid) (g : rng),
      Image.to_cv image = Returned cv_image ->
      let j := _analyze_jpeg_compression (B := B) image cv_image in
      let n := _analyze_noise_patterns (B := B) cv_image in
      let e := _analyze_edge_consistency (B := B) cv_image in
      let h := (shape cv_image).1 in
      let w := (shape cv_image).2 in
      exists (r : @Result Q_scalar) (g' : rng),
        detect_tampering (B := B) image g = (Returned r, g')
        /\ (tampered_regions r <> None
            <-> Signal.suspicious j = true \/ Signal.suspicious n = true
                \/ Signal.suspicious e = true)
        /\ (tampered_regions r <> None ->
            exists c : @num Q_scalar,
              tampered_regions r
              = Some [Region.make (w / 4) (h / 4) (w / 3) (h / 3) c]
              /\ (0 <= w / 4 /\ w / 4 + w / 3 <= w)
              /\ (0 <= h / 4 /\ h / 4 + h / 3 <= h)
              /\ ((Signal.score j <= c)%Q /\ (Signal.score n <= c)%Q
                  /\ (Signal.score e <= c)%Q)
              /\ (c = Signal.score j \/ c = Signal.score n \/ c = Signal.score e)))
  /\ (forall (B : Backend binary64_scalar) (image : Image.t) (cv_image : Grid)
             (g : rng),
        Image.to_cv image = Returned cv_image ->
        let j := _analyze_jpeg_compression (B := B) image cv_image in
        let n := _analyze_noise_patterns (B := B) cv_image in
        let e := _analyze_edge_consistency (B := B) cv_image in
        let h := (shape cv_image).1 in
        let w := (shape cv_image).2 in
        exists (r : @Result binary64_scalar) (g' : rng),
          detect_tampering (B := B) image g = (Returned r, g')
          /\ (tampered_regions r <> None
              <-> Signal.suspicious j = true \/ Signal.suspicious n = true
                  \/ Signal.suspicious e = true)
          /\ (tampered_regions r <> None ->
              exists c : @num binary64_scalar,
                tampered_regions r
                = Some [Region.make (w / 4) (h / 4) (w / 3) (h / 3) c]
                /\ (0 <= w / 4 /\ w / 4 + w / 3 <= w)
                /\ (0 <= h / 4 /\ h / 4 + h / 3 <= h)
                /\ ((Signal.score j <=? c)%float = true
                    /\ (Signal.score n <=? c)%float = true
                    /\ (Signal.score e <=? c)%float = true)
                /\ (c = Signal.score j \/ c = Signal.score n
                    \/ c = Signal.score e))).
Proof.
  split.
  - intros B image cv_image g Hcv j n e h w.
    destruct (tampered_region_result image cv_image g Hcv)
      as (r & g' & Hr & Hiff & Hbox).
    exists r, g'. split; [exact Hr|]. split; [exact Hiff|].
    intros Hsome. destruct (Hbox Hsome) as (Heq & Hw4 & Hwb & Hh4 & Hhb).
    eexists. split; [exact Heq|]. split; [tauto|]. split; [tauto|].
    destruct (py_max3_is_max (Signal.score j) (Signal.score n) (Signal.score e))
      as (Hmj & Hmn & Hme & Hmx).
    tauto.
  - intros B image cv_image g Hcv j n e h w.
    destruct (tampered_region_result image cv_image g Hcv)
      as (r & g' & Hr & Hiff & Hbox).
    exists r, g'. split; [exact Hr|]. split; [exact Hiff|].
    intros Hsome. destruct (Hbox Hsome) as (Heq & Hw4 & Hwb & Hh4 & Hhb).
    eexists. split; [exact Heq|]. split; [tauto|]. split; [tauto|].
    destruct (pixel_score_values (B := B) image cv_image) as (Vj & Vn & Ve).
    exact (py_max3_is_max_binary64 _ _ _ Vj Vn Ve).
Qed.

(** C10 on the sample JPEG, whose DCT quadrant is flat. *)
Lemma C10_tampered_region_witness :
  exists (r : @Result Q_scalar) (g' : rng),
    detect_tampering (B := Samples.backend (S := Q_scalar) 0%Q (Returned "")
                                           Samples.same_block)
                     Samples.jpeg 0%nat = (Returned r, g')
    /\ tampered_regions r = Some [Region.make 2 2 2 2 (0.7%Q : @num Q_scalar)].
Proof.
  destruct (proj1 C10_tampered_region_box
              (Samples.backend (S := Q_scalar) 0%Q (Returned "") Samples.same_block)
              Samples.jpeg Samples.gray8 0%nat eq_refl)
    as (r & g' & Hr & _ & _).
  exists r, g'. split; [exact Hr|].
  vm_compute in Hr. injection Hr as <- _. reflexivity.
Defined.
End SimpleDetector.

(** ** The metadata signal *)

Section MetadataSignal.
Import SimpleImageDetector.
#[local] Open Scope num_scope.

Lemma string_app_assoc (a b c : string) : (a +:+ b) +:+ c = a +:+ (b +:+ c).
Proof.
  induction a as [|x a IH]; [reflexivity|].
  change ((String x a +:+ b) +:+ c) with (String x ((a +:+ b) +:+ c)).
  change (String x a +:+ (b +:+ c)) with (String x (a +:+ (b +:+ c))).
  congruence.
Qed.

Lemma prefix_append (n s : string) : String.prefix n (n +:+ s) = true.
Proof.
  induction n as [|c n IH].
  - destruct s; reflexivity.
  - change (String c n +:+ s) with (String c (n +:+ s)). cbn [String.prefix].
    destruct (Ascii.ascii_dec c c); [exact IH | congruence].
Qed.

(** A string that ends in [n] contains [n]. *)
Lemma contains_suffix (n p : string) : contains n (p +:+ n) = true.
Proof.
  induction p as [|c p IH].
  - change ("" +:+ n) with n.
    assert (H : String.prefix n n = true).
    { pose proof (prefix_append n "") as H.
      replace (n +:+ "") with n in H; [exact H|].
      clear H. induction n as [|c n IH]; [reflexivity|].
      change (String c n +:+ "") with (String c (n +:+ "")). congruence. }
    destruct n; cbn [contains]; rewrite H; reflexivity.
  - change (String c p +:+ n) with (String c (p +:+ n)).
    cbn [contains]. rewrite IH. apply orb_true_r.
Qed.

(** The last item of a join is its suffix. *)
Lemma join_snoc (sep : string) (l : list string) (x : string) :
  exists p, join sep (l ++ [x]) = p +:+ x.
Proof.
  unfold join. induction l as [|a l [p IH]].
  - exists "". reflexivity.
  - exists (a +:+ sep +:+ p).
    change ((a :: l) ++ [x])%list with (a :: (l ++ [x]))%list.
    destruct (l ++ [x])%list as [|b k] eqn:E.
    + destruct l; discriminate E.
    + change (String.concat sep (a :: b :: k))
        with (a +:+ sep +:+ String.concat sep (b :: k)).
      rewrite IH, !string_app_assoc. reflexivity.
Qed.

(** Two distinct members give a set of at least two elements. *)
Lemma len_set_two (l : list string) (v1 v2 : string) :
  v1 ∈ l -> v2 ∈ l -> v1 <> v2 -> 1 < len_set l.
Proof.
  intros H1 H2 Hne. unfold len_set, len.
  apply elem_of_remove_dups in H1, H2.
  destruct (remove_dups l) as [|a [|b k]]; cbn [List.length]; [| |lia].
  - inversion H1.
  - apply list_elem_of_singleton in H1, H2. congruence.
Qed.

(** C9. When two of the tags DateTime, DateTimeOriginal and
    DateTimeDigitized are present with different values, the metadata signal
    is suspicious, 0.2 is added to the score accumulated by the earlier
    checks (the sum is capped at 1.0), and "Inconsistent timestamps" is the
    last item of the reason: this holds whatever the earlier checks found,
    also when they found nothing. *)
Theorem C9_inconsistent_timestamps {S : Scalar} (image : Image.t)
    (exif : option (list (string * string))) (t1 t2 v1 v2 : string) :
  Image._getexif image = Returned exif ->
  t1 ∈ timestamp_tags -> t2 ∈ timestamp_tags ->
  exif_data_of exif !! t1 = Some v1 ->
  exif_data_of exif !! t2 = Some v2 ->
  v1 <> v2 ->
  let before := metadata_before_timestamps (exif_data_of exif) in
  _analyze_metadata image
  = Signal.make true (py_min (before.2 + #0.2) #1.0)
                (join "; " (before.1 ++ ["Inconsistent timestamps"]))
  /\ Signal.suspicious (_analyze_metadata image) = true
  /\ contains "Inconsistent timestamps" (Signal.reason (_analyze_metadata image))
     = true.
Proof.
  intros Hexif Ht1 Ht2 Hv1 Hv2 Hne before.
  assert (Hset : 1 < len_set (timestamps_of (exif_data_of exif))).
  { apply (len_set_two _ v1 v2); [| |exact Hne];
      apply list_elem_of_omap; eauto. }
  assert (Heq : _analyze_metadata image
                = Signal.make true (py_min (before.2 + #0.2) #1.0)
                    (join "; " (before.1 ++ ["Inconsistent timestamps"]))).
  { unfold _analyze_metadata. rewrite Hexif. cbn [obind try_except].
    fold before. destruct before as [ind sc]. cbn [fst snd].
    apply Z.gtb_lt in Hset. rewrite Hset.
    destruct (ind ++ ["Inconsistent timestamps"])%list eqn:E; [|reflexivity].
    destruct ind; discriminate E. }
  rewrite Heq. cbn [Signal.suspicious Signal.reason].
  split; [reflexivity|]. split; [reflexivity|].
  destruct (join_snoc "; " before.1 "Inconsistent timestamps") as [p ->].
  apply contains_suffix.
Qed.

(** C9 on the sample photo: the editor adds 0.4 and the timestamps 0.2. *)
Lemma C9_inconsistent_timestamps_witness :
  _analyze_metadata (S := Q_scalar) Samples.retimed
  = Signal.make true (py_min (#0 + #0.4 + #0.2) #1.0)
                "Edited with Photoshop; Inconsistent timestamps"
  /\ Signal.suspicious (_analyze_metadata (S := Q_scalar) Samples.retimed) = true
  /\ contains "Inconsistent timestamps"
       (Signal.reason (_analyze_metadata (S := Q_scalar) Samples.retimed)) = true.
Proof.
  apply (C9_inconsistent_timestamps (S := Q_scalar) Samples.retimed
           (Some [("Software", "Adobe Photoshop 24.0");
                  ("DateTime", "2024:01:01 10:00:00");
                  ("DateTimeOriginal", "2023:12:24 18:30:00")])
           "DateTime" "DateTimeOriginal"
           "2024:01:01 10:00:00" "2023:12:24 18:30:00").
  - reflexivity.
  - apply list_elem_of_here.
  - apply list_elem_of_further, list_elem_of_here.
  - reflexivity.
  - reflexivity.
  - discriminate.
Defined.
End MetadataSignal.

(** ** The copy-paste search *)

Section CopyPasteSearch.
Import TransactionAnalyzer.
Context {S : Scalar} {B : Backend S}.

(** [range(start, stop, step)] holds the numbers from [start] below [stop]
    that are [start] plus a multiple of [step]. *)
Lemma py_range_spec (start stop step x : Z) :
  0 < step ->
  x ∈ py_range start stop step
  <-> start <= x < stop /\ (x - start) mod step = 0.
Proof.
  intros Hs. unfold py_range. rewrite list_elem_of_In, List.in_map_iff.
  set (n := (stop - start + step - 1) / step).
  assert (Hn : forall k : Z, 0 <= k -> (k < n <-> start + k * step < stop)).
  { intros k Hk. unfold n. split; intros H.
    - assert (k + 1 <= (stop - start + step - 1) / step) as H1 by lia.
      apply (Z.mul_le_mono_nonneg_r _ _ step) in H1; [|lia].
      pose proof (Z.mul_div_le (stop - start + step - 1) step Hs). lia.
    - assert (k + 1 <= (stop - start + step - 1) / step); [|lia].
      apply Z.div_le_lower_bound; lia. }
  split.
  - intros (k & <- & Hk). apply List.in_seq in Hk.
    replace (start + Z.of_nat k * step - start) with (Z.of_nat k * step) by lia.
    rewrite Z.mod_mul by lia.
    assert (Z.of_nat k < n) as Hlt by lia.
    apply Hn in Hlt; [|lia]. nia.
  - intros [[Hlo Hhi] Hmod].
    apply Z.mod_divide in Hmod; [|lia]. destruct Hmod as [q Hq].
    assert (0 <= q) by nia.
    exists (Z.to_nat q). split; [lia|].
    apply List.in_seq. split; [lia|]. cbn.
    assert (q < n) by (apply Hn; lia). lia.
Qed.

(** The tiles are the 32 x 32 windows whose corners are multiples of 16 and
    lie strictly more than 32 rows and columns before the end. *)
Lemma tile_spec (gray : Grid) (b : Grid) (i j : Z) :
  (b, i, j) ∈ tile gray
  <-> (0 <= i < (shape gray).1 - 32 /\ i mod 16 = 0)
      /\ (0 <= j < (shape gray).2 - 32 /\ j mod 16 = 0)
      /\ b = slice2 i (i + 32) j (j + 32) gray.
Proof.
  unfold tile. destruct (shape gray) as [h w]. cbn [fst snd].
  change (block_size / 2) with 16. change block_size with 32.
  rewrite list_elem_of_In, List.in_flat_map.
  split.
  - intros (i' & Hi & Hin). apply List.in_map_iff in Hin.
    destruct Hin as (j' & Heq & Hj). injection Heq as <- <- <-.
    apply list_elem_of_In, py_range_spec in Hi, Hj; try lia.
    rewrite Z.sub_0_r in Hi, Hj. tauto.
  - intros (Hi & Hj & ->). exists i. split.
    + apply list_elem_of_In, py_range_spec; [lia|]. rewrite Z.sub_0_r. exact Hi.
    + apply List.in_map_iff. exists j. split; [reflexivity|].
      apply list_elem_of_In, py_range_spec; [lia|]. rewrite Z.sub_0_r. exact Hj.
Qed.

(** The pairs the search skips are those near in both directions. *)
Lemma adjacent_false_iff (y1 x1 y2 x2 : Z) :
  adjacent y1 x1 y2 x2 = false <-> 32 <= Z.abs (y1 - y2) \/ 32 <= Z.abs (x1 - x2).
Proof.
  unfold adjacent. change block_size with 32.
  rewrite andb_false_iff, !Z.ltb_ge. reflexivity.
Qed.

(** What one pair of blocks contributes. *)
Lemma compare_pair_spec (b1 b2 : Grid * Z * Z) (r : CopyPaste) :
  r ∈ compare_pair b1 b2
  <-> adjacent b1.1.2 b1.2 b2.1.2 b2.2 = false
      /\ (cv2_matchTemplate b1.1.1 b2.1.1 >? #0.9)%num = true
      /\ r = {| x1 := b1.2; y1 := b1.1.2; x2 := b2.2; y2 := b2.1.2;
                width := 32; height := 32;
                confidence := cv2_matchTemplate b1.1.1 b2.1.1;
                description :=
                  "Highly similar regions at (" +:+ str_Z b1.2 +:+ ","
                  +:+ str_Z b1.1.2 +:+ ") and (" +:+ str_Z b2.2 +:+ ","
                  +:+ str_Z b2.1.2 +:+ ")" |}.
Proof.
  destruct b1 as [[g1 y1] x1], b2 as [[g2 y2] x2]. unfold compare_pair.
  cbn [fst snd].
  destruct (adjacent y1 x1 y2 x2).
  - split; [intros H; inversion H | intros [H _]; discriminate H].
  - destruct (cv2_matchTemplate g1 g2 >? #0.9)%num.
    + rewrite list_elem_of_singleton. change block_size with 32. intuition.
    + split; [intros H; inversion H | intros (_ & H & _); discriminate H].
Qed.

(** The search emits a record for every pair of an earlier and a later block
    that is not skipped and correlates above 0.9, and nothing else. *)
Lemma compare_blocks_spec (blocks : list (Grid * Z * Z)) (r : CopyPaste) :
  r ∈ compare_blocks blocks
  <-> exists (i k : nat) (b1 b2 : Grid * Z * Z),
        (i < k)%nat /\ blocks !! i = Some b1 /\ blocks !! k = Some b2
        /\ r ∈ compare_pair b1 b2.
Proof.
  induction blocks as [|b rest IH]; cbn [compare_blocks].
  - split; [intros H; inversion H | intros (i & k & b1 & b2 & _ & H & _)].
    discriminate H.
  - rewrite elem_of_app, IH, list_elem_of_In, List.in_flat_map. split.
    + intros [(b2 & Hin & Hr) | (i & k & b1 & b2 & Hik & Hi & Hk & Hr)].
      * apply list_elem_of_In, list_elem_of_lookup in Hin. destruct Hin as [k Hk].
        exists 0%nat, (Datatypes.S k), b, b2.
        split; [lia|]. split; [reflexivity|]. split; [exact Hk|].
        apply list_elem_of_In. exact Hr.
      * exists (Datatypes.S i), (Datatypes.S k), b1, b2. split; [lia|]. auto.
    + intros (i & k & b1 & b2 & Hik & Hi & Hk & Hr).
      destruct k as [|k]; [lia|]. cbn in Hk. destruct i as [|i].
      * injection Hi as <-. left. exists b2. split.
        -- apply list_elem_of_In, list_elem_of_lookup. eauto.
        -- apply list_elem_of_In. exact Hr.
      * right. exists i, k, b1, b2. split; [lia|]. auto.
Qed.

(** The regions reported are those of the search, unless the sharpness
    analysis that follows it raises. *)
Lemma visual_patterns_copy_paste (gray edges : Grid) (ds : list num) :
  cv2_Canny gray = Returned edges ->
  density_regions edges (shape gray).1 (shape gray).2 = Returned ds ->
  copy_paste_regions (_analyze_visual_patterns gray) = compare_blocks (tile gray).
Proof.
  intros He Hd. unfold _analyze_visual_patterns.
  destruct (shape gray) as [h w]. cbn [fst snd] in Hd.
  rewrite He. cbn [obind]. rewrite Hd. reflexivity.
Qed.

(** C3, as amended.  The image is tiled into 32 x 32 blocks at a stride of
    16 pixels.  For every pair of an earlier and a later block whose corners
    differ by at least 32 pixels in at least one axis, the correlation is
    computed, and a record with both locations, the block size and the
    correlation as confidence is emitted exactly when it exceeds 0.9.  Only
    the pairs that differ by less than 32 pixels in both axes are not
    compared. *)
Theorem C3_copy_paste_search (gray : Grid) :
  (forall (b : Grid) (i j : Z),
      (b, i, j) ∈ tile gray
      <-> (0 <= i < (shape gray).1 - 32 /\ i mod 16 = 0)
          /\ (0 <= j < (shape gray).2 - 32 /\ j mod 16 = 0)
          /\ b = slice2 i (i + 32) j (j + 32) gray)
  /\ (forall r : CopyPaste,
        r ∈ compare_blocks (tile gray)
        <-> exists (i k : nat) (b1 b2 : Grid) (y1 x1 y2 x2 : Z),
              (i < k)%nat
              /\ tile gray !! i = Some (b1, y1, x1)
              /\ tile gray !! k = Some (b2, y2, x2)
              /\ (32 <= Z.abs (y1 - y2) \/ 32 <= Z.abs (x1 - x2))
              /\ (cv2_matchTemplate b1 b2 >? #0.9)%num = true
              /\ r = {| x1 := x1; y1 := y1; x2 := x2; y2 := y2;
                        width := 32; height := 32;
                        confidence := cv2_matchTemplate b1 b2;
                        description :=
                          "Highly similar regions at (" +:+ str_Z x1 +:+ ","
                          +:+ str_Z y1 +:+ ") and (" +:+ str_Z x2 +:+ ","
                          +:+ str_Z y2 +:+ ")" |})
  /\ (forall (b1 b2 : Grid) (y1 x1 y2 x2 : Z),
        Z.abs (y1 - y2) < 32 -> Z.abs (x1 - x2) < 32 ->
        compare_pair (b1, y1, x1) (b2, y2, x2) = [])
  /\ (forall (edges : Grid) (ds : list num),
        cv2_Canny gray = Returned edges ->
        density_regions edges (shape gray).1 (shape gray).2 = Returned ds ->
        copy_paste_regions (_analyze_visual_patterns gray)
        = compare_blocks (tile gray)).
Proof.
  split; [intros; apply tile_spec|].
  split.
  - intros r. rewrite compare_blocks_spec. split.
    + intros (i & k & [[b1 y1] x1] & [[b2 y2] x2] & Hik & Hi & Hk & Hr).
      apply compare_pair_spec in Hr. cbn [fst snd] in Hr.
      destruct Hr as (Ha & Hc & ->). apply adjacent_false_iff in Ha.
      exists i, k, b1, b2, y1, x1, y2, x2. auto 10.
    + intros (i & k & b1 & b2 & y1 & x1 & y2 & x2 & Hik & Hi & Hk & Ha & Hc & ->).
      exists i, k, (b1, y1, x1), (b2, y2, x2).
      split; [exact Hik|]. split; [exact Hi|]. split; [exact Hk|].
      apply compare_pair_spec. cbn [fst snd].
      split; [apply adjacent_false_iff; exact Ha|]. split; [exact Hc|reflexivity].
  - split.
    + intros b1 b2 y1 x1 y2 x2 Hy Hx. unfold compare_pair, adjacent.
      change block_size with 32.
      apply Z.ltb_lt in Hy, Hx. rewrite Hy, Hx. reflexivity.
    + apply visual_patterns_copy_paste.
Qed.
End CopyPasteSearch.

(** C3, as stated, fails: in the striped 33 x 65 plane the blocks at columns 0
    and 32 of row 0 differ by 0 pixels, less than 32, in the vertical axis, and
    they are compared and reported. *)
Lemma C3_same_row_blocks_compared :
  shape Samples.striped = (33, 65)
  /\ TransactionAnalyzer.tile Samples.striped !! 0%nat
     = Some (slice2 0 32 0 32 Samples.striped, 0, 0)
  /\ TransactionAnalyzer.tile Samples.striped !! 2%nat
     = Some (slice2 0 32 32 64 Samples.striped, 0, 32)
  /\ Z.abs (0 - 0) < 32
  /\ List.map (fun r => (TransactionAnalyzer.y1 r, TransactionAnalyzer.x1 r,
                         TransactionAnalyzer.y2 r, TransactionAnalyzer.x2 r))
       (TransactionAnalyzer.compare_blocks (B := Samples.plain)
          (TransactionAnalyzer.tile Samples.striped))
     = [(0, 0, 0, 32)].
Proof.
  repeat split; vm_compute; reflexivity.
Qed.

(** ** The transaction chain *)

Section TransactionChain.
Import TransactionAnalyzer.
Context {S : Scalar} {B : Backend S}.

Lemma existsb_is_high (l : list FraudIndicator.t) :
  List.existsb is_high l = true
  <-> exists i, i ∈ l /\ FraudIndicator.severity i = "high".
Proof.
  rewrite List.existsb_exists. unfold is_high.
  split; intros (i & Hi & Hs); exists i.
  - apply bool_decide_eq_true in Hs. split; [apply list_elem_of_In|]; assumption.
  - split; [apply list_elem_of_In | apply bool_decide_eq_true]; assumption.
Qed.

(** The chain on an image that converts: the report of the four analyses. *)
Lemma chain_returns_report (image : Image.t) (cv_image : Grid) (g : rng) :
  Image.to_cv image = Returned cv_image ->
  analyze_transaction_screenshot image g
  = (compile_report (_analyze_metadata image) (_analyze_text_content cv_image)
                    (_analyze_visual_patterns cv_image)
                    (_simulate_reverse_search image g).1,
     (_simulate_reverse_search image g).2).
Proof.
  intros Hcv. unfold analyze_transaction_screenshot. rewrite Hcv.
  cbn [obind]. destruct (_simulate_reverse_search image g). reflexivity.
Qed.

(** The recommendations as the code computes them.  They are generated, in
    a fixed order, over the indicators gathered from the metadata, the
    text, the copy-paste search and the resolution check, at a point where
    the indicator of the reverse search is not yet in the list: the line
    "no major fraud indicators" exactly when that shorter list is empty,
    else a line with the number of its indicators; an escalation line when
    one of them is high; the two lines of advice when it is not empty; and
    last an extra line when the reverse search found matches.  The list
    that is returned, and from which the risk is computed, has the
    indicator of the reverse search as well. *)
Lemma recommendations_as_computed (metadata_analysis : MetadataAnalysis)
    (text_analysis : TextAnalysis) (pattern_analysis : PatternAnalysis)
    (reverse_search : ReverseSearch) :
  let gathered :=
    collect_indicators metadata_analysis text_analysis pattern_analysis in
  let report :=
    compile_report metadata_analysis text_analysis pattern_analysis
                   reverse_search in
  let extra :=
    if found_matches reverse_search
    then ["🌐 Similar images found online - verify authenticity carefully"]
    else [] in
  fraud_indicators report
  = (gathered
     ++ (if found_matches reverse_search
         then [FraudIndicator.make "reverse_search" "high"
                 "Similar images found online - possible template reuse"]
         else []))%list
  /\ (gathered = [] ->
      recommendations report
      = (["Screenshot appears authentic with no major fraud indicators detected"]
         ++ extra)%list)
  /\ (gathered <> [] ->
      (forall i, i ∈ gathered -> FraudIndicator.severity i <> "high") ->
      recommendations report
      = (["⚠️ " +:+ str_Z (len gathered) +:+ " potential fraud indicators detected";
          "🔍 Verify transaction details through official banking channels";
          "📱 Cross-check with actual bank/payment app statements"]
         ++ extra)%list)
  /\ (gathered <> [] ->
      (exists i, i ∈ gathered /\ FraudIndicator.severity i = "high") ->
      recommendations report
      = (["⚠️ " +:+ str_Z (len gathered) +:+ " potential fraud indicators detected";
          "🚨 HIGH RISK: Manual verification strongly recommended";
          "🔍 Verify transaction details through official banking channels";
          "📱 Cross-check with actual bank/payment app statements"]
         ++ extra)%list)
  /\ (forall (image : Image.t) (cv_image : Grid) (g : rng),
        Image.to_cv image = Returned cv_image ->
        metadata_analysis = _analyze_metadata image ->
        text_analysis = _analyze_text_content cv_image ->
        pattern_analysis = _analyze_visual_patterns cv_image ->
        reverse_search = (_simulate_reverse_search image g).1 ->
        (analyze_transaction_screenshot image g).1 = report).
Proof.
  intros gathered report extra.
  assert (Hrec : recommendations report
                 = (generate_recommendations gathered ++ extra)%list).
  { unfold report, compile_report, extra. fold gathered.
    destruct (found_matches reverse_search); cbn [recommendations];
      [reflexivity | symmetry; apply List.app_nil_r]. }
  split.
  { unfold report, compile_report. fold gathered.
    destruct (found_matches reverse_search); cbn [fraud_indicators];
      [reflexivity | symmetry; apply List.app_nil_r]. }
  split; [intros Hg; rewrite Hrec, Hg; reflexivity|].
  split; [|split].
  - intros Hne Hno. rewrite Hrec. unfold generate_recommendations.
    destruct gathered as [|i l] eqn:E; [congruence|]. rewrite len_cons.
    pose proof (len_nonneg l).
    destruct (1 + len l =? 0) eqn:Hz; [lia|].
    destruct (List.existsb is_high (i :: l)) eqn:Hh; [|reflexivity].
    apply existsb_is_high in Hh. destruct Hh as (x & Hx & Hs).
    now destruct (Hno x Hx).
  - intros Hne Hhigh. rewrite Hrec. unfold generate_recommendations.
    destruct gathered as [|i l] eqn:E; [congruence|]. rewrite len_cons.
    pose proof (len_nonneg l).
    destruct (1 + len l =? 0) eqn:Hz; [lia|].
    apply existsb_is_high in Hhigh. rewrite Hhigh. reflexivity.
  - intros image cv_image g Hcv -> -> -> ->.
    rewrite (chain_returns_report image cv_image g Hcv). reflexivity.
Qed.

Lemma overall_risk_known (l : list FraudIndicator.t) :
  _calculate_overall_risk l <> "unknown".
Proof.
  unfold _calculate_overall_risk. destruct l as [|i l]; [discriminate|].
  repeat match goal with |- context [if ?c then _ else _] => destruct c end;
    discriminate.
Qed.

(** The handlers of the analyses that can raise. *)
Lemma metadata_handler (image : Image.t) (e : string) :
  Image._getexif image = Raised e ->
  _analyze_metadata image
  = {| metadata := None; suspicious := false; reason := "Analysis failed" |}.
Proof. intros H. unfold _analyze_metadata. rewrite H. reflexivity. Qed.

Lemma text_handler (cv_image : Grid) (e : string) :
  pytesseract_image_to_string (cv2_convertScaleAbs cv_image) = Raised e ->
  _analyze_text_content cv_image
  = {| extracted_text := ""; banking_keywords_found := 0;
       suspicious_text := false; text_fraud_indicators := [];
       text_quality := "failed" |}.
Proof. intros H. unfold _analyze_text_content. rewrite H. reflexivity. Qed.

Lemma visual_handler (cv_image : Grid) (e : string) :
  cv2_Canny cv_image = Raised e ->
  _analyze_visual_patterns cv_image
  = {| copy_paste_regions := []; resolution_inconsistencies := [];
       visual_quality_score := (#0.0)%num |}.
Proof.
  intros H. unfold _analyze_visual_patterns.
  destruct (shape cv_image). rewrite H. reflexivity.
Qed.

(** C7, as amended.  The chain returns a dictionary on every input.  When
    the conversion of the image at its head fails, that dictionary is the
    error payload: an error message, no indicator, the single line "manual
    verification required" and the risk "unknown".  A failure inside one of
    the analyses is absorbed by the handler of that analysis, which returns
    its neutral result, and the chain returns the ordinary report: no error,
    and a risk computed from the indicators, which is never "unknown". *)
Theorem C7_chain_failures (image : Image.t) (g : rng) :
  (forall e : string,
      Image.to_cv image = Raised e ->
      analyze_transaction_screenshot image g = (failure_report e, g)
      /\ error (failure_report e) = Some ("Analysis failed: " +:+ e)
      /\ fraud_indicators (failure_report e) = []
      /\ recommendations (failure_report e)
         = ["Analysis failed - manual verification required"]
      /\ overall_risk (failure_report e) = "unknown")
  /\ (forall cv_image : Grid,
        Image.to_cv image = Returned cv_image ->
        let report := (analyze_transaction_screenshot image g).1 in
        error report = None
        /\ overall_risk report = _calculate_overall_risk (fraud_indicators report)
        /\ overall_risk report <> "unknown"
        /\ metadata_analysis report = Some (_analyze_metadata image)
        /\ text_analysis report = Some (_analyze_text_content cv_image)
        /\ pattern_analysis report = Some (_analyze_visual_patterns cv_image)
        /\ (forall e, Image._getexif image = Raised e ->
              metadata_analysis report
              = Some {| metadata := None; suspicious := false;
                        reason := "Analysis failed" |})
        /\ (forall e,
              pytesseract_image_to_string (cv2_convertScaleAbs cv_image) = Raised e ->
              text_analysis report
              = Some {| extracted_text := ""; banking_keywords_found := 0;
                        suspicious_text := false; text_fraud_indicators := [];
                        text_quality := "failed" |})
        /\ (forall e, cv2_Canny cv_image = Raised e ->
              pattern_analysis report
              = Some {| copy_paste_regions := [];
                        resolution_inconsistencies := [];
                        visual_quality_score := (#0.0)%num |})).
Proof.
  split.
  - intros e He. unfold analyze_transaction_screenshot. rewrite He.
    repeat split.
  - intros cv_image Hcv report. unfold report.
    rewrite (chain_returns_report image cv_image g Hcv). cbn [fst].
    unfold compile_report.
    destruct (found_matches (_simulate_reverse_search image g).1);
      cbn [error overall_risk fraud_indicators metadata_analysis text_analysis
             pattern_analysis];
      (split; [reflexivity|]); (split; [reflexivity|]);
      (split; [apply overall_risk_known|]);
      (split; [reflexivity|]); (split; [reflexivity|]); (split; [reflexivity|]);
      (split; [intros e He; rewrite (metadata_handler image e He); reflexivity|]);
      (split; [intros e He; rewrite (text_handler cv_image e He); reflexivity|]);
      intros e He; rewrite (visual_handler cv_image e He); reflexivity.
Qed.
End TransactionChain.

(** C7, as stated, fails.  On a machine without the OCR engine the text
    analysis of the sample PNG fails, and the chain still returns the ordinary
    report: no error, the risk "low", and the text analysis marked "failed". *)
Lemma C7_component_failure_absorbed :
  let report :=
    (TransactionAnalyzer.analyze_transaction_screenshot (B := Samples.without_ocr)
       Samples.png 0%nat).1 in
  pytesseract_image_to_string (Backend := Samples.without_ocr)
    (cv2_convertScaleAbs (Backend := Samples.without_ocr) Samples.gray8)
  = Raised "tesseract is not installed or it's not in your PATH"
  /\ TransactionAnalyzer.error report = None
  /\ TransactionAnalyzer.overall_risk report = "low"
  /\ TransactionAnalyzer.recommendations report
     = ["Screenshot appears authentic with no major fraud indicators detected"]
  /\ option_map TransactionAnalyzer.text_quality
       (TransactionAnalyzer.text_analysis report) = Some "failed".
Proof. repeat split. Qed.

(** C6 on a 1080 x 1920 screenshot whose metadata, text and visual patterns
    show nothing and whose resolution is in the table of the reverse
    search.  The list of indicators that is returned holds the high
    indicator of the reverse search; the risk computed from it is "high"
    and the orchestrator, which counts the high indicators of the same
    list, answers "HIGH RISK: 1 critical fraud indicators detected" with
    [is_authentic = false].  The recommendations were generated before
    that indicator was appended: they open with "no major fraud
    indicators" and have neither the count, nor the escalation line, nor
    the two lines of advice, which the same generator gives on the list
    that is returned. *)
Lemma C6_reverse_search_not_counted :
  let report :=
    TransactionAnalyzer.compile_report (B := Samples.plain)
      Samples.clean_metadata Samples.clean_text Samples.clean_patterns
      Samples.template_match in
  TransactionAnalyzer.fraud_indicators report
  = [FraudIndicator.make "reverse_search" "high"
       "Similar images found online - possible template reuse"]
  /\ TransactionAnalyzer.recommendations report
     = ["Screenshot appears authentic with no major fraud indicators detected";
        "🌐 Similar images found online - verify authenticity carefully"]
  /\ TransactionAnalyzer.overall_risk report = "high"
  /\ (forall basic_result : @SimpleImageDetector.Result Q_scalar,
        let final :=
          ImageAuthenticityDetector.reconcile
            (ImageAuthenticityDetector.merge basic_result (Some report)
               "comprehensive")
            (TransactionAnalyzer.fraud_indicators report) in
        ImageAuthenticityDetector.is_authentic final = false
        /\ ImageAuthenticityDetector.details final
           = "HIGH RISK: 1 critical fraud indicators detected")
  /\ TransactionAnalyzer.generate_recommendations
       (TransactionAnalyzer.fraud_indicators report)
     = ["⚠️ 1 potential fraud indicators detected";
        "🚨 HIGH RISK: Manual verification strongly recommended";
        "🔍 Verify transaction details through official banking channels";
        "📱 Cross-check with actual bank/payment app statements"].
Proof.
  cbv zeta. split; [reflexivity|]. split; [reflexivity|].
  split; [reflexivity|]. split; [|reflexivity].
  intros basic_result. split; reflexivity.
Qed.

(** ** The order of binary64 *)

Section Binary64.

Lemma digits2_log2 (p : positive) :
  Zpos (SpecFloat.digits2_pos p) = Z.log2 (Zpos p) + 1.
Proof.
  assert (H : forall q, SpecFloat.digits2_pos q = Pos.size q)
    by (induction q; cbn; congruence).
  rewrite H. destruct p; cbn; lia.
Qed.

(** The number of binary digits grows with the number. *)
Lemma Zdigits2_mono (a b : Z) : 0 < a -> a <= b -> SpecFloat.Zdigits2 a <= SpecFloat.Zdigits2 b.
Proof.
  intros Ha Hab. destruct a as [|a|a]; try lia. destruct b as [|b|b]; try lia.
  cbn [SpecFloat.Zdigits2]. rewrite !digits2_log2.
  pose proof (Z.log2_le_mono (Zpos a) (Zpos b) Hab). lia.
Qed.

Lemma Zdigits2_shift (a : positive) (k : Z) :
  0 <= k -> SpecFloat.Zdigits2 (Zpos a * 2 ^ k) = Zpos (SpecFloat.digits2_pos a) + k.
Proof.
  intros Hk. assert (0 < Zpos a * 2 ^ k) by (apply Z.mul_pos_pos; [lia | apply Z.pow_pos_nonneg; lia]).
  destruct (Zpos a * 2 ^ k) as [|q|q] eqn:E; try lia.
  cbn [SpecFloat.Zdigits2]. rewrite !digits2_log2, <- E.
  rewrite Z.log2_mul_pow2 by lia. lia.
Qed.

Lemma shr_1_m (mrs : shr_record) :
  0 <= shr_m mrs -> shr_m (shr_1 mrs) = shr_m mrs / 2.
Proof.
  destruct mrs as [m r s]. cbn [shr_m]. intros Hm.
  rewrite <- Z.div2_div.
  destruct m as [|[p|p|]|p]; try lia; reflexivity.
Qed.

Lemma iter_shr_m (p : positive) :
  forall mrs, 0 <= shr_m mrs ->
    shr_m (SpecFloat.iter_pos shr_1 p mrs) = shr_m mrs / 2 ^ Zpos p.
Proof.
  induction p as [p IH|p IH|]; intros mrs Hm; cbn [SpecFloat.iter_pos].
  - assert (H1 : 0 <= shr_m (shr_1 mrs))
      by (rewrite shr_1_m by exact Hm; apply Z.div_pos; lia).
    assert (H2 : 0 <= shr_m (SpecFloat.iter_pos shr_1 p (shr_1 mrs)))
      by (rewrite IH by exact H1; apply Z.div_pos; [lia | apply Z.pow_pos_nonneg; lia]).
    rewrite IH by exact H2. rewrite IH by exact H1. rewrite shr_1_m by exact Hm.
    assert (0 < 2 ^ Zpos p) by (apply Z.pow_pos_nonneg; lia).
    rewrite !Z.div_div by lia.
    replace (Zpos p~1) with (1 + Zpos p + Zpos p) by lia.
    rewrite !Z.pow_add_r by lia. f_equal. change (2 ^ 1) with 2. lia.
  - assert (H1 : 0 <= shr_m (SpecFloat.iter_pos shr_1 p mrs))
      by (rewrite IH by exact Hm; apply Z.div_pos; [lia | apply Z.pow_pos_nonneg; lia]).
    rewrite IH by exact H1. rewrite IH by exact Hm.
    assert (0 < 2 ^ Zpos p) by (apply Z.pow_pos_nonneg; lia).
    rewrite !Z.div_div by lia.
    replace (Zpos p~0) with (Zpos p + Zpos p) by lia.
    rewrite !Z.pow_add_r by lia. reflexivity.
  - rewrite shr_1_m by exact Hm. reflexivity.
Qed.

(** A right shift keeps the record when the count is not positive, and
    divides the mantissa by a power of two otherwise. *)
Lemma shr_spec (mrs : shr_record) (e n : Z) :
  0 <= shr_m mrs ->
  (n <= 0 /\ shr mrs e n = (mrs, e))
  \/ (0 < n /\ shr_m (shr mrs e n).1 = shr_m mrs / 2 ^ n /\ (shr mrs e n).2 = e + n).
Proof.
  intros Hm. destruct n as [|p|p]; [left; split; [lia | reflexivity] | | left; split; [lia | reflexivity]].
  right. split; [lia|]. cbn [shr fst snd]. split; [apply iter_shr_m; exact Hm | reflexivity].
Qed.

Lemma round_nearest_even_bounds (m : Z) (l : location) :
  m <= round_nearest_even m l <= m + 1.
Proof.
  destruct l as [|[| |]]; cbn [round_nearest_even]; try lia.
  destruct (Z.even m); lia.
Qed.

Lemma fexp_mono (a b : Z) : a <= b -> fexp prec emax a <= fexp prec emax b.
Proof. unfold fexp. lia. Qed.

Lemma bounded_canonical (m : positive) (e : Z) :
  bounded prec emax m e = true ->
  fexp prec emax (Zpos (digits2_pos m) + e) = e /\ e <= emax - prec.
Proof.
  unfold bounded, canonical_mantissa. rewrite andb_true_iff, Z.eqb_eq, Z.leb_le.
  tauto.
Qed.

(** Positive finite numbers in canonical form compare by exponent first. *)
Lemma SFleb_finite (m : positive) (e : Z) (mx : positive) (ex : Z) :
  e < ex \/ (e = ex /\ Zpos m <= Zpos mx) ->
  SFleb (S754_finite false m e) (S754_finite false mx ex) = true.
Proof.
  unfold SFleb, SFcompare. intros [H | [-> H]].
  - apply Z.compare_lt_iff in H. rewrite H. reflexivity.
  - rewrite Z.compare_refl, Pos.compare_cont_spec. cbn [Pos.switch_Eq].
    destruct (Pos.compare_spec m mx); try reflexivity. lia.
Qed.

(** Rounding a positive number that lies below a representable one gives at
    most that one. *)
Lemma round_below (P : positive) (e0 : Z) (mx : positive) (ex : Z) :
  e0 <= ex ->
  Zpos P < Zpos mx * 2 ^ (ex - e0) ->
  bounded prec emax mx ex = true ->
  SFleb (binary_round_aux prec emax false (Zpos P) e0 loc_Exact)
        (S754_finite false mx ex) = true.
Proof.
  intros Hk HP Hb. apply bounded_canonical in Hb. destruct Hb as [Hcan Hmax].
  set (k := ex - e0) in *.
  assert (Hpow : 0 < 2 ^ k) by (apply Z.pow_pos_nonneg; lia).
  assert (Hd : Zdigits2 (Zpos P) + e0 <= Zpos (digits2_pos mx) + ex).
  { pose proof (Zdigits2_mono (Zpos P) (Zpos mx * 2 ^ k) ltac:(lia) ltac:(lia)) as H.
    rewrite Zdigits2_shift in H by lia. lia. }
  assert (He1 : fexp prec emax (Zdigits2 (Zpos P) + e0) <= ex)
    by (rewrite <- Hcan; apply fexp_mono; exact Hd).
  unfold binary_round_aux, shr_fexp.
  set (n := fexp prec emax (Zdigits2 (Zpos P) + e0) - e0) in *.
  cbn [shr_record_of_loc].
  destruct (shr_spec (Build_shr_record (Zpos P) false false) e0 n ltac:(cbn; lia))
    as [[Hn Heq] | (Hn & Hm & He)].
  - rewrite Heq. cbn [shr_m loc_of_shr_record round_nearest_even shr_record_of_loc].
    fold n. rewrite Heq. cbn [shr_m].
    replace (e0 <=? emax - prec) with true by (symmetry; apply Z.leb_le; lia).
    apply SFleb_finite. destruct (Z.eq_dec e0 ex) as [E|E]; [right | left; lia].
    split; [exact E|]. replace k with 0 in HP by lia. cbn in HP. lia.
  - destruct (shr (Build_shr_record (Zpos P) false false) e0 n) as [mrs1 e1].
    cbn [fst snd shr_m] in Hm, He. subst e1.
    set (r := round_nearest_even (shr_m mrs1) (loc_of_shr_record mrs1)).
    assert (Hnk : n <= k) by (unfold n, k; lia).
    assert (Hpn : 0 < 2 ^ n) by (apply Z.pow_pos_nonneg; lia).
    assert (Hpkn : 0 < 2 ^ (k - n)) by (apply Z.pow_pos_nonneg; lia).
    assert (Hr : 0 <= r <= Zpos mx * 2 ^ (k - n)).
    { pose proof (round_nearest_even_bounds (shr_m mrs1) (loc_of_shr_record mrs1)) as Hrb.
      fold r in Hrb. rewrite Hm in Hrb.
      assert (0 <= Zpos P / 2 ^ n) by (apply Z.div_pos; lia).
      assert (Zpos P / 2 ^ n < Zpos mx * 2 ^ (k - n)).
      { apply Z.div_lt_upper_bound; [lia|].
        replace (2 ^ n * (Zpos mx * 2 ^ (k - n))) with (Zpos mx * 2 ^ k); [exact HP|].
        replace k with (n + (k - n)) at 1 by lia. rewrite Z.pow_add_r by lia. ring. }
      lia. }
    set (n2 := fexp prec emax (Zdigits2 r + (e0 + n)) - (e0 + n)).
    assert (He2 : 0 < r -> fexp prec emax (Zdigits2 r + (e0 + n)) <= ex).
    { intros Hr0. rewrite <- Hcan. apply fexp_mono.
      pose proof (Zdigits2_mono r (Zpos mx * 2 ^ (k - n)) Hr0 ltac:(lia)) as H.
      rewrite Zdigits2_shift in H by lia. unfold k in H. lia. }
    destruct (shr_spec (Build_shr_record r false false) (e0 + n) n2 ltac:(cbn; lia))
      as [[Hn2 Heq2] | (Hn2 & Hm2 & He2')].
    + rewrite Heq2. cbn [shr_m].
      destruct r as [|q|q] eqn:Er; [reflexivity | | lia].
      replace (e0 + n <=? emax - prec) with true
        by (symmetry; apply Z.leb_le; unfold n; lia).
      apply SFleb_finite. destruct (Z.eq_dec (e0 + n) ex) as [E|E]; [right | left; unfold n; lia].
      split; [exact E|]. replace (k - n) with 0 in Hr by (unfold k; lia).
      cbn in Hr. lia.
    + destruct (shr (Build_shr_record r false false) (e0 + n) n2) as [mrs2 e2].
      cbn [fst snd shr_m] in Hm2, He2'. subst e2. rewrite Hm2.
      assert (Hpn2 : 0 < 2 ^ n2) by (apply Z.pow_pos_nonneg; lia).
      assert (Hq0 : 0 <= r / 2 ^ n2) by (apply Z.div_pos; lia).
      destruct (r / 2 ^ n2) as [|q|q] eqn:Eq; [reflexivity | | lia].
      assert (Hr0 : 0 < r).
      { destruct (Z.eq_dec r 0) as [Z0|Z0]; [|lia].
        rewrite Z0 in Eq. rewrite Z.div_0_l in Eq by lia. discriminate Eq. }
      specialize (He2 Hr0).
      replace (e0 + n + n2 <=? emax - prec) with true
        by (symmetry; apply Z.leb_le; unfold n2; lia).
      apply SFleb_finite.
      destruct (Z.eq_dec (e0 + n + n2) ex) as [E|E]; [right | left; unfold n2 in *; lia].
      split; [exact E|]. rewrite <- Eq.
      assert (Hkn : k - n = n2) by (unfold k; lia).
      rewrite Hkn in Hr.
      apply Z.div_le_upper_bound; [lia|]. lia.
Qed.

Lemma digits2_gt (m : positive) : Zpos m < 2 ^ Zpos (digits2_pos m).
Proof.
  rewrite digits2_log2. pose proof (Z.log2_spec (Zpos m) ltac:(lia)). lia.
Qed.

(** Multiplying a positive number by a factor below one does not raise it. *)
Lemma SFmul_below (mx : positive) (ex : Z) (my : positive) (ey : Z) :
  bounded prec emax mx ex = true ->
  Zpos (digits2_pos my) + ey <= 0 ->
  SFleb (SF64mul (S754_finite false mx ex) (S754_finite false my ey))
        (S754_finite false mx ex) = true.
Proof.
  intros Hb Hy. unfold SF64mul, SFmul. cbn [xorb].
  apply round_below; [lia | | exact Hb].
  replace (ex - (ex + ey)) with (- ey) by lia.
  pose proof (digits2_gt my).
  assert (2 ^ Zpos (digits2_pos my) <= 2 ^ (- ey)) by (apply Z.pow_le_mono_r; lia).
  rewrite Pos2Z.inj_mul. apply Z.mul_lt_mono_pos_l; lia.
Qed.

Ltac sf_order :=
  repeat match goal with
    | H : context [Pos.compare_cont Eq ?a ?b] |- _ =>
        rewrite (Pos.compare_cont_spec a b Eq) in H; cbn [Pos.switch_Eq] in H
    | |- context [Pos.compare_cont Eq ?a ?b] =>
        rewrite (Pos.compare_cont_spec a b Eq); cbn [Pos.switch_Eq]
    end;
  repeat match goal with
    | H : context [Z.compare ?a ?b] |- _ =>
        destruct (Z.compare_spec a b); cbn [CompOpp] in *
    | H : context [Pos.compare ?a ?b] |- _ =>
        destruct (Pos.compare_spec a b); cbn [CompOpp] in *
    | |- context [Z.compare ?a ?b] =>
        destruct (Z.compare_spec a b); cbn [CompOpp] in *
    | |- context [Pos.compare ?a ?b] =>
        destruct (Pos.compare_spec a b); cbn [CompOpp] in *
    end;
  try discriminate; try reflexivity; try lia.

(** The order of the specification is reflexive away from NaN and
    transitive. *)
Lemma SFleb_refl (x : spec_float) : x <> S754_nan -> SFleb x x = true.
Proof.
  destruct x as [s|s| |s m e]; intros H; try congruence;
    unfold SFleb, SFcompare; destruct s; sf_order.
Qed.

Lemma SFltb_leb_trans (x y z : spec_float) :
  SFltb x y = true -> SFleb y z = true -> SFleb x z = true.
Proof.
  unfold SFltb, SFleb, SFcompare.
  destruct x as [sx|sx| |sx mx ex], y as [sy|sy| |sy my ey], z as [sz|sz| |sz mz ez];
    try discriminate; try reflexivity;
    try destruct sx; try destruct sy; try destruct sz;
    try discriminate; try reflexivity; intros H1 H2; sf_order.
Qed.

(** A double that is at least zero is a zero, plus infinity or a positive
    finite number. *)
Lemma binary64_nonneg (c : float) :
  (0 <=? c)%float = true ->
  (exists s, Prim2SF c = S754_zero s)
  \/ Prim2SF c = S754_infinity false
  \/ (exists m e, Prim2SF c = S754_finite false m e
                  /\ bounded prec emax m e = true).
Proof.
  rewrite leb_spec. change (Prim2SF 0) with (S754_zero false).
  pose proof (Prim2SF_valid c) as Hv.
  destruct (Prim2SF c) as [s|s| |s m e]; unfold SFleb, SFcompare; intros H.
  - left. eauto.
  - destruct s; [discriminate H | right; left; reflexivity].
  - discriminate H.
  - destruct s; [discriminate H | right; right; exists m, e; split; [reflexivity | exact Hv]].
Qed.

Lemma binary64_leb_refl (c : float) : (0 <=? c)%float = true -> (c <=? c)%float = true.
Proof.
  intros H. rewrite leb_spec. apply SFleb_refl. intros Hn.
  rewrite leb_spec, Hn in H. discriminate H.
Qed.

(** In binary64 the product of a double that is at least zero with a positive
    double below one is at most the former. *)
Lemma binary64_mul_below (c y : float) (my : positive) (ey : Z) :
  (0 <=? c)%float = true ->
  Prim2SF y = S754_finite false my ey ->
  Zpos (digits2_pos my) + ey <= 0 ->
  (c * y <=? c)%float = true.
Proof.
  intros Hc Hy Hd. rewrite leb_spec, mul_spec, Hy.
  destruct (binary64_nonneg c Hc) as [[s ->] | [-> | (m & e & -> & Hb)]].
  - destruct s; reflexivity.
  - reflexivity.
  - apply SFmul_below; assumption.
Qed.

Lemma binary64_ltb_leb_trans (x y z : float) :
  (x <? y)%float = true -> (y <=? z)%float = true -> (x <=? z)%float = true.
Proof. rewrite ltb_spec, !leb_spec. apply SFltb_leb_trans. Qed.
End Binary64.

(** ** The orchestrator *)

Section Orchestrator.
Import ImageAuthenticityDetector.
#[local] Open Scope num_scope.

Lemma high_count_pos (l : list FraudIndicator.t) :
  (len (List.filter TransactionAnalyzer.is_high l) >? 0)%Z = true
  <-> exists i, i ∈ l /\ FraudIndicator.severity i = "high".
Proof.
  rewrite <- existsb_is_high, Z.gtb_lt.
  induction l as [|i l IH]; cbn [List.filter List.existsb];
    [split; [unfold len; cbn; lia | discriminate]|].
  destruct (TransactionAnalyzer.is_high i); cbn [orb].
  - rewrite len_cons. pose proof (len_nonneg (List.filter TransactionAnalyzer.is_high l)).
    split; [reflexivity | lia].
  - exact IH.
Qed.

Lemma high_count_zero (l : list FraudIndicator.t) :
  (forall i, i ∈ l -> FraudIndicator.severity i <> "high") ->
  (len (List.filter TransactionAnalyzer.is_high l) >? 0)%Z = false.
Proof.
  intros Hno. apply not_true_is_false. intros H.
  apply high_count_pos in H. destruct H as (i & Hi & Hs). exact (Hno i Hi Hs).
Qed.

(** The orchestrator in transaction mode, once the basic detection has
    returned: the merged result, reconciled with the indicators. *)
Lemma detect_tampering_transaction {S : Scalar} {B : Backend S}
    (self : t) (image : Image.t) (g g1 : rng)
    (basic_result : SimpleImageDetector.Result) :
  is_loaded self = true ->
  SimpleImageDetector.detect_tampering image g = (Returned basic_result, g1) ->
  detect_tampering self image true g
  = (Returned
       (reconcile
          (merge basic_result
             (Some (TransactionAnalyzer.analyze_transaction_screenshot image g1).1)
             "comprehensive")
          (TransactionAnalyzer.fraud_indicators
             (TransactionAnalyzer.analyze_transaction_screenshot image g1).1)),
     (TransactionAnalyzer.analyze_transaction_screenshot image g1).2).
Proof.
  intros Hl Hb. unfold detect_tampering. rewrite Hl, Hb. cbn [negb].
  destruct (TransactionAnalyzer.analyze_transaction_screenshot image g1).
  reflexivity.
Qed.

(** Outside transaction mode the basic result is returned as it is. *)
Lemma detect_tampering_basic {S : Scalar} {B : Backend S}
    (self : t) (image : Image.t) (g g1 : rng)
    (basic_result : SimpleImageDetector.Result) :
  is_loaded self = true ->
  SimpleImageDetector.detect_tampering image g = (Returned basic_result, g1) ->
  detect_tampering self image false g
  = (Returned (merge basic_result None "basic"), g1).
Proof.
  intros Hl Hb. unfold detect_tampering. rewrite Hl, Hb. reflexivity.
Qed.

(** The three branches of the reconciliation, for every scalar. *)
Lemma reconcile_branches {S : Scalar} (result : Result)
    (indicators : list FraudIndicator.t) :
  let high_risk_count :=
    len (List.filter TransactionAnalyzer.is_high indicators) in
  let final := reconcile result indicators in
  ((exists i, i ∈ indicators /\ FraudIndicator.severity i = "high") ->
   confidence final = py_min (confidence result * #0.3) #0.5
   /\ is_authentic final = false
   /\ details final
      = "HIGH RISK: " +:+ str_Z high_risk_count
        +:+ " critical fraud indicators detected")
  /\ ((forall i, i ∈ indicators -> FraudIndicator.severity i <> "high") ->
      (2 < len indicators)%Z ->
      confidence final = confidence result * #0.6
      /\ is_authentic final = is_authentic result
      /\ details final
         = "MODERATE RISK: " +:+ str_Z (len indicators)
           +:+ " suspicious patterns found")
  /\ ((forall i, i ∈ indicators -> FraudIndicator.severity i <> "high") ->
      (len indicators <= 2)%Z ->
      final = result)
  /\ transaction_analysis final = transaction_analysis result
  /\ analysis_type final = analysis_type result.
Proof.
  cbv zeta. unfold reconcile.
  split; [|split; [|split]].
  - intros Hh. apply high_count_pos in Hh. rewrite Hh. repeat split.
  - intros Hno Hc. rewrite (high_count_zero _ Hno).
    apply Z.gtb_lt in Hc. rewrite Hc. repeat split.
  - intros Hno Hc. rewrite (high_count_zero _ Hno).
    destruct (len indicators >? 2)%Z eqn:E; [apply Z.gtb_lt in E; lia|].
    reflexivity.
  - destruct (_ >? 0)%Z; [split; reflexivity|].
    destruct (_ >? 2)%Z; split; reflexivity.
Qed.

(** The first branch on the basic confidence 0.8, in exact arithmetic. *)
Lemma py_min_example_Q (c : @num Q_scalar) :
  (c == 0.8)%Q -> (py_min (S := Q_scalar) (c * #0.3) #0.5 == 0.24)%Q.
Proof.
  intros Hc. unfold py_min.
  replace (ltb (Scalar := Q_scalar) #0.5 (c * #0.3)) with false.
  - cbn. rewrite Hc. reflexivity.
  - symmetry. apply Q_ltb_false. cbn. rewrite Hc. discriminate.
Qed.

(** C2. In transaction mode, once the basic detection has returned, the
    orchestrator returns the merged result with: when an indicator is high,
    the confidence min(basic * 0.3, 0.5), [is_authentic = false] and the
    "HIGH RISK" summary as details; else, when there are more than two
    indicators, the confidence basic * 0.6 and the "MODERATE RISK" summary;
    else the confidence and the details of the basic result.  A basic
    confidence of 0.8 with exactly one high indicator gives 0.24 and
    [is_authentic = false], in exact arithmetic and in binary64. *)
Theorem C2_reconciliation :
  (forall (S : Scalar) (B : Backend S) (self : t) (image : Image.t) (g g1 : rng)
          (basic_result : SimpleImageDetector.Result),
      is_loaded self = true ->
      SimpleImageDetector.detect_tampering image g = (Returned basic_result, g1) ->
      let analysis :=
        (TransactionAnalyzer.analyze_transaction_screenshot image g1).1 in
      let indicators := TransactionAnalyzer.fraud_indicators analysis in
      let high_risk_count :=
        len (List.filter TransactionAnalyzer.is_high indicators) in
      exists r : Result,
        detect_tampering self image true g
        = (Returned r,
           (TransactionAnalyzer.analyze_transaction_screenshot image g1).2)
        /\ transaction_analysis r = Some analysis
        /\ analysis_type r = "comprehensive"
        /\ ((exists i, i ∈ indicators /\ FraudIndicator.severity i = "high") ->
            confidence r
            = py_min (SimpleImageDetector.confidence basic_result * #0.3) #0.5
            /\ is_authentic r = false
            /\ details r
               = "HIGH RISK: " +:+ str_Z high_risk_count
                 +:+ " critical fraud indicators detected")
        /\ ((forall i, i ∈ indicators -> FraudIndicator.severity i <> "high") ->
            (2 < len indicators)%Z ->
            confidence r = SimpleImageDetector.confidence basic_result * #0.6
            /\ is_authentic r = SimpleImageDetector.is_authentic basic_result
            /\ details r
               = "MODERATE RISK: " +:+ str_Z (len indicators)
                 +:+ " suspicious patterns found")
        /\ ((forall i, i ∈ indicators -> FraudIndicator.severity i <> "high") ->
            (len indicators <= 2)%Z ->
            confidence r = SimpleImageDetector.confidence basic_result
            /\ is_authentic r = SimpleImageDetector.is_authentic basic_result
            /\ details r = SimpleImageDetector.details basic_result))
  /\ (forall (result : @Result Q_scalar) (indicators : list FraudIndicator.t),
        (confidence result == 0.8)%Q ->
        len (List.filter TransactionAnalyzer.is_high indicators) = 1%Z ->
        (confidence (reconcile result indicators) == 0.24)%Q
        /\ is_authentic (reconcile result indicators) = false)
  /\ (forall (result : @Result binary64_scalar) (indicators : list FraudIndicator.t),
        confidence result = 0.8%float ->
        len (List.filter TransactionAnalyzer.is_high indicators) = 1%Z ->
        confidence (reconcile result indicators) = 0.24%float
        /\ is_authentic (reconcile result indicators) = false).
Proof.
  split; [|split].
  - intros S B self image g g1 basic_result Hl Hb analysis indicators high_risk_count.
    eexists. split; [apply (detect_tampering_transaction self image g g1 _ Hl Hb)|].
    fold analysis. fold indicators.
    destruct (reconcile_branches (merge basic_result (Some analysis) "comprehensive")
                indicators) as (Hhigh & Hmod & Hsame & Hta & Hty).
    cbv zeta in Hhigh, Hmod.
    split; [exact Hta|]. split; [exact Hty|].
    split; [exact Hhigh|]. split; [exact Hmod|].
    intros Hno Hc. rewrite (Hsame Hno Hc). repeat split.
  - intros result indicators Hc Hh. unfold reconcile. rewrite Hh. cbn [Z.gtb Z.compare].
    cbn [confidence is_authentic]. split; [apply py_min_example_Q; exact Hc | reflexivity].
  - intros result indicators Hc Hh. unfold reconcile. rewrite Hh. cbn [Z.gtb Z.compare].
    cbn [confidence is_authentic]. rewrite Hc. split; reflexivity.
Qed.

(** C2 on the cloned screenshot: no EXIF and one copied block, hence one high
    indicator; the basic confidence 0.045 becomes 0.0135. *)
Lemma C2_reconciliation_witness :
  exists (r : @Result Q_scalar) (g' : rng),
    detect_tampering (B := Samples.plain) (_load_model (Build_t "simple" None false))
                     Samples.cloned true 0%nat
    = (Returned r, g')
    /\ is_authentic r = false
    /\ (confidence r == 0.0135)%Q
    /\ details r = "HIGH RISK: 1 critical fraud indicators detected".
Proof.
  destruct (SimpleImageDetector.detect_tampering (B := Samples.plain)
              Samples.cloned 0%nat) as [[basic_result|e] g1] eqn:Hb;
    [|vm_compute in Hb; discriminate Hb].
  destruct (proj1 C2_reconciliation Q_scalar Samples.plain
              (_load_model (Build_t "simple" None false)) Samples.cloned
              0%nat g1 basic_result eq_refl Hb)
    as (r & Hr & _ & _ & Hhigh & _).
  exists r, (TransactionAnalyzer.analyze_transaction_screenshot Samples.cloned g1).2.
  split; [exact Hr|].
  vm_compute in Hb. injection Hb as <- <-.
  destruct Hhigh as (Hc & Ha & Hd).
  { eexists. split; [|shelve].
    apply list_elem_of_further, list_elem_of_here. Unshelve. reflexivity. }
  split; [exact Ha|]. split; [rewrite Hc; reflexivity | rewrite Hd; reflexivity].
Defined.

(** The scaling branches do not raise a confidence that is not negative. *)
Lemma reconcile_not_above (result : @Result Q_scalar)
    (indicators : list FraudIndicator.t) :
  (0 <= confidence result)%Q ->
  (confidence (reconcile result indicators) <= confidence result)%Q.
Proof.
  intros H0. unfold reconcile.
  destruct (_ >? 0)%Z; [|destruct (_ >? 2)%Z]; cbn [confidence].
  - unfold py_min.
    destruct (ltb (Scalar := Q_scalar) #0.5 (confidence result * #0.3)) eqn:E;
      [apply Q_ltb_true in E | apply Q_ltb_false in E]; cbn in *; lra.
  - cbn. lra.
  - apply Qle_refl.
Qed.

(** The two scalings in binary64: the factors are the doubles nearest to 0.3
    and 0.6, both below one. *)
Lemma scale_below_binary64 (c : float) :
  (0 <=? c)%float = true ->
  (py_min (S := binary64_scalar) (c * 0.3)%float 0.5%float <=? c)%float = true
  /\ (c * 0.6 <=? c)%float = true.
Proof.
  intros Hc.
  assert (H3 : (c * 0.3 <=? c)%float = true)
    by (apply (binary64_mul_below c 0.3%float 5404319552844595 (-54) Hc);
        [reflexivity | vm_compute; discriminate]).
  assert (H6 : (c * 0.6 <=? c)%float = true)
    by (apply (binary64_mul_below c 0.6%float 5404319552844595 (-53) Hc);
        [reflexivity | vm_compute; discriminate]).
  split; [|exact H6].
  unfold py_min. change (@ltb binary64_scalar) with PrimFloat.ltb.
  destruct (0.5 <? c * 0.3)%float eqn:E; [|exact H3].
  exact (binary64_ltb_leb_trans _ _ _ E H3).
Qed.

Lemma reconcile_not_above_binary64 (result : @Result binary64_scalar)
    (indicators : list FraudIndicator.t) :
  (0 <=? confidence result)%float = true ->
  (confidence (reconcile result indicators) <=? confidence result)%float = true.
Proof.
  intros H0. destruct (scale_below_binary64 _ H0) as [H3 H6]. unfold reconcile.
  destruct (_ >? 0)%Z; [|destruct (_ >? 2)%Z]; cbn [confidence].
  - exact H3.
  - exact H6.
  - apply binary64_leb_refl. exact H0.
Qed.

(** C8. Whatever the mode, the confidence the orchestrator returns is at most
    the confidence of the basic result, when that lies in [0, 1]: this holds
    for min(confidence * 0.3, 0.5), for confidence * 0.6 and for the
    unchanged confidence, in exact arithmetic and in binary64 with its
    rounding. *)
Theorem C8_confidence_never_increases :
  (forall (B : Backend Q_scalar) (self : t) (image : Image.t)
          (analyze_transactions : bool) (g g1 : rng)
          (basic_result : @SimpleImageDetector.Result Q_scalar),
      is_loaded self = true ->
      SimpleImageDetector.detect_tampering image g = (Returned basic_result, g1) ->
      (0 <= SimpleImageDetector.confidence basic_result <= 1)%Q ->
      (exists (r : @Result Q_scalar) (g2 : rng),
          detect_tampering self image analyze_transactions g = (Returned r, g2)
          /\ (confidence r <= SimpleImageDetector.confidence basic_result)%Q)
      /\ (py_min (S := Q_scalar)
                 (SimpleImageDetector.confidence basic_result * 0.3) 0.5
          <= SimpleImageDetector.confidence basic_result)%Q
      /\ (SimpleImageDetector.confidence basic_result * 0.6
          <= SimpleImageDetector.confidence basic_result)%Q)
  /\ (forall (B : Backend binary64_scalar) (self : t) (image : Image.t)
             (analyze_transactions : bool) (g g1 : rng)
             (basic_result : @SimpleImageDetector.Result binary64_scalar),
        is_loaded self = true ->
        SimpleImageDetector.detect_tampering image g = (Returned basic_result, g1) ->
        (0 <=? SimpleImageDetector.confidence basic_result)%float = true ->
        (SimpleImageDetector.confidence basic_result <=? 1)%float = true ->
        (exists (r : @Result binary64_scalar) (g2 : rng),
            detect_tampering self image analyze_transactions g = (Returned r, g2)
            /\ (confidence r <=? SimpleImageDetector.confidence basic_result)%float
               = true)
        /\ (py_min (S := binary64_scalar)
                   (SimpleImageDetector.confidence basic_result * 0.3)%float
                   0.5%float
            <=? SimpleImageDetector.confidence basic_result)%float = true
        /\ (SimpleImageDetector.confidence basic_result * 0.6
            <=? SimpleImageDetector.confidence basic_result)%float = true).
Proof.
  split.
  - intros B self image analyze_transactions g g1 basic_result Hl Hb [H0 H1]. split.
    + destruct analyze_transactions.
      * eexists. eexists.
        split; [apply (detect_tampering_transaction self image g g1 _ Hl Hb)|].
        apply (reconcile_not_above (merge basic_result _ "comprehensive")). exact H0.
      * eexists. eexists.
        split; [apply (detect_tampering_basic self image g g1 _ Hl Hb)|].
        apply Qle_refl.
    + split.
      * unfold py_min.
        match goal with
        | |- context [if ?b then _ else _] => destruct b eqn:E
        end; [apply Q_ltb_true in E | apply Q_ltb_false in E]; cbn in *; lra.
      * lra.
  - intros B self image analyze_transactions g g1 basic_result Hl Hb H0 _. split.
    + destruct analyze_transactions.
      * eexists. eexists.
        split; [apply (detect_tampering_transaction self image g g1 _ Hl Hb)|].
        apply (reconcile_not_above_binary64 (merge basic_result _ "comprehensive")).
        exact H0.
      * eexists. eexists.
        split; [apply (detect_tampering_basic self image g g1 _ Hl Hb)|].
        apply binary64_leb_refl. exact H0.
    + exact (scale_below_binary64 _ H0).
Qed.

(** C8 on the cloned screenshot: 0.0135 is at most 0.045. *)
Lemma C8_confidence_witness :
  exists (r : @Result Q_scalar) (g2 : rng),
    detect_tampering (B := Samples.plain) (_load_model (Build_t "simple" None false))
                     Samples.cloned true 0%nat
    = (Returned r, g2)
    /\ (confidence r <= 0.045)%Q.
Proof.
  destruct (SimpleImageDetector.detect_tampering (B := Samples.plain)
              Samples.cloned 0%nat) as [[basic_result|e] g1] eqn:Hb;
    [|vm_compute in Hb; discriminate Hb].
  assert (Hc : (SimpleImageDetector.confidence basic_result == 0.045)%Q)
    by (vm_compute in Hb; injection Hb as <- _; reflexivity).
  destruct (proj1 C8_confidence_never_increases Samples.plain
              (_load_model (Build_t "simple" None false)) Samples.cloned true
              0%nat g1 basic_result eq_refl Hb)
    as [(r & g2 & Hr & Hle) _].
  { rewrite Hc. split; discriminate. }
  exists r, g2. split; [exact Hr|]. rewrite <- Hc. exact Hle.
Defined.
End Orchestrator.

(** ** The extractors of the simple detector *)

Section Extractors.
Import SimpleImageDetector.
Context {S : Scalar} {B : Backend S}.
#[local] Open Scope num_scope.

Lemma len_py_range (stop step : Z) :
  (0 < step)%Z ->
  len (py_range 0 stop step) = Z.max 0 ((stop + step - 1) / step).
Proof.
  intros Hs. unfold py_range, len.
  rewrite List.length_map, List.length_seq, Z.sub_0_r. lia.
Qed.

Lemma len_flat_map_const {X Y} (f : X -> list Y) (l : list X) (n : Z) :
  (forall a, len (f a) = n) -> len (List.flat_map f l) = (len l * n)%Z.
Proof.
  intros Hf. induction l as [|a l IH]; cbn [List.flat_map].
  - reflexivity.
  - rewrite len_app, len_cons, Hf, IH. lia.
Qed.

Lemma len_map {X Y} (f : X -> Y) (l : list X) : len (List.map f l) = len l.
Proof. unfold len. rewrite List.length_map. reflexivity. Qed.

(** The number of 32 x 32 windows the noise analysis reads from an
    [h] x [w] residue. *)
Lemma noise_blocks (noise : Grid) (h w : Z) :
  len (List.flat_map (fun i =>
         List.map (fun j =>
           np_var_block (slice2 i (i + 32) j (j + 32) noise))
           (py_range 0 (w - 32) 32))
         (py_range 0 (h - 32) 32))
  = (Z.max 0 ((h - 1) / 32) * Z.max 0 ((w - 1) / 32))%Z.
Proof.
  rewrite (len_flat_map_const _ _ (Z.max 0 ((w - 1) / 32))).
  - rewrite len_py_range by lia.
    replace (h - 32 + 32 - 1)%Z with (h - 1)%Z by lia. reflexivity.
  - intros i. rewrite len_map, len_py_range by lia.
    replace (w - 32 + 32 - 1)%Z with (w - 1)%Z by lia. reflexivity.
Qed.

(** X1.  The noise analysis gives up on small images.  When the noise
    residue has [h] rows and [w] columns, the signal is the neutral
    "Image too small for analysis" exactly when a side is at most 32 pixels
    or both sides are at most 64: then fewer than two 32 x 32 windows
    start strictly more than 32 pixels before the end of both axes. *)
Theorem noise_too_small (cv_image noise : Grid) :
  cv2_noise cv_image = Returned noise ->
  _analyze_noise_patterns cv_image
  = Signal.make false #0 "Image too small for analysis"
  <-> ((shape noise).1 <= 32 \/ (shape noise).2 <= 32
       \/ ((shape noise).1 <= 64 /\ (shape noise).2 <= 64))%Z.
Proof.
  intros Hn. unfold _analyze_noise_patterns. rewrite Hn. cbn [obind].
  pose proof (shape_nonneg noise) as [Hh Hw].
  destruct (shape noise) as [h w]. cbn [fst snd] in *.
  rewrite noise_blocks.
  assert (Hc : (Z.max 0 ((h - 1) / 32) * Z.max 0 ((w - 1) / 32) < 2
                <-> h <= 32 \/ w <= 32 \/ (h <= 64 /\ w <= 64))%Z).
  { assert (Hdiv : forall n : Z, (0 <= n)%Z ->
              ((n <= 32 -> Z.max 0 ((n - 1) / 32) = 0)
               /\ (32 < n <= 64 -> Z.max 0 ((n - 1) / 32) = 1)
               /\ (64 < n -> 2 <= Z.max 0 ((n - 1) / 32)))%Z).
    { intros n Hn0. pose proof (Z.div_mod (n - 1) 32 ltac:(lia)).
      pose proof (Z.mod_pos_bound (n - 1) 32 ltac:(lia)). lia. }
    pose proof (Hdiv h Hh) as (Hh1 & Hh2 & Hh3).
    pose proof (Hdiv w Hw) as (Hw1 & Hw2 & Hw3).
    destruct (Z_le_gt_dec h 32); [rewrite Hh1 by lia; lia|].
    destruct (Z_le_gt_dec w 32); [rewrite Hw1 by lia; lia|].
    destruct (Z_le_gt_dec h 64), (Z_le_gt_dec w 64).
    - rewrite Hh2, Hw2 by lia. lia.
    - rewrite Hh2 by lia. specialize (Hw3 ltac:(lia)). lia.
    - rewrite Hw2 by lia. specialize (Hh3 ltac:(lia)). lia.
    - specialize (Hw3 ltac:(lia)). specialize (Hh3 ltac:(lia)). nia. }
  rewrite <- Hc, <- Z.ltb_lt.
  match goal with |- context [(?a <? 2)%Z] => destruct (a <? 2)%Z end.
  - cbn [try_except]. split; reflexivity.
  - split; [|discriminate].
    repeat match goal with |- context [if ?c then _ else _] => destruct c end;
      cbn [try_except]; intros H; discriminate H.
Qed.

End Extractors.

Lemma noise_too_small_witness :
  SimpleImageDetector._analyze_noise_patterns (B := Samples.plain) Samples.gray8
  = Signal.make (S := Q_scalar) false 0%Q "Image too small for analysis".
Proof.
  apply (noise_too_small (S := Q_scalar) (B := Samples.plain) Samples.gray8
           (List.map (List.map (fun _ => 0%Z)) Samples.gray8) eq_refl).
  left. vm_compute. discriminate.
Defined.

(** ** The metadata signal of the simple detector *)

Section MetadataTriggers.
Import SimpleImageDetector.
Context {S : Scalar}.
#[local] Open Scope num_scope.

Lemma exif_dict_fold_nonempty (items : list (string * string))
    (d : gmap string string) :
  d <> ∅ \/ items <> [] ->
  List.fold_left (fun d kv => <[kv.1 := kv.2]> d) items d <> ∅.
Proof.
  revert d. induction items as [|kv items IH]; intros d H; cbn [List.fold_left].
  - destruct H as [H|H]; [exact H | congruence].
  - apply IH. left. apply insert_non_empty.
Qed.

(** The dictionary [exif_data] is empty exactly when the image has no
    EXIF or an empty one. *)
Lemma exif_data_empty (exif : option (list (string * string))) :
  exif_data_of exif = ∅ <-> exif = None \/ exif = Some [].
Proof.
  destruct exif as [[|kv items]|]; cbn [exif_data_of].
  - split; [auto | reflexivity].
  - split.
    + intros H. exfalso. revert H. apply exif_dict_fold_nonempty.
      right. discriminate.
    + intros [H|H]; discriminate H.
  - split; [auto | reflexivity].
Qed.

(** One round of the loop over the software tags adds a line exactly when
    the tag is present and its value names an editor. *)
Lemma software_step_cases (exif_data : gmap string string)
    (st : list string * num) (tag : string) :
  (software_step exif_data st tag = st
   /\ ~ exists value editor,
          exif_data !! tag = Some value /\ editor ∈ editing_software
          /\ contains (lower editor) (lower value) = true)
  \/ (exists value editor,
        exif_data !! tag = Some value /\ editor ∈ editing_software
        /\ contains (lower editor) (lower value) = true
        /\ exists editor',
             software_step exif_data st tag
             = ((st.1 ++ ["Edited with " +:+ editor'])%list, st.2 + #0.4)).
Proof.
  unfold software_step. destruct (exif_data !! tag) as [value|] eqn:Hl.
  - destruct (List.find _ editing_software) as [editor|] eqn:Hf.
    + right. apply List.find_some in Hf. destruct Hf as [Hin Hc].
      exists value, editor. split; [reflexivity|].
      split; [apply list_elem_of_In; exact Hin|]. split; [exact Hc|].
      exists editor. reflexivity.
    + left. split; [reflexivity|]. intros (v & editor & Hv & Hin & Hc).
      injection Hv as <-.
      apply list_elem_of_In in Hin.
      pose proof (List.find_none _ _ Hf editor Hin) as Hn. cbv beta in Hn.
      congruence.
  - left. split; [reflexivity|]. intros (v & editor & Hv & _). discriminate Hv.
Qed.

Lemma software_fold_nil (exif_data : gmap string string) (tags : list string)
    (st : list string * num) :
  (List.fold_left (software_step exif_data) tags st).1 = []
  <-> st.1 = []
      /\ forall tag, tag ∈ tags ->
           ~ exists value editor,
               exif_data !! tag = Some value /\ editor ∈ editing_software
               /\ contains (lower editor) (lower value) = true.
Proof.
  revert st. induction tags as [|t tags IH]; intros st; cbn [List.fold_left].
  - split; [intros H; split; [exact H|] | intros [H _]; exact H].
    intros tag Hin. inversion Hin.
  - rewrite IH. destruct (software_step_cases exif_data st t)
      as [[-> Hno] | (value & editor & Hv & Hin & Hc & editor' & ->)].
    + split.
      * intros [H1 H2]. split; [exact H1|]. intros tag Ht.
        apply elem_of_cons in Ht. destruct Ht as [->|Ht]; [exact Hno | auto].
      * intros [H1 H2]. split; [exact H1|]. intros tag Ht. apply H2.
        apply elem_of_cons. right. exact Ht.
    + cbn [fst snd]. split.
      * intros [H1 _]. destruct (st.1); discriminate H1.
      * intros [_ H2]. exfalso. apply (H2 t); [apply elem_of_cons; left; reflexivity|].
        exists value, editor. auto.
Qed.

Lemma software_decided (exif_data : gmap string string) (tags : list string) :
  (exists tag value editor,
     tag ∈ tags /\ exif_data !! tag = Some value
     /\ editor ∈ editing_software
     /\ contains (lower editor) (lower value) = true)
  \/ ~ (exists tag value editor,
          tag ∈ tags /\ exif_data !! tag = Some value
          /\ editor ∈ editing_software
          /\ contains (lower editor) (lower value) = true).
Proof.
  induction tags as [|t tags IH].
  - right. intros (tag & _ & _ & Hin & _). inversion Hin.
  - destruct (software_step_cases exif_data ([], #0) t)
      as [[_ Hno] | (value & editor & Hv & Hin & Hc & _)].
    + destruct IH as [(tag & value & editor & Ht & Hrest) | IH].
      * left. exists tag, value, editor. split; [|exact Hrest].
        apply elem_of_cons. right. exact Ht.
      * right. intros (tag & value & editor & Ht & Hrest).
        apply elem_of_cons in Ht. destruct Ht as [->|Ht].
        -- apply Hno. exists value, editor. exact Hrest.
        -- apply IH. exists tag, value, editor. auto.
    + left. exists t, value, editor. split; [|auto].
      apply elem_of_cons. left. reflexivity.
Qed.

(** X2.  The three triggers of the metadata signal.  Once the EXIF has
    been read, the signal is suspicious exactly when the image has no
    EXIF at all (none, or an empty dictionary), or one of the tags
    Software, ProcessingSoftware and PhotoshopSettings is present with a
    value that contains, case-insensitively, the name of one of the four
    editors, or the timestamps present take more than one value. *)
Theorem metadata_triggers (image : Image.t)
    (exif : option (list (string * string))) :
  Image._getexif image = Returned exif ->
  Signal.suspicious (_analyze_metadata image) = true
  <-> (exif = None \/ exif = Some [])
      \/ (exists tag value editor,
            tag ∈ software_tags /\ exif_data_of exif !! tag = Some value
            /\ editor ∈ editing_software
            /\ contains (lower editor) (lower value) = true)
      \/ (1 < len_set (timestamps_of (exif_data_of exif)))%Z.
Proof.
  intros He. unfold _analyze_metadata. rewrite He. cbn [obind].
  rewrite <- exif_data_empty.
  set (d := exif_data_of exif).
  pose proof (software_fold_nil d software_tags
                (if bool_decide (d = ∅)
                 then (([] ++ ["No EXIF metadata"])%list, #0 + #0.3)
                 else ([], #0))) as Hfold.
  unfold metadata_before_timestamps.
  destruct (List.fold_left _ software_tags _) as [l s] eqn:Hm.
  cbn [fst] in Hfold.
  assert (Hl : l = [] <-> d <> ∅ /\
            ~ exists tag value editor,
                tag ∈ software_tags /\ d !! tag = Some value
                /\ editor ∈ editing_software
                /\ contains (lower editor) (lower value) = true).
  { rewrite Hfold. destruct (bool_decide (d = ∅)) eqn:Hd; cbn [fst].
    - apply bool_decide_eq_true in Hd. split; [intros [H _]; discriminate H|].
      intros [H _]. contradiction.
    - apply bool_decide_eq_false in Hd. split.
      + intros [_ H]. split; [exact Hd|].
        intros (tag & value & editor & Ht & Hrest). apply (H tag Ht). eauto.
      + intros [_ H]. split; [reflexivity|].
        intros tag Ht (value & editor & Hrest). apply H. eauto 6. }
  rewrite <- Z.gtb_lt.
  destruct (len_set (timestamps_of d) >? 1)%Z.
  - destruct l; cbn; split; auto.
  - destruct l as [|x l]; cbn [try_except Signal.suspicious].
    + split; [discriminate|]. intros [H | [H | H]]; [| |discriminate H].
      * destruct (proj1 Hl eq_refl) as [Hne _]. contradiction.
      * destruct (proj1 Hl eq_refl) as [_ Hno]. contradiction.
    + split; [|reflexivity]. intros _.
      destruct (decide (d = ∅)) as [Hd|Hd]; [left; exact Hd|].
      right. left.
      destruct (software_decided d software_tags) as [H|H]; [exact H|].
      assert (x :: l = []) as Hx by (apply Hl; auto). discriminate Hx.
Qed.
End MetadataTriggers.

Lemma metadata_triggers_witness :
  Signal.suspicious
    (SimpleImageDetector._analyze_metadata (S := Q_scalar) Samples.png) = true
  <-> (Some [("Make", "Canon"); ("DateTime", "2024:01:01 10:00:00")] = None
       \/ Some [("Make", "Canon"); ("DateTime", "2024:01:01 10:00:00")]
          = Some [])
      \/ (exists tag value editor,
            tag ∈ SimpleImageDetector.software_tags
            /\ SimpleImageDetector.exif_data_of
                 (Some [("Make", "Canon"); ("DateTime", "2024:01:01 10:00:00")])
               !! tag = Some value
            /\ editor ∈ SimpleImageDetector.editing_software
            /\ contains (lower editor) (lower value) = true)
      \/ 1 < len_set
               (SimpleImageDetector.timestamps_of
                  (SimpleImageDetector.exif_data_of
                     (Some [("Make", "Canon");
                            ("DateTime", "2024:01:01 10:00:00")]))).
Proof.
  exact (metadata_triggers (S := Q_scalar) Samples.png
           (Some [("Make", "Canon"); ("DateTime", "2024:01:01 10:00:00")])
           eq_refl).
Defined.

(** ** The fusion of the four signals *)

Section SignalPairs.
Import SimpleImageDetector.
Context {S : Scalar} {B : Backend S}.
#[local] Open Scope num_scope.

Ltac pick := repeat first [apply list_elem_of_here | apply list_elem_of_further].

(** Each extractor returns one of the listed pairs of flag and score. *)
Lemma pixel_pairs (image : Image.t) (cv_image : Grid) :
  let j := _analyze_jpeg_compression image cv_image in
  let n := _analyze_noise_patterns cv_image in
  let e := _analyze_edge_consistency cv_image in
  (Signal.suspicious j, Signal.score j) ∈ jpeg_values
  /\ (Signal.suspicious n, Signal.score n) ∈ noise_values
  /\ (Signal.suspicious e, Signal.score e) ∈ edge_values.
Proof.
  cbv zeta. unfold jpeg_values, noise_values, edge_values.
  split; [|split].
  - unfold _analyze_jpeg_compression, analysis_failed.
    destruct (negb _); [cbn; pick|].
    destruct (cv2_dct cv_image); cbn [obind try_except]; [|cbn; pick].
    repeat match goal with |- context [if ?c then _ else _] => destruct c end;
      cbn; pick.
  - unfold _analyze_noise_patterns, analysis_failed.
    destruct (cv2_noise cv_image) as [noise|]; cbn [obind try_except];
      [|cbn; pick].
    destruct (shape noise).
    repeat match goal with |- context [if ?c then _ else _] => destruct c end;
      cbn; pick.
  - unfold _analyze_edge_consistency, analysis_failed.
    destruct (cv2_Canny cv_image) as [edges|]; cbn [obind try_except];
      [|cbn; pick].
    destruct (cv2_findContours edges); cbn [obind try_except]; [|cbn; pick].
    repeat match goal with |- context [if ?c then _ else _] => destruct c end;
      cbn; pick.
Qed.

Lemma metadata_pairs (image : Image.t) :
  let m := _analyze_metadata image in
  (Signal.suspicious m, Signal.score m) ∈ metadata_values.
Proof.
  cbv zeta. unfold _analyze_metadata, analysis_failed.
  destruct (Image._getexif image) as [exif|]; cbn [obind try_except];
    [|cbn; pick].
  unfold metadata_before_timestamps, software_tags, software_step.
  cbn [List.fold_left].
  set (d := exif_data_of exif).
  destruct (bool_decide (d = ∅));
  destruct (d !! "Software"); try destruct (List.find _ editing_software);
  destruct (d !! "ProcessingSoftware");
    try destruct (List.find _ editing_software);
  destruct (d !! "PhotoshopSettings");
    try destruct (List.find _ editing_software);
  destruct (len_set (timestamps_of d) >? 1)%Z;
  cbn; pick.
Qed.

(** The verdict and the confidence read the flags and scores only. *)
Lemma combine_reads_pairs (j n e m : Signal.t) (g : rng) :
  (combine_results j n e m g).1.1
  = (combine_results
       (signal_of (Signal.suspicious j, Signal.score j))
       (signal_of (Signal.suspicious n, Signal.score n))
       (signal_of (Signal.suspicious e, Signal.score e))
       (signal_of (Signal.suspicious m, Signal.score m)) g).1.1.
Proof.
  destruct j as [[] sj rj], n as [[] sn rn], e as [[] se re], m as [[] sm rm];
    unfold combine_results, weigh, signal_of; cbn; reflexivity.
Qed.
End SignalPairs.

Section FusionBands.
Import SimpleImageDetector.
#[local] Open Scope num_scope.

(** The fusion on every combination of values with a suspicious signal,
    in exact arithmetic: by evaluation. *)
Lemma fusion_table_Q (B : Backend Q_scalar) (g : rng)
    (pj pn pe pm : bool * @num Q_scalar) :
  pj ∈ jpeg_values -> pn ∈ noise_values -> pe ∈ edge_values ->
  pm ∈ metadata_values ->
  pj.1 || pn.1 || pe.1 || pm.1 = true ->
  let r := (combine_results (signal_of pj) (signal_of pn) (signal_of pe)
                            (signal_of pm) g).1.1 in
  (0.03 <= r.2 <= 0.75)%Q
  /\ r.1 = (r.2 <? #0.4)
  /\ (r.1 = false ->
      (pj.1 && pn.1) || (pe.1 && pm.1 && (pj.1 || pn.1)) = true).
Proof.
  intros Hj Hn He Hm Hany r.
  pose (chk := fun pj pn pe pm : bool * @num Q_scalar =>
    let r := (combine_results (B := B) (signal_of pj) (signal_of pn)
                (signal_of pe) (signal_of pm) g).1.1 in
    if pj.1 || pn.1 || pe.1 || pm.1 then
      Qle_bool 0.03 r.2 && Qle_bool r.2 0.75
      && Bool.eqb r.1 (ltb (Scalar := Q_scalar) r.2 0.4%Q)
      && (r.1 || ((pj.1 && pn.1) || (pe.1 && pm.1 && (pj.1 || pn.1))))
    else true).
  assert (Hall :
    List.forallb (fun pj => List.forallb (fun pn => List.forallb (fun pe =>
      List.forallb (fun pm => chk pj pn pe pm) metadata_values)
      edge_values) noise_values) jpeg_values = true)
    by (vm_compute; reflexivity).
  rewrite List.forallb_forall in Hall.
  specialize (Hall pj ltac:(apply list_elem_of_In; exact Hj)).
  rewrite List.forallb_forall in Hall.
  specialize (Hall pn ltac:(apply list_elem_of_In; exact Hn)).
  rewrite List.forallb_forall in Hall.
  specialize (Hall pe ltac:(apply list_elem_of_In; exact He)).
  rewrite List.forallb_forall in Hall.
  specialize (Hall pm ltac:(apply list_elem_of_In; exact Hm)).
  unfold chk in Hall. rewrite Hany in Hall. fold r in Hall.
  apply andb_prop in Hall. destruct Hall as [Hall H4].
  apply andb_prop in Hall. destruct Hall as [Hall H3].
  apply andb_prop in Hall. destruct Hall as [H1 H2].
  apply Qle_bool_iff in H1, H2. apply Bool.eqb_prop in H3.
  split; [split; assumption|]. split; [exact H3|].
  intros Hf. rewrite Hf in H4. exact H4.
Qed.

(** The same table in binary64. *)
Lemma fusion_table_binary64 (B : Backend binary64_scalar) (g : rng)
    (pj pn pe pm : bool * @num binary64_scalar) :
  pj ∈ jpeg_values -> pn ∈ noise_values -> pe ∈ edge_values ->
  pm ∈ metadata_values ->
  pj.1 || pn.1 || pe.1 || pm.1 = true ->
  let r := (combine_results (signal_of pj) (signal_of pn) (signal_of pe)
                            (signal_of pm) g).1.1 in
  PrimFloat.leb (float_of_Q 0.03) r.2 = true
  /\ PrimFloat.leb r.2 (float_of_Q 0.75) = true
  /\ r.1 = (r.2 <? #0.4)
  /\ (r.1 = false ->
      PrimFloat.leb (float_of_Q 0.4) r.2 = true
      /\ (pj.1 && pn.1) || (pe.1 && pm.1 && (pj.1 || pn.1)) = true).
Proof.
  intros Hj Hn He Hm Hany r.
  pose (chk := fun pj pn pe pm : bool * @num binary64_scalar =>
    let r := (combine_results (B := B) (signal_of pj) (signal_of pn)
                (signal_of pe) (signal_of pm) g).1.1 in
    if pj.1 || pn.1 || pe.1 || pm.1 then
      PrimFloat.leb (float_of_Q 0.03) r.2 && PrimFloat.leb r.2 (float_of_Q 0.75)
      && Bool.eqb r.1 (ltb (Scalar := binary64_scalar) r.2 (float_of_Q 0.4))
      && (r.1 || (PrimFloat.leb (float_of_Q 0.4) r.2
                  && ((pj.1 && pn.1) || (pe.1 && pm.1 && (pj.1 || pn.1)))))
    else true).
  assert (Hall :
    List.forallb (fun pj => List.forallb (fun pn => List.forallb (fun pe =>
      List.forallb (fun pm => chk pj pn pe pm) metadata_values)
      edge_values) noise_values) jpeg_values = true)
    by (vm_compute; reflexivity).
  rewrite List.forallb_forall in Hall.
  specialize (Hall pj ltac:(apply list_elem_of_In; exact Hj)).
  rewrite List.forallb_forall in Hall.
  specialize (Hall pn ltac:(apply list_elem_of_In; exact Hn)).
  rewrite List.forallb_forall in Hall.
  specialize (Hall pe ltac:(apply list_elem_of_In; exact He)).
  rewrite List.forallb_forall in Hall.
  specialize (Hall pm ltac:(apply list_elem_of_In; exact Hm)).
  unfold chk in Hall. rewrite Hany in Hall. fold r in Hall.
  apply andb_prop in Hall. destruct Hall as [Hall H4].
  apply andb_prop in Hall. destruct Hall as [Hall H3].
  apply andb_prop in Hall. destruct Hall as [H1 H2].
  apply Bool.eqb_prop in H3.
  split; [exact H1|]. split; [exact H2|]. split; [exact H3|].
  intros Hf. rewrite Hf in H4. cbn [orb] in H4.
  apply andb_prop in H4. exact H4.
Qed.
End FusionBands.

Section Verdict.
Import SimpleImageDetector.
#[local] Open Scope num_scope.

(** Whatever the image, the verdict and the confidence of the simple
    detector are those of the fusion on one combination of the listed
    values. *)
Lemma detect_reads_table {S : Scalar} {B : Backend S} (image : Image.t)
    (g g' : rng) (r : Result) :
  detect_tampering image g = (Returned r, g') ->
  let bd := analysis_breakdown r in
  let pj := (Signal.suspicious (jpeg_compression bd),
             Signal.score (jpeg_compression bd)) in
  let pn := (Signal.suspicious (noise_patterns bd),
             Signal.score (noise_patterns bd)) in
  let pe := (Signal.suspicious (edge_consistency bd),
             Signal.score (edge_consistency bd)) in
  let pm := (Signal.suspicious (metadata bd), Signal.score (metadata bd)) in
  pj ∈ jpeg_values /\ pn ∈ noise_values /\ pe ∈ edge_values
  /\ pm ∈ metadata_values
  /\ (is_authentic r, confidence r)
     = (combine_results (signal_of pj) (signal_of pn) (signal_of pe)
                        (signal_of pm) g).1.1
  /\ (Image.format image <> Some "JPEG" -> pj.1 = false)
  /\ (pj.1 || pn.1 || pe.1 || pm.1 = true -> g' = g).
Proof.
  intros Hd. destruct (Image.to_cv image) as [cv_image|e] eqn:Hcv.
  - rewrite (detect_tampering_returns image cv_image g Hcv) in Hd.
    injection Hd as <- <-. cbv zeta.
    cbn [analysis_breakdown jpeg_compression noise_patterns edge_consistency
         metadata is_authentic confidence].
    destruct (pixel_pairs image cv_image) as (Hj & Hn & He).
    pose proof (metadata_pairs image) as Hm.
    split; [exact Hj|]. split; [exact Hn|]. split; [exact He|].
    split; [exact Hm|]. split; [|split].
    + rewrite <- combine_reads_pairs.
      destruct (combine_results _ _ _ _ g) as [[[a c] d] g1]. reflexivity.
    + intros Hf. cbn [fst]. unfold _analyze_jpeg_compression.
      rewrite bool_decide_eq_false_2 by exact Hf. reflexivity.
    + cbn [fst]. apply combine_keeps_generator.
  - unfold detect_tampering in Hd. rewrite Hcv in Hd. discriminate Hd.
Qed.

(** X3.  The confidence of the simple detector when something was found.
    Whenever at least one of the four signals is suspicious, the generator
    is not consulted, the confidence lies between 0.03 and 0.75 (the cap
    0.95 of the code is never reached), and the verdict is "authentic"
    exactly when the confidence is below 0.4.  In exact arithmetic and in
    binary64. *)
Theorem confidence_with_findings :
  (forall (B : Backend Q_scalar) (image : Image.t) (g g' : rng)
          (r : @Result Q_scalar),
     detect_tampering image g = (Returned r, g') ->
     Signal.suspicious (jpeg_compression (analysis_breakdown r))
     || Signal.suspicious (noise_patterns (analysis_breakdown r))
     || Signal.suspicious (edge_consistency (analysis_breakdown r))
     || Signal.suspicious (metadata (analysis_breakdown r)) = true ->
     g' = g
     /\ (0.03 <= confidence r <= 0.75)%Q
     /\ (is_authentic r = true <-> (confidence r < 0.4)%Q))
  /\ (forall (B : Backend binary64_scalar) (image : Image.t) (g g' : rng)
             (r : @Result binary64_scalar),
        detect_tampering image g = (Returned r, g') ->
        Signal.suspicious (jpeg_compression (analysis_breakdown r))
        || Signal.suspicious (noise_patterns (analysis_breakdown r))
        || Signal.suspicious (edge_consistency (analysis_breakdown r))
        || Signal.suspicious (metadata (analysis_breakdown r)) = true ->
        g' = g
        /\ PrimFloat.leb (float_of_Q 0.03) (confidence r) = true
        /\ PrimFloat.leb (confidence r) (float_of_Q 0.75) = true
        /\ is_authentic r = PrimFloat.ltb (confidence r) (float_of_Q 0.4)).
Proof.
  split.
  - intros B image g g' r Hd Hany.
    destruct (detect_reads_table image g g' r Hd)
      as (Hj & Hn & He & Hm & Heq & _ & Hg).
    destruct (fusion_table_Q B g _ _ _ _ Hj Hn He Hm Hany) as (Hb & Hv & _).
    rewrite <- Heq in Hb, Hv. cbn [fst snd] in Hb, Hv.
    split; [exact (Hg Hany)|]. split; [exact Hb|].
    rewrite Hv. apply Q_ltb_true.
  - intros B image g g' r Hd Hany.
    destruct (detect_reads_table image g g' r Hd)
      as (Hj & Hn & He & Hm & Heq & _ & Hg).
    destruct (fusion_table_binary64 B g _ _ _ _ Hj Hn He Hm Hany)
      as (Hlo & Hhi & Hv & _).
    rewrite <- Heq in Hlo, Hhi, Hv. cbn [fst snd] in Hlo, Hhi, Hv.
    split; [exact (Hg Hany)|]. split; [exact Hlo|]. split; [exact Hhi|].
    exact Hv.
Qed.

(** X4.  What the verdict "tampered" takes.  The simple detector returns
    [is_authentic = false] only if the JPEG and the noise signals are both
    suspicious, or the edge and the metadata signals are both suspicious
    together with one of the former: one signal alone never suffices.
    For an image that is not a JPEG, the noise, the edge and the metadata
    signals must all three be suspicious.  In exact arithmetic and in
    binary64. *)
Theorem tampered_verdict_needs :
  (forall (B : Backend Q_scalar) (image : Image.t) (g g' : rng)
          (r : @Result Q_scalar),
     detect_tampering image g = (Returned r, g') ->
     is_authentic r = false ->
     let bd := analysis_breakdown r in
     ((Signal.suspicious (jpeg_compression bd) = true
       /\ Signal.suspicious (noise_patterns bd) = true)
      \/ (Signal.suspicious (edge_consistency bd) = true
          /\ Signal.suspicious (metadata bd) = true
          /\ (Signal.suspicious (jpeg_compression bd) = true
              \/ Signal.suspicious (noise_patterns bd) = true)))
     /\ (Image.format image <> Some "JPEG" ->
         Signal.suspicious (noise_patterns bd) = true
         /\ Signal.suspicious (edge_consistency bd) = true
         /\ Signal.suspicious (metadata bd) = true))
  /\ (forall (B : Backend binary64_scalar) (image : Image.t) (g g' : rng)
             (r : @Result binary64_scalar),
        detect_tampering image g = (Returned r, g') ->
        is_authentic r = false ->
        let bd := analysis_breakdown r in
        ((Signal.suspicious (jpeg_compression bd) = true
          /\ Signal.suspicious (noise_patterns bd) = true)
         \/ (Signal.suspicious (edge_consistency bd) = true
             /\ Signal.suspicious (metadata bd) = true
             /\ (Signal.suspicious (jpeg_compression bd) = true
                 \/ Signal.suspicious (noise_patterns bd) = true)))
        /\ (Image.format image <> Some "JPEG" ->
            Signal.suspicious (noise_patterns bd) = true
            /\ Signal.suspicious (edge_consistency bd) = true
            /\ Signal.suspicious (metadata bd) = true)).
Proof.
  assert (Hcombo : forall a b c d : bool,
            (a && b) || (c && d && (a || b)) = true ->
            ((a = true /\ b = true)
             \/ (c = true /\ d = true /\ (a = true \/ b = true)))
            /\ (a = false -> b = true /\ c = true /\ d = true)).
  { intros [] [] [] []; cbn; intros H; try discriminate H; intuition. }
  assert (Hquiet : forall (S : Scalar) (B : Backend S) (image : Image.t)
             (g g' : rng) (r : Result),
             detect_tampering image g = (Returned r, g') ->
             is_authentic r = false ->
             Signal.suspicious (jpeg_compression (analysis_breakdown r))
             || Signal.suspicious (noise_patterns (analysis_breakdown r))
             || Signal.suspicious (edge_consistency (analysis_breakdown r))
             || Signal.suspicious (metadata (analysis_breakdown r)) = true).
  { intros S B image g g' r Hd Hf.
    destruct (detect_reads_table image g g' r Hd) as (_ & _ & _ & _ & Heq & _).
    cbv zeta in Heq. apply not_false_is_true. intros Hq.
    apply orb_false_elim in Hq. destruct Hq as [Hq Hm].
    apply orb_false_elim in Hq. destruct Hq as [Hq He].
    apply orb_false_elim in Hq. destruct Hq as [Hj Hn].
    rewrite (combine_all_clear _ _ _ _ g) in Heq by (cbn; assumption).
    cbn [fst] in Heq. congruence. }
  split.
  - intros B image g g' r Hd Hf bd.
    pose proof (Hquiet _ B image g g' r Hd Hf) as Hany.
    destruct (detect_reads_table image g g' r Hd)
      as (Hj & Hn & He & Hm & Heq & Hfmt & _).
    destruct (fusion_table_Q B g _ _ _ _ Hj Hn He Hm Hany) as (_ & _ & Hc).
    rewrite <- Heq in Hc. cbn [fst snd] in Hc. specialize (Hc Hf).
    destruct (Hcombo _ _ _ _ Hc) as [H1 H2].
    split; [exact H1|]. intros Hne. apply H2. exact (Hfmt Hne).
  - intros B image g g' r Hd Hf bd.
    pose proof (Hquiet _ B image g g' r Hd Hf) as Hany.
    destruct (detect_reads_table image g g' r Hd)
      as (Hj & Hn & He & Hm & Heq & Hfmt & _).
    destruct (fusion_table_binary64 B g _ _ _ _ Hj Hn He Hm Hany)
      as (_ & _ & _ & Hc).
    rewrite <- Heq in Hc. cbn [fst snd] in Hc. destruct (Hc Hf) as [_ Hc'].
    destruct (Hcombo _ _ _ _ Hc') as [H1 H2].
    split; [exact H1|]. intros Hne. apply H2. exact (Hfmt Hne).
Qed.
End Verdict.

(** ** The indicators of the transaction analysis *)

Section RiskOrder.
Import TransactionAnalyzer.

Lemma count_severity_app (s : string) (l k : list FraudIndicator.t) :
  count_severity s (l ++ k) = count_severity s l + count_severity s k.
Proof. unfold count_severity. rewrite List.filter_app, len_app. reflexivity. Qed.

Lemma count_severity_nonneg (s : string) (l : list FraudIndicator.t) :
  0 <= count_severity s l.
Proof. apply len_nonneg. Qed.

Lemma spec_risk_monotone (h m h' m' : Z) :
  h <= h' -> m <= m' ->
  risk_rank (spec_risk h m) <= risk_rank (spec_risk h' m').
Proof.
  intros Hh Hm. unfold spec_risk.
  destruct (Z.geb_spec h 2), (Z.geb_spec h' 2), (Z.geb_spec h 1),
    (Z.geb_spec h' 1), (Z.geb_spec m 3), (Z.geb_spec m' 3),
    (Z.geb_spec m 1), (Z.geb_spec m' 1); cbn [orb]; try lia;
    vm_compute; discriminate.
Qed.

Lemma risk_low_iff (l : list FraudIndicator.t) :
  _calculate_overall_risk l = "low"
  <-> count_severity "high" l = 0 /\ count_severity "medium" l = 0.
Proof.
  rewrite risk_is_spec_risk.
  pose proof (count_severity_nonneg "high" l).
  pose proof (count_severity_nonneg "medium" l).
  unfold spec_risk.
  destruct (Z.geb_spec (count_severity "high" l) 2),
    (Z.geb_spec (count_severity "high" l) 1),
    (Z.geb_spec (count_severity "medium" l) 3),
    (Z.geb_spec (count_severity "medium" l) 1); cbn [orb];
    (split; [intros E; try discriminate E; lia | intros [? ?]; try lia]);
    reflexivity.
Qed.

Lemma count_severity_pos (s : string) (i : FraudIndicator.t)
    (l : list FraudIndicator.t) :
  i ∈ l -> FraudIndicator.severity i = s -> 0 < count_severity s l.
Proof.
  intros Hi Hs. unfold count_severity.
  assert (Hin : In i (List.filter
                        (fun i => bool_decide (FraudIndicator.severity i = s)) l)).
  { apply List.filter_In. split; [apply list_elem_of_In; exact Hi|].
    apply bool_decide_eq_true. exact Hs. }
  destruct (List.filter _ l) as [|x k]; [inversion Hin|]. rewrite len_cons.
  pose proof (len_nonneg k). lia.
Qed.

(** X5.  More indicators never lower the risk: with the labels ordered
    low < medium < high < very_high, the risk of a list of indicators is
    at most the risk of that list extended, on either side, by further
    indicators. *)
Theorem risk_monotone (before l after : list FraudIndicator.t) :
  risk_rank (_calculate_overall_risk l)
  <= risk_rank (_calculate_overall_risk (before ++ l ++ after)).
Proof.
  rewrite !risk_is_spec_risk, !count_severity_app.
  pose proof (count_severity_nonneg "high" before).
  pose proof (count_severity_nonneg "high" after).
  pose proof (count_severity_nonneg "medium" before).
  pose proof (count_severity_nonneg "medium" after).
  apply spec_risk_monotone; lia.
Qed.
End RiskOrder.

Section IndicatorKinds.
Import TransactionAnalyzer.
Context {S : Scalar} {B : Backend S}.

Lemma pattern_fold_flag (text : string) (patterns : list string)
    (l : list FraudIndicator.t) :
  (List.fold_left (pattern_step text) patterns (l, true)).2 = true.
Proof.
  revert l. induction patterns as [|p patterns IH]; intros l;
    cbn [List.fold_left]; [reflexivity|].
  unfold pattern_step at 2. cbn [fst snd].
  destruct (re_findall p text) as [|m ms]; [apply IH|].
  destruct (len_set (m :: ms) <? len (m :: ms)); apply IH.
Qed.

Lemma pattern_step_cases (text : string) (st : list FraudIndicator.t * bool)
    (p : string) :
  pattern_step text st p = st
  \/ exists x, FraudIndicator.type x = "duplicate_amounts"
               /\ FraudIndicator.severity x = "high"
               /\ pattern_step text st p = ((st.1 ++ [x])%list, true).
Proof.
  unfold pattern_step. destruct (re_findall p text) as [|m ms]; [left; reflexivity|].
  destruct (len_set (m :: ms) <? len (m :: ms)); [|left; reflexivity].
  right. eexists. split; [|split; [|reflexivity]]; reflexivity.
Qed.

(** The loop over the patterns only appends indicators of duplicates. *)
Lemma pattern_fold_kinds (text : string) (patterns : list string)
    (st : list FraudIndicator.t * bool) (i : FraudIndicator.t) :
  i ∈ (List.fold_left (pattern_step text) patterns st).1 ->
  i ∈ st.1
  \/ (FraudIndicator.type i = "duplicate_amounts"
      /\ FraudIndicator.severity i = "high"
      /\ (List.fold_left (pattern_step text) patterns st).2 = true).
Proof.
  revert st. induction patterns as [|p patterns IH]; intros st Hi;
    cbn [List.fold_left] in *.
  - left. exact Hi.
  - destruct (IH _ Hi) as [H|H]; [|right; exact H].
    destruct (pattern_step_cases text st p) as [Hs | (x & Ht & Hv & Hs)];
      rewrite Hs in H |- *; [left; exact H|].
    cbn [fst] in H. apply elem_of_app in H. destruct H as [H|H]; [left; exact H|].
    apply list_elem_of_singleton in H. subst i. right.
    split; [exact Ht|]. split; [exact Hv|]. apply pattern_fold_flag.
Qed.

(** The kinds of indicator the text analysis can list. *)
Lemma text_indicator_kinds (cv_image : Grid) (i : FraudIndicator.t) :
  i ∈ text_fraud_indicators (_analyze_text_content cv_image) ->
  (FraudIndicator.type i, FraudIndicator.severity i)
  ∈ [("duplicate_amounts", "high"); ("inconsistent_formatting", "medium");
     ("unrealistic_amount", "medium")].
Proof.
  unfold _analyze_text_content.
  destruct (pytesseract_image_to_string _) as [text|e];
    cbn [obind try_except text_fraud_indicators]; [|intros H; inversion H].
  destruct (List.fold_left (pattern_step text) fraud_patterns ([], false))
    as [l s] eqn:Hfold.
  assert (Hl : forall i, i ∈ l ->
            FraudIndicator.type i = "duplicate_amounts"
            /\ FraudIndicator.severity i = "high").
  { intros i0 Hi0.
    destruct (pattern_fold_kinds text fraud_patterns ([], false) i0) as [H|H].
    - rewrite Hfold. exact Hi0.
    - inversion H.
    - tauto. }
  set (amounts := (len (re_findall _ text) >? 1)).
  set (formats := (len_set (re_findall _ text) >? 1)).
  destruct amounts, formats, (re_findall "[₹$]\s*\d{7,}" text);
    cbn [text_fraud_indicators]; intros Hi;
    repeat (apply elem_of_app in Hi; destruct Hi as [Hi|Hi]);
    try (apply list_elem_of_singleton in Hi; subst i; cbn;
         repeat first [apply list_elem_of_here | apply list_elem_of_further]);
    try (destruct (Hl i Hi) as [-> ->]; apply list_elem_of_here).
Qed.

(** The one inconsistency the visual analysis can list is of medium
    severity. *)
Lemma resolution_severity (cv_image : Grid) (x : Inconsistency) :
  x ∈ resolution_inconsistencies (_analyze_visual_patterns cv_image) ->
  inc_severity x = "medium".
Proof.
  unfold _analyze_visual_patterns. destruct (shape cv_image) as [h w].
  destruct (cv2_Canny cv_image) as [edges|]; cbn [obind try_except];
    [|intros H; inversion H].
  destruct (density_regions edges h w) as [ds|]; cbn [obind try_except];
    [|intros H; inversion H].
  cbn [resolution_inconsistencies].
  destruct (len ds >? 1); [|intros H; inversion H].
  match goal with |- context [if ?c then _ else _] => destruct c end;
    [|intros H; inversion H].
  intros H. apply list_elem_of_singleton in H. subst x. reflexivity.
Qed.

(** X6.  The indicators of a report.  Every indicator the chain returns
    is of one of seven kinds, each with a fixed severity, "medium" or
    "high": no indicator is ever of low severity.  Hence the risk "low"
    is returned exactly for a report without error and without
    indicators, and the risk of every report is one of the five labels. *)
Theorem report_indicator_kinds (image : Image.t) (g : rng) :
  let report := (analyze_transaction_screenshot image g).1 in
  (forall i, i ∈ fraud_indicators report ->
     (FraudIndicator.type i, FraudIndicator.severity i)
     ∈ [("metadata", "medium"); ("duplicate_amounts", "high");
        ("inconsistent_formatting", "medium"); ("unrealistic_amount", "medium");
        ("copy_paste", "high"); ("resolution", "medium");
        ("reverse_search", "high")])
  /\ (overall_risk report = "low"
      <-> error report = None /\ fraud_indicators report = [])
  /\ overall_risk report ∈ ["low"; "medium"; "high"; "very_high"; "unknown"].
Proof.
  cbv zeta. unfold analyze_transaction_screenshot.
  destruct (Image.to_cv image) as [cv_image|e]; cbn [obind try_except].
  2:{ cbn. split; [intros i H; inversion H|]. split.
      - split; [discriminate | intros [H _]; discriminate H].
      - repeat first [apply list_elem_of_here | apply list_elem_of_further]. }
  destruct (_simulate_reverse_search image g) as [search g1].
  cbn [try_except fst].
  assert (Hkinds : forall i,
            i ∈ fraud_indicators
                  (compile_report (_analyze_metadata image)
                     (_analyze_text_content cv_image)
                     (_analyze_visual_patterns cv_image) search) ->
            (FraudIndicator.type i, FraudIndicator.severity i)
            ∈ [("metadata", "medium"); ("duplicate_amounts", "high");
               ("inconsistent_formatting", "medium");
               ("unrealistic_amount", "medium");
               ("copy_paste", "high"); ("resolution", "medium");
               ("reverse_search", "high")]).
  { intros i Hi.
    assert (Hc : forall i,
              i ∈ collect_indicators (_analyze_metadata image)
                    (_analyze_text_content cv_image)
                    (_analyze_visual_patterns cv_image) ->
              (FraudIndicator.type i, FraudIndicator.severity i)
              ∈ [("metadata", "medium"); ("duplicate_amounts", "high");
                 ("inconsistent_formatting", "medium");
                 ("unrealistic_amount", "medium");
                 ("copy_paste", "high"); ("resolution", "medium");
                 ("reverse_search", "high")]).
    { clear i Hi. intros i. unfold collect_indicators. intros Hi.
      apply elem_of_app in Hi. destruct Hi as [Hi|Hi].
      - apply elem_of_app in Hi. destruct Hi as [Hi|Hi].
        + destruct (suspicious (_analyze_metadata image)),
            (suspicious_text (_analyze_text_content cv_image));
            repeat (apply elem_of_app in Hi; destruct Hi as [Hi|Hi]);
            try (inversion Hi; fail);
            try (apply list_elem_of_singleton in Hi; subst i;
                 apply list_elem_of_here);
            apply text_indicator_kinds in Hi;
            apply list_elem_of_further;
            repeat (apply elem_of_cons in Hi; destruct Hi as [->|Hi]);
            try (inversion Hi; fail);
            repeat first [apply list_elem_of_here | apply list_elem_of_further].
        + apply list_elem_of_In, List.in_map_iff in Hi.
          destruct Hi as (r & <- & _). cbn.
          repeat first [apply list_elem_of_here | apply list_elem_of_further].
      - apply list_elem_of_In, List.in_map_iff in Hi.
        destruct Hi as (x & <- & Hx). apply list_elem_of_In in Hx.
        cbn. rewrite (resolution_severity cv_image x Hx).
        repeat first [apply list_elem_of_here | apply list_elem_of_further]. }
    unfold compile_report in Hi. destruct (found_matches search);
      cbn [fraud_indicators] in Hi; [|exact (Hc i Hi)].
    apply elem_of_app in Hi. destruct Hi as [Hi|Hi]; [exact (Hc i Hi)|].
    apply list_elem_of_singleton in Hi. subst i. cbn.
    repeat first [apply list_elem_of_here | apply list_elem_of_further]. }
  split; [exact Hkinds|].
  set (report := compile_report _ _ _ search) in *.
  assert (Hrisk : overall_risk report
                  = _calculate_overall_risk (fraud_indicators report)).
  { unfold report, compile_report. destruct (found_matches search); reflexivity. }
  assert (Herr : error report = None).
  { unfold report, compile_report. destruct (found_matches search); reflexivity. }
  split.
  - rewrite Hrisk, Herr. split.
    + intros Hlow. split; [reflexivity|].
      destruct (fraud_indicators report) as [|i l] eqn:Hl; [reflexivity|].
      exfalso.
      assert (Hi : i ∈ i :: l) by apply list_elem_of_here.
      pose proof (Hkinds i Hi) as Hk. apply risk_low_iff in Hlow.
      destruct Hlow as [Hh Hm].
      repeat (apply elem_of_cons in Hk; destruct Hk as [Hk|Hk]);
        try (inversion Hk; fail); injection Hk as _ Hs;
        pose proof (count_severity_pos _ i (i :: l) Hi Hs); lia.
    + intros [_ ->]. reflexivity.
  - rewrite Hrisk. unfold _calculate_overall_risk.
    destruct (fraud_indicators report); [apply list_elem_of_here|].
    repeat match goal with |- context [if ?c then _ else _] => destruct c end;
      repeat first [apply list_elem_of_here | apply list_elem_of_further].
Qed.
End IndicatorKinds.

(** ** The analyses of the transaction chain *)

Section ChainAnalyses.
Import TransactionAnalyzer.
Context {S : Scalar} {B : Backend S}.


End ChainAnalyses.

(** ** The visual analysis *)

Section VisualAnalysis.
Import TransactionAnalyzer.
Context {S : Scalar} {B : Backend S}.

(** The regions reported are among those of the search. *)
Lemma reported_regions_searched (gray : Grid) (r : CopyPaste) :
  r ∈ copy_paste_regions (_analyze_visual_patterns gray) ->
  r ∈ compare_blocks (tile gray).
Proof.
  unfold _analyze_visual_patterns. destruct (shape gray) as [h w].
  destruct (cv2_Canny gray) as [edges|]; cbn [obind try_except];
    [|intros H; inversion H].
  destruct (density_regions edges h w) as [ds|]; cbn [obind try_except];
    [|intros H; inversion H].
  intros H. exact H.
Qed.

(** X8.  Where a copy-paste region can lie.  Every region the visual
    analysis reports is a pair of 32 x 32 blocks whose corners are
    multiples of 16 and which end strictly before the last row and the
    last column of the image: [x + 32 < w] and [y + 32 < h] for both
    blocks, so the last row and the last column are never examined.  The
    two blocks are at least 32 pixels apart in one axis; hence an image
    with both sides at most 64 pixels never has a copy-paste region. *)
Theorem copy_paste_region_bounds (gray : Grid) (r : CopyPaste) :
  r ∈ copy_paste_regions (_analyze_visual_patterns gray) ->
  let h := (shape gray).1 in
  let w := (shape gray).2 in
  width r = 32 /\ height r = 32
  /\ (0 <= x1 r /\ x1 r + 32 < w /\ x1 r mod 16 = 0)
  /\ (0 <= y1 r /\ y1 r + 32 < h /\ y1 r mod 16 = 0)
  /\ (0 <= x2 r /\ x2 r + 32 < w /\ x2 r mod 16 = 0)
  /\ (0 <= y2 r /\ y2 r + 32 < h /\ y2 r mod 16 = 0)
  /\ (64 < h \/ 64 < w).
Proof.
  intros Hr h w. apply reported_regions_searched in Hr.
  apply compare_blocks_spec in Hr.
  destruct Hr as (i & k & [[b1 i1] j1] & [[b2 i2] j2] & _ & Hi & Hk & Hr).
  apply compare_pair_spec in Hr. cbn [fst snd] in Hr.
  destruct Hr as (Ha & _ & ->). apply adjacent_false_iff in Ha.
  apply list_elem_of_lookup_2, tile_spec in Hi, Hk.
  fold h w in Hi, Hk. cbn [width height x1 y1 x2 y2].
  destruct Hi as ((Hi1 & Hi2) & (Hj1 & Hj2) & _).
  destruct Hk as ((Hi3 & Hi4) & (Hj3 & Hj4) & _).
  repeat split; try lia.
Qed.

(** The number of rows, or of columns, of the sharpness grid. *)
Lemma grid_steps (n : Z) :
  4 <= n ->
  4 <= len (py_range 0 n (n / 4)) <= 7
  /\ (len (py_range 0 n (n / 4)) = 4 <-> n mod 4 = 0).
Proof.
  intros Hn.
  pose proof (Z.div_mod n 4 ltac:(lia)) as Hdm.
  pose proof (Z.mod_pos_bound n 4 ltac:(lia)) as Hr.
  set (q := n / 4) in *. set (r := n mod 4) in *.
  assert (Hq : 1 <= q) by lia.
  rewrite len_py_range by lia.
  set (k := (n + q - 1) / q).
  pose proof (Z.div_mod (n + q - 1) q ltac:(lia)) as Hk.
  pose proof (Z.mod_pos_bound (n + q - 1) q ltac:(lia)) as Hkr.
  fold k in Hk. set (s := (n + q - 1) mod q) in *.
  assert (H4 : 4 <= k) by nia.
  assert (H7 : k <= 7) by nia.
  split; [lia|]. rewrite Z.max_r by lia. split; intros H.
  - assert (r = 0 \/ 1 <= r) as [Hz|Hp] by lia; [exact Hz|]. exfalso. nia.
  - assert (k < 5); [|lia]. nia.
Qed.

(** When the sharpness grid can be laid out. *)
Lemma density_regions_cases (edges : Grid) (h w : Z) :
  0 <= h -> 0 <= w ->
  (h < 4 \/ w < 4 ->
   density_regions edges h w = Raised "range() arg 3 must not be zero")
  /\ (4 <= h -> 4 <= w ->
      exists ds, density_regions edges h w = Returned ds
                 /\ len ds
                    = len (py_range 0 h (h / 4)) * len (py_range 0 w (w / 4))).
Proof.
  intros Hh Hw. unfold density_regions, py_range_checked. split.
  - intros Hsmall. destruct (Z.eqb_spec (h / 4) 0) as [E|E]; [reflexivity|].
    assert (4 <= h).
    { destruct (Z_lt_le_dec h 4) as [Hlt|Hge]; [|exact Hge].
      rewrite Z.div_small in E by lia. congruence. }
    assert (Hw4 : w < 4) by lia.
    cbn [obind].
    destruct (grid_steps h ltac:(lia)) as [[Hlo _] _].
    destruct (py_range 0 h (h / 4)) as [|i rows]; [unfold len in Hlo; cbn in Hlo; lia|].
    rewrite Z.div_small by lia. reflexivity.
  - intros H4 W4.
    destruct (Z.eqb_spec (h / 4) 0) as [E|E].
    { pose proof (Z.div_le_lower_bound h 4 1 ltac:(lia) ltac:(lia)). lia. }
    cbn [obind].
    destruct (grid_steps h H4) as [[Hlo _] _].
    destruct (py_range 0 h (h / 4)) as [|i rows] eqn:Hrows;
      [unfold len in Hlo; cbn in Hlo; lia|].
    destruct (Z.eqb_spec (w / 4) 0) as [E'|E'].
    { pose proof (Z.div_le_lower_bound w 4 1 ltac:(lia) ltac:(lia)). lia. }
    cbn [obind]. eexists. split; [reflexivity|].
    rewrite (len_flat_map_const _ _ (len (py_range 0 w (w / 4)))).
    + reflexivity.
    + intros a. apply len_map.
Qed.

(** X9.  The sharpness grid is not always 4 x 4.  Once the edge detector
    has returned, an image with a side below 4 pixels sends the visual
    analysis to its handler (the step [h // 4] or [w // 4] of the grid is
    zero), which returns no region, no inconsistency and the score 0.0.
    For any larger image the analysis returns the regions of the
    copy-paste search and a quality score that is the mean of the edge
    densities of a grid with 4 to 7 rows and 4 to 7 columns; the grid has
    4 rows (columns) exactly when the height (width) is a multiple of
    4. *)
Theorem sharpness_grid (gray edges : Grid) :
  cv2_Canny gray = Returned edges ->
  let h := (shape gray).1 in
  let w := (shape gray).2 in
  (h < 4 \/ w < 4 ->
   _analyze_visual_patterns gray
   = {| copy_paste_regions := []; resolution_inconsistencies := [];
        visual_quality_score := (#0.0)%num |})
  /\ (4 <= h -> 4 <= w ->
      exists ds rows cols,
        density_regions edges h w = Returned ds
        /\ len ds = rows * cols
        /\ 4 <= rows <= 7 /\ 4 <= cols <= 7
        /\ (rows = 4 <-> h mod 4 = 0) /\ (cols = 4 <-> w mod 4 = 0)
        /\ copy_paste_regions (_analyze_visual_patterns gray)
           = compare_blocks (tile gray)
        /\ visual_quality_score (_analyze_visual_patterns gray) = np_mean ds).
Proof.
  intros He h w. pose proof (shape_nonneg gray) as [Hh Hw]. fold h w in Hh, Hw.
  destruct (density_regions_cases edges h w Hh Hw) as [Hsmall Hbig].
  split.
  - intros Hs. unfold _analyze_visual_patterns.
    subst h w. destruct (shape gray) as [h w]. cbn [fst snd] in *.
    rewrite He. cbn [obind]. rewrite (Hsmall Hs). reflexivity.
  - intros H4 W4. destruct (Hbig H4 W4) as (ds & Hds & Hlen).
    destruct (grid_steps h H4) as [Hr1 Hr2].
    destruct (grid_steps w W4) as [Hc1 Hc2].
    exists ds, (len (py_range 0 h (h / 4))), (len (py_range 0 w (w / 4))).
    split; [exact Hds|]. split; [exact Hlen|].
    split; [exact Hr1|]. split; [exact Hc1|].
    split; [exact Hr2|]. split; [exact Hc2|].
    assert (Hne : ds <> []).
    { intros ->. change (len (@nil num)) with 0 in Hlen.
      destruct Hr1 as [Hr1 _], Hc1 as [Hc1 _]. nia. }
    unfold _analyze_visual_patterns.
    subst h w. destruct (shape gray) as [h w]. cbn [fst snd] in *.
    rewrite He. cbn [obind]. rewrite Hds. cbn [obind try_except].
    split; [reflexivity|]. cbn [visual_quality_score].
    destruct ds; [congruence | reflexivity].
Qed.
End VisualAnalysis.

(** ** The orchestrator *)

Section OrchestratorOutcomes.
Import ImageAuthenticityDetector.
Context {S : Scalar} {B : Backend S}.

(** The simple detector returns exactly when the conversion does. *)
Lemma simple_detector_outcome (image : Image.t) (g : rng) :
  (forall e, Image.to_cv image = Raised e ->
     SimpleImageDetector.detect_tampering image g = (Raised e, g))
  /\ (forall cv_image, Image.to_cv image = Returned cv_image ->
        exists r g',
          SimpleImageDetector.detect_tampering image g = (Returned r, g')).
Proof.
  split.
  - intros e He. unfold SimpleImageDetector.detect_tampering. rewrite He.
    reflexivity.
  - intros cv_image Hcv.
    rewrite (detect_tampering_returns image cv_image g Hcv). eauto.
Qed.

(** X10.  When the orchestrator raises, and what it returns otherwise.
    A detector that is not loaded raises "Detection failed: Model not
    loaded"; a loaded one raises exactly when the conversion of the image
    raises, with the message of the conversion after "Detection failed: ";
    in both cases the random generator is left as it was.  When the
    conversion returns, the orchestrator returns, with the analysis type
    "comprehensive" in transaction mode and "basic" otherwise; in
    transaction mode the analysis attached is never the error payload: it
    has no error and its risk is computed from its indicators. *)
Theorem orchestrator_outcomes (self : t) (image : Image.t)
    (analyze_transactions : bool) (g : rng) :
  (is_loaded self = false ->
   detect_tampering self image analyze_transactions g
   = (Raised "Detection failed: Model not loaded", g))
  /\ (is_loaded self = true ->
      forall e, Image.to_cv image = Raised e ->
        detect_tampering self image analyze_transactions g
        = (Raised ("Detection failed: " +:+ e), g))
  /\ (is_loaded self = true ->
      forall cv_image, Image.to_cv image = Returned cv_image ->
        exists r g',
          detect_tampering self image analyze_transactions g = (Returned r, g')
          /\ analysis_type r
             = (if analyze_transactions then "comprehensive" else "basic")
          /\ (analyze_transactions = false -> transaction_analysis r = None)
          /\ (analyze_transactions = true ->
              exists report,
                transaction_analysis r = Some report
                /\ TransactionAnalyzer.error report = None
                /\ TransactionAnalyzer.overall_risk report <> "unknown"
                /\ TransactionAnalyzer.overall_risk report
                   = TransactionAnalyzer._calculate_overall_risk
                       (TransactionAnalyzer.fraud_indicators report))).
Proof.
  split; [|split].
  - intros Hl. unfold detect_tampering. rewrite Hl. reflexivity.
  - intros Hl e He. unfold detect_tampering. rewrite Hl. cbn [negb].
    rewrite (proj1 (simple_detector_outcome image g) e He). reflexivity.
  - intros Hl cv_image Hcv.
    destruct (proj2 (simple_detector_outcome image g) cv_image Hcv)
      as (basic & g1 & Hb).
    destruct analyze_transactions.
    + rewrite (detect_tampering_transaction self image g g1 basic Hl Hb).
      eexists. eexists. split; [reflexivity|].
      set (report := (TransactionAnalyzer.analyze_transaction_screenshot
                        image g1).1).
      destruct (reconcile_branches
                  (merge basic (Some report) "comprehensive")
                  (TransactionAnalyzer.fraud_indicators report))
        as (_ & _ & _ & Hta & Hty).
      cbv zeta in Hta, Hty. rewrite Hty, Hta. cbn [analysis_type merge
        transaction_analysis].
      split; [reflexivity|]. split; [discriminate|]. intros _.
      exists report. split; [reflexivity|].
      unfold report.
      rewrite (chain_returns_report image cv_image g1 Hcv). cbn [fst].
      unfold TransactionAnalyzer.compile_report.
      destruct (TransactionAnalyzer.found_matches _);
        cbn [TransactionAnalyzer.error TransactionAnalyzer.overall_risk
             TransactionAnalyzer.fraud_indicators];
        (split; [reflexivity|]); (split; [apply overall_risk_known|]);
        reflexivity.
    + rewrite (detect_tampering_basic self image g g1 basic Hl Hb).
      eexists. eexists. split; [reflexivity|]. cbn.
      split; [reflexivity|]. split; [reflexivity|]. discriminate.
Qed.

(** The indicators of the report when the reverse search, or the
    copy-paste search, has found something. *)
Lemma report_has_high (image : Image.t) (cv_image : Grid) (g : rng) :
  Image.to_cv image = Returned cv_image ->
  Image.size image ∈ TransactionAnalyzer.common_resolutions
  \/ TransactionAnalyzer.copy_paste_regions
       (TransactionAnalyzer._analyze_visual_patterns cv_image) <> [] ->
  exists i,
    i ∈ TransactionAnalyzer.fraud_indicators
          (TransactionAnalyzer.analyze_transaction_screenshot image g).1
    /\ FraudIndicator.severity i = "high".
Proof.
  intros Hcv Hfound.
  rewrite (chain_returns_report image cv_image g Hcv). cbn [fst].
  unfold TransactionAnalyzer.compile_report.
  destruct Hfound as [Hsize | Hcp].
  - assert (Hf : TransactionAnalyzer.found_matches
                   (TransactionAnalyzer._simulate_reverse_search image g).1
                 = true).
    { unfold TransactionAnalyzer._simulate_reverse_search.
      destruct (Image.size image) as [width height].
      rewrite bool_decide_eq_true_2 by exact Hsize.
      destruct (np_random_randint 1 5 g). reflexivity. }
    rewrite Hf. cbn [TransactionAnalyzer.fraud_indicators].
    eexists. split; [apply elem_of_app; right; apply list_elem_of_here|].
    reflexivity.
  - destruct (TransactionAnalyzer.copy_paste_regions
                (TransactionAnalyzer._analyze_visual_patterns cv_image))
      as [|r rs] eqn:Hr; [congruence|].
    exists (TransactionAnalyzer.indicator "copy_paste" "high"
              ("Potential copy-paste detected: "
               +:+ TransactionAnalyzer.description r)).
    split; [|reflexivity].
    assert (Hin : TransactionAnalyzer.indicator "copy_paste" "high"
                    ("Potential copy-paste detected: "
                     +:+ TransactionAnalyzer.description r)
                  ∈ TransactionAnalyzer.collect_indicators
                      (TransactionAnalyzer._analyze_metadata image)
                      (TransactionAnalyzer._analyze_text_content cv_image)
                      (TransactionAnalyzer._analyze_visual_patterns cv_image)).
    { unfold TransactionAnalyzer.collect_indicators. rewrite Hr.
      apply elem_of_app. left. apply elem_of_app. right.
      cbn [List.map]. apply list_elem_of_here. }
    destruct (TransactionAnalyzer.found_matches _);
      cbn [TransactionAnalyzer.fraud_indicators];
      [apply elem_of_app; left|]; exact Hin.
Qed.

(** X11.  A screenshot of a common phone resolution is always "edited".
    In transaction mode, on an image that converts, whenever the size of
    the image is one of the six resolutions of the reverse-search table,
    or the copy-paste search reports a region, the orchestrator returns
    [is_authentic = false] with details "HIGH RISK: n critical fraud
    indicators detected" for some [n >= 1], a confidence of
    [min(c * 0.3, 0.5)] for the basic confidence [c], and a report whose
    risk is "high" or "very_high": whatever the four signals of the basic
    detection say. *)
Theorem high_indicator_forces_edited (self : t) (image : Image.t)
    (cv_image : Grid) (g : rng) :
  is_loaded self = true ->
  Image.to_cv image = Returned cv_image ->
  Image.size image ∈ TransactionAnalyzer.common_resolutions
  \/ TransactionAnalyzer.copy_paste_regions
       (TransactionAnalyzer._analyze_visual_patterns cv_image) <> [] ->
  exists r g' basic g1 report n,
    detect_tampering self image true g = (Returned r, g')
    /\ SimpleImageDetector.detect_tampering image g = (Returned basic, g1)
    /\ is_authentic r = false
    /\ confidence r
       = py_min (SimpleImageDetector.confidence basic * #0.3)%num (#0.5)%num
    /\ 1 <= n
    /\ details r
       = "HIGH RISK: " +:+ str_Z n +:+ " critical fraud indicators detected"
    /\ transaction_analysis r = Some report
    /\ TransactionAnalyzer.overall_risk report ∈ ["high"; "very_high"].
Proof.
  intros Hl Hcv Hfound.
  destruct (proj2 (simple_detector_outcome image g) cv_image Hcv)
    as (basic & g1 & Hb).
  rewrite (detect_tampering_transaction self image g g1 basic Hl Hb).
  destruct (report_has_high image cv_image g1 Hcv Hfound) as (i & Hi & Hs).
  set (report := (TransactionAnalyzer.analyze_transaction_screenshot
                    image g1).1) in *.
  destruct (reconcile_branches (merge basic (Some report) "comprehensive")
              (TransactionAnalyzer.fraud_indicators report))
    as (Hhigh & _ & _ & Hta & _).
  cbv zeta in Hhigh, Hta.
  destruct (Hhigh ltac:(eauto)) as (Hc & Ha & Hd).
  pose proof (count_severity_pos "high" i _ Hi Hs) as Hpos.
  eexists. eexists. exists basic, g1, report.
  exists (len (List.filter TransactionAnalyzer.is_high
                 (TransactionAnalyzer.fraud_indicators report))).
  split; [reflexivity|]. split; [exact Hb|]. split; [exact Ha|].
  split; [exact Hc|].
  split; [unfold count_severity in Hpos;
          unfold TransactionAnalyzer.is_high; lia|].
  split; [exact Hd|]. split; [exact Hta|].
  assert (Hrisk : TransactionAnalyzer.overall_risk report
                  = TransactionAnalyzer._calculate_overall_risk
                      (TransactionAnalyzer.fraud_indicators report)).
  { unfold report.
    rewrite (chain_returns_report image cv_image g1 Hcv). cbn [fst].
    unfold TransactionAnalyzer.compile_report.
    destruct (TransactionAnalyzer.found_matches _); reflexivity. }
  rewrite Hrisk, risk_is_spec_risk. unfold spec_risk.
  pose proof (count_severity_nonneg "medium"
                (TransactionAnalyzer.fraud_indicators report)).
  destruct (Z.geb_spec (count_severity "high"
              (TransactionAnalyzer.fraud_indicators report)) 2);
    [apply list_elem_of_further, list_elem_of_here|].
  destruct (Z.geb_spec (count_severity "high"
              (TransactionAnalyzer.fraud_indicators report)) 1); [|lia].
  cbn [orb]. apply list_elem_of_here.
Qed.
End OrchestratorOutcomes.

Section FailOpen.
Import ImageAuthenticityDetector.
Context {S : Scalar} {B : Backend S}.

(** The report of the chain when its three analyses fail and the size of
    the image is not in the table of the reverse search. *)
Lemma blind_report (image : Image.t) (cv_image : Grid) (g : rng)
    (e1 e2 e3 : string) :
  Image.to_cv image = Returned cv_image ->
  Image._getexif image = Raised e1 ->
  pytesseract_image_to_string (cv2_convertScaleAbs cv_image) = Raised e2 ->
  cv2_Canny cv_image = Raised e3 ->
  Image.size image ∉ TransactionAnalyzer.common_resolutions ->
  let out := TransactionAnalyzer.analyze_transaction_screenshot image g in
  out.2 = g
  /\ TransactionAnalyzer.error out.1 = None
  /\ TransactionAnalyzer.fraud_indicators out.1 = []
  /\ TransactionAnalyzer.overall_risk out.1 = "low"
  /\ TransactionAnalyzer.recommendations out.1
     = ["Screenshot appears authentic with no major fraud indicators detected"].
Proof.
  intros Hcv Hx Ht Hc Hsize. cbv zeta.
  rewrite (chain_returns_report image cv_image g Hcv). cbn [fst snd].
  rewrite (metadata_handler image e1 Hx), (text_handler cv_image e2 Ht),
    (visual_handler cv_image e3 Hc).
  unfold TransactionAnalyzer._simulate_reverse_search.
  destruct (Image.size image) as [width height].
  rewrite bool_decide_eq_false_2 by exact Hsize. cbn [fst snd].
  repeat split.
Qed.

(** X12.  The engine fails open.  On an image that converts, if every
    analysis fails (the DCT, unless the image is not a JPEG, the noise
    residue, the edge detector, the EXIF reader and the OCR all raise)
    and the size of the image is not in the reverse-search table, the
    orchestrator still returns, in both modes, [is_authentic = true] with
    the confidence that [np.random.uniform(0.75, 0.90)] draws and the
    details "No significant tampering indicators detected"; in transaction
    mode the report has no error, no indicator, the risk "low" and the
    single recommendation that the screenshot appears authentic. *)
Theorem blind_analysis_is_authentic (self : t) (image : Image.t)
    (cv_image : Grid) (g : rng) (e1 e2 e3 e4 : string) :
  is_loaded self = true ->
  Image.to_cv image = Returned cv_image ->
  Image.format image <> Some "JPEG"
  \/ (exists e, cv2_dct cv_image = Raised e) ->
  cv2_noise cv_image = Raised e1 ->
  cv2_Canny cv_image = Raised e2 ->
  Image._getexif image = Raised e3 ->
  pytesseract_image_to_string (cv2_convertScaleAbs cv_image) = Raised e4 ->
  Image.size image ∉ TransactionAnalyzer.common_resolutions ->
  forall analyze_transactions : bool,
  exists r,
    detect_tampering self image analyze_transactions g
    = (Returned r, (np_random_uniform #0.75 #0.90 g).2)
    /\ is_authentic r = true
    /\ confidence r = (np_random_uniform #0.75 #0.90 g).1
    /\ details r = "No significant tampering indicators detected"
    /\ tampered_regions r = None
    /\ (analyze_transactions = true ->
        exists report,
          transaction_analysis r = Some report
          /\ TransactionAnalyzer.error report = None
          /\ TransactionAnalyzer.fraud_indicators report = []
          /\ TransactionAnalyzer.overall_risk report = "low"
          /\ TransactionAnalyzer.recommendations report
             = ["Screenshot appears authentic with no major fraud indicators detected"]).
Proof.
  intros Hl Hcv Hj Hn He Hx Ht Hsize mode.
  assert (Hsj : Signal.suspicious
                  (SimpleImageDetector._analyze_jpeg_compression image cv_image)
                = false).
  { unfold SimpleImageDetector._analyze_jpeg_compression.
    destruct Hj as [Hf | [e Hd]].
    - rewrite bool_decide_eq_false_2 by exact Hf. reflexivity.
    - destruct (negb _); [reflexivity|]. rewrite Hd. reflexivity. }
  assert (Hsn : Signal.suspicious
                  (SimpleImageDetector._analyze_noise_patterns cv_image) = false).
  { unfold SimpleImageDetector._analyze_noise_patterns. rewrite Hn. reflexivity. }
  assert (Hse : Signal.suspicious
                  (SimpleImageDetector._analyze_edge_consistency cv_image)
                = false).
  { unfold SimpleImageDetector._analyze_edge_consistency. rewrite He.
    reflexivity. }
  assert (Hsm : Signal.suspicious (SimpleImageDetector._analyze_metadata image)
                = false).
  { unfold SimpleImageDetector._analyze_metadata. rewrite Hx. reflexivity. }
  destruct (all_clear_result (fun _ _ => True) image cv_image g Hcv
              Hsj Hsn Hse Hsm ltac:(intros; split; exact I) I)
    as (basic & Hb & Ha & Hc & _ & Hd & Hr).
  set (g1 := (np_random_uniform #0.75 #0.90 g).2) in *.
  destruct mode.
  - rewrite (detect_tampering_transaction self image g g1 basic Hl Hb).
    destruct (blind_report image cv_image g1 e3 e4 e2 Hcv Hx Ht He Hsize)
      as (Hg & Herr & Hind & Hrisk & Hrec).
    cbv zeta in Hg, Herr, Hind, Hrisk, Hrec.
    rewrite Hg, Hind. unfold reconcile. cbn [List.filter len List.length].
    change (Z.of_nat 0 >? 0) with false. change (Z.of_nat 0 >? 2) with false.
    cbn iota. eexists. split; [reflexivity|].
    cbn [merge is_authentic confidence details tampered_regions
         transaction_analysis].
    split; [exact Ha|]. split; [exact Hc|]. split; [exact Hd|].
    split; [exact Hr|]. intros _. eexists. split; [reflexivity|].
    split; [exact Herr|]. split; [exact Hind|]. split; [exact Hrisk|].
    exact Hrec.
  - rewrite (detect_tampering_basic self image g g1 basic Hl Hb).
    eexists. split; [reflexivity|].
    cbn [merge is_authentic confidence details tampered_regions].
    split; [exact Ha|]. split; [exact Hc|]. split; [exact Hd|].
    split; [exact Hr|]. discriminate.
Qed.
End FailOpen.

(** ** The construction of the detector *)

Section Construction.
Import ImageAuthenticityDetector.


End Construction.

(** ** The upload endpoint *)

Section AllowedFile.
Import App.

Lemma contains_dot_cons (c : ascii) (s : string) :
  contains "." (String c s) = Ascii.eqb c "." || contains "." s.
Proof.
  cbn [contains String.prefix].
  destruct (ascii_dec "." c) as [<-|Hne].
  - destruct s; reflexivity.
  - destruct (Ascii.eqb_spec c "."); [congruence | reflexivity].
Qed.

(** A name without a dot is not split. *)
Lemma rsplit1_no_dot (s : string) :
  contains "." s = false -> rsplit1 "." s = [s].
Proof.
  induction s as [|c s IH]; [reflexivity|].
  rewrite contains_dot_cons. intros H. apply orb_false_elim in H.
  destruct H as [Hc Hs]. cbn [rsplit1]. rewrite (IH Hs), Hc. reflexivity.
Qed.

(** A name is split at its last dot. *)
Lemma rsplit1_last_dot (stem extension : string) :
  contains "." extension = false ->
  rsplit1 "." (stem +:+ "." +:+ extension) = [stem; extension].
Proof.
  intros He. induction stem as [|c stem IH].
  - change ("" +:+ "." +:+ extension) with (String "." extension).
    cbn [rsplit1]. rewrite (rsplit1_no_dot extension He). reflexivity.
  - change (String c stem +:+ "." +:+ extension)
      with (String c (stem +:+ "." +:+ extension)).
    cbn [rsplit1]. rewrite IH. reflexivity.
Qed.

(** A name with a dot has a last dot. *)
Lemma last_dot_exists (s : string) :
  contains "." s = true ->
  exists stem extension,
    s = stem +:+ "." +:+ extension /\ contains "." extension = false.
Proof.
  induction s as [|c s IH]; [discriminate|].
  rewrite contains_dot_cons. intros H.
  destruct (contains "." s) eqn:Hs.
  - destruct (IH eq_refl) as (stem & extension & -> & He).
    exists (String c stem), extension. split; [reflexivity | exact He].
  - rewrite orb_false_r in H. apply Ascii.eqb_eq in H. subst c.
    exists "", s. split; [reflexivity | exact Hs].
Qed.

Lemma contains_dot_app (stem extension : string) :
  contains "." (stem +:+ "." +:+ extension) = true.
Proof.
  induction stem as [|c stem IH].
  - change ("" +:+ "." +:+ extension) with (String "." extension).
    rewrite contains_dot_cons. reflexivity.
  - change (String c stem +:+ "." +:+ extension)
      with (String c (stem +:+ "." +:+ extension)).
    rewrite contains_dot_cons, IH. apply orb_true_r.
Qed.

(** X14.  Which file names are accepted.  [allowed_file] never raises:
    the index [1] is only taken when the name has a dot.  It returns
    true exactly when the name has a dot and the text after its last
    dot, lower-cased, is "png", "jpg" or "jpeg"; only the last extension
    counts, and a name without a dot is refused. *)
Theorem allowed_file_spec (filename : string) :
  (exists b, allowed_file filename = Returned b)
  /\ (allowed_file filename = Returned true
      <-> exists stem extension,
            filename = stem +:+ "." +:+ extension
            /\ contains "." extension = false
            /\ lower extension ∈ ["png"; "jpg"; "jpeg"])
  /\ (contains "." filename = false -> allowed_file filename = Returned false).
Proof.
  unfold allowed_file.
  destruct (contains "." filename) eqn:Hd; cbn [negb].
  - destruct (last_dot_exists filename Hd) as (stem & extension & -> & He).
    rewrite (rsplit1_last_dot stem extension He).
    change (index [stem; extension] 1) with (Returned extension).
    cbn [obind]. split; [eauto|]. split; [|discriminate].
    split.
    + intros H. injection H as H. apply bool_decide_eq_true in H.
      exists stem, extension. auto.
    + intros (stem' & extension' & Heq & He' & Hin).
      assert (Hsame : [stem'; extension'] = [stem; extension]).
      { rewrite <- (rsplit1_last_dot stem' extension' He'), <- Heq.
        apply rsplit1_last_dot. exact He. }
      injection Hsame as _ Hx. subst extension'.
      f_equal. apply bool_decide_eq_true. exact Hin.
  - split; [eauto|]. split; [|reflexivity]. split; [discriminate|].
    intros (stem & extension & -> & _). rewrite contains_dot_app in Hd.
    discriminate Hd.
Qed.
End AllowedFile.

Section Endpoint.
Import App.
Context {S : Scalar} {B : Backend S}.

Lemma allowed_file_returns (name : string) :
  exists b, allowed_file name = Returned b.
Proof.
  unfold allowed_file. destruct (contains "." name) eqn:Hd; cbn [negb];
    [|eauto].
  destruct (last_dot_exists name Hd) as (stem & extension & -> & He).
  rewrite (rsplit1_last_dot stem extension He). eauto.
Qed.

(** When the orchestrator raises. *)
Lemma orchestrator_raises (detector : ImageAuthenticityDetector.t)
    (image : Image.t) (mode : bool) (g : rng) :
  (exists e, ImageAuthenticityDetector.detect_tampering detector image mode g
             = (Raised e, g)
             /\ (ImageAuthenticityDetector.is_loaded detector = false
                 \/ exists e', Image.to_cv image = Raised e'))
  \/ (exists result g' cv_image,
        ImageAuthenticityDetector.detect_tampering detector image mode g
        = (Returned result, g')
        /\ ImageAuthenticityDetector.is_loaded detector = true
        /\ Image.to_cv image = Returned cv_image).
Proof.
  unfold ImageAuthenticityDetector.detect_tampering.
  destruct (ImageAuthenticityDetector.is_loaded detector) eqn:Hl; cbn [negb];
    [|left; eauto].
  destruct (Image.to_cv image) as [cv_image|e] eqn:Hcv.
  - destruct (proj2 (simple_detector_outcome image g) cv_image Hcv)
      as (basic & g1 & ->).
    right. destruct mode.
    + destruct (TransactionAnalyzer.analyze_transaction_screenshot image g1).
      eauto 6.
    + eauto 6.
  - rewrite (proj1 (simple_detector_outcome image g) e Hcv). left. eauto.
Qed.

(** The ways through the endpoint. *)
Lemma analyze_image_cases (detector : ImageAuthenticityDetector.t)
    (request : Request) (jsonify : Response -> Outcome unit)
    (processing_time : num) (g : rng) :
  let out := analyze_image detector request jsonify processing_time g in
  (exists e,
     files_image request = Raised e
     /\ out = ((ErrorBody "Internal server error during analysis", 500), g))
  \/ (files_image request = Returned None
      /\ out = ((ErrorBody "No image file provided", 400), g))
  \/ (exists file,
        files_image request = Returned (Some file) /\ filename file = ""
        /\ out = ((ErrorBody "No file selected", 400), g))
  \/ (exists file,
        files_image request = Returned (Some file) /\ filename file <> ""
        /\ allowed_file (filename file) = Returned false
        /\ out = ((ErrorBody "Invalid file type. Only PNG, JPG, JPEG allowed",
                   400), g))
  \/ (exists file e,
        files_image request = Returned (Some file) /\ filename file <> ""
        /\ allowed_file (filename file) = Returned true
        /\ preprocess_image file = Raised e
        /\ out = ((ErrorBody e, 400), g))
  \/ (exists file image,
        files_image request = Returned (Some file) /\ filename file <> ""
        /\ allowed_file (filename file) = Returned true
        /\ preprocess_image file = Returned image
        /\ (ImageAuthenticityDetector.is_loaded detector = false
            \/ exists e, Image.to_cv image = Raised e)
        /\ out = ((ErrorBody "Internal server error during analysis", 500), g))
  \/ (exists file image cv_image result g' e,
        files_image request = Returned (Some file) /\ filename file <> ""
        /\ allowed_file (filename file) = Returned true
        /\ preprocess_image file = Returned image
        /\ ImageAuthenticityDetector.is_loaded detector = true
        /\ Image.to_cv image = Returned cv_image
        /\ ImageAuthenticityDetector.detect_tampering detector image
             (transaction_mode_of request) g = (Returned result, g')
        /\ jsonify (prepare_response result processing_time) = Raised e
        /\ out = ((ErrorBody "Internal server error during analysis", 500),
                  g'))
  \/ (exists file image cv_image result g',
        files_image request = Returned (Some file) /\ filename file <> ""
        /\ allowed_file (filename file) = Returned true
        /\ preprocess_image file = Returned image
        /\ ImageAuthenticityDetector.is_loaded detector = true
        /\ Image.to_cv image = Returned cv_image
        /\ ImageAuthenticityDetector.detect_tampering detector image
             (transaction_mode_of request) g = (Returned result, g')
        /\ jsonify (prepare_response result processing_time) = Returned tt
        /\ out = ((Analysis (prepare_response result processing_time), 200),
                  g')).
Proof.
  cbv zeta. unfold analyze_image.
  destruct (files_image request) as [[file|]|e]; [| right; left; auto | left; eauto].
  do 2 right.
  destruct (bool_decide (filename file = "")) eqn:Hn.
  { apply bool_decide_eq_true in Hn. left. eauto. }
  apply bool_decide_eq_false in Hn. right.
  destruct (allowed_file_returns (filename file)) as [[|] Ha]; rewrite Ha;
    [|left; eauto].
  right.
  destruct (preprocess_image file) as [image|e] eqn:Hp; [|left; eauto 7].
  right.
  destruct (orchestrator_raises detector image (transaction_mode_of request) g)
    as [(e & -> & Hwhy) | (result & g' & cv_image & Hd & Hl & Hcv)].
  - left. exists file, image. auto 7.
  - right. rewrite Hd.
    destruct (jsonify (prepare_response result processing_time)) as [[]|e]
      eqn:Hj.
    + right. exists file, image, cv_image, result, g'. auto 12.
    + left. exists file, image, cv_image, result, g', e. auto 12.
Qed.

(** X15.  The statuses of the endpoint.  A request is answered with 200,
    400 or 500.  It is answered with 200 exactly when its files can be
    read, it carries a file with a non-empty, accepted name that opens as
    an image (and converts to RGB if it is in another mode), the detector
    returns a result for it, and [jsonify] serialises the response made
    from that result.  It is answered with 500 exactly when reading the
    files raises (a body over the size limit), or the file passed the
    checks and then the detector was not loaded, the conversion of the
    image to an array raised, or [jsonify] raised on the response; the
    body is then the fixed line "Internal server error during analysis",
    never the message of the exception.  It is answered with 400 exactly
    when the files were read and the file is missing, unnamed, of a type
    that is not accepted, or does not open as an image.  Every answer
    other than 200 carries an error body.  An answer 400 leaves the random
    generator as it was, and so does an answer 500 unless it comes from
    [jsonify], which runs after the detector. *)
Theorem analyze_image_status (detector : ImageAuthenticityDetector.t)
    (request : Request) (jsonify : Response -> Outcome unit)
    (processing_time : num) (g : rng) :
  let out := analyze_image detector request jsonify processing_time g in
  out.1.2 ∈ [200; 400; 500]
  /\ (out.1.2 = 200
      <-> exists file image result g',
            files_image request = Returned (Some file) /\ filename file <> ""
            /\ allowed_file (filename file) = Returned true
            /\ preprocess_image file = Returned image
            /\ ImageAuthenticityDetector.detect_tampering detector image
                 (transaction_mode_of request) g = (Returned result, g')
            /\ jsonify (prepare_response result processing_time)
               = Returned tt)
  /\ (out.1.2 = 500
      <-> (exists e, files_image request = Raised e)
          \/ exists file image,
               files_image request = Returned (Some file)
               /\ filename file <> ""
               /\ allowed_file (filename file) = Returned true
               /\ preprocess_image file = Returned image
               /\ (ImageAuthenticityDetector.is_loaded detector = false
                   \/ (exists e, Image.to_cv image = Raised e)
                   \/ exists result g' e,
                        ImageAuthenticityDetector.detect_tampering detector
                          image (transaction_mode_of request) g
                        = (Returned result, g')
                        /\ jsonify (prepare_response result processing_time)
                           = Raised e))
  /\ (out.1.2 = 400
      <-> files_image request = Returned None
          \/ exists file,
               files_image request = Returned (Some file)
               /\ (filename file = ""
                   \/ allowed_file (filename file) = Returned false
                   \/ exists e, preprocess_image file = Raised e))
  /\ (out.1.2 = 500 ->
      out.1.1 = ErrorBody "Internal server error during analysis")
  /\ (out.1.2 <> 200 -> exists message, out.1.1 = ErrorBody message)
  /\ (out.1.2 = 400 -> out.2 = g)
  /\ (out.1.2 = 500 ->
      out.2 = g
      \/ exists file image result e,
           files_image request = Returned (Some file)
           /\ preprocess_image file = Returned image
           /\ ImageAuthenticityDetector.detect_tampering detector image
                (transaction_mode_of request) g = (Returned result, out.2)
           /\ jsonify (prepare_response result processing_time) = Raised e).
Proof.
  cbv zeta.
  assert (Hunnamed : forall file : Upload,
            filename file = "" ->
            allowed_file (filename file) = Returned false).
  { intros file ->. reflexivity. }
  destruct (analyze_image_cases detector request jsonify processing_time g)
    as [(e & Hf & ->) | [(Hf & ->) | [(file & Hf & Hn & ->)
       | [(file & Hf & Hn & Ha & ->)
       | [(file & e & Hf & Hn & Ha & Hp & ->)
       | [(file & image & Hf & Hn & Ha & Hp & Hwhy & ->)
       | [(file & image & cv_image & result & g' & e & Hf & Hn & Ha & Hp
           & Hl & Hcv & Hd & Hj & ->)
       | (file & image & cv_image & result & g' & Hf & Hn & Ha & Hp & Hl
          & Hcv & Hd & Hj & ->)]]]]]]]; cbn [fst snd].
  - (* the files cannot be read *)
    split; [do 2 apply list_elem_of_further; apply list_elem_of_here|].
    split; [split; [discriminate | intros (f & i & r & g1 & H & _); congruence]|].
    split; [split; [intros _; left; eauto | reflexivity]|].
    split; [split; [discriminate | intros [H | (f & H & _)]; congruence]|].
    split; [reflexivity|]. split; [eauto|]. split; [discriminate|].
    intros _. left. reflexivity.
  - (* no file *)
    split; [apply list_elem_of_further, list_elem_of_here|].
    split; [split; [discriminate | intros (f & i & r & g1 & H & _); congruence]|].
    split; [split; [discriminate
                   | intros [[e H] | (f & i & H & _)]; congruence]|].
    split; [split; [intros _; left; exact Hf | reflexivity]|].
    split; [discriminate|]. split; [eauto|]. split; [reflexivity|]. discriminate.
  - (* no name *)
    split; [apply list_elem_of_further, list_elem_of_here|].
    split; [split; [discriminate
                   | intros (f & i & r & g1 & H & H' & _); congruence]|].
    split; [split; [discriminate
                   | intros [[e H] | (f & i & H & H' & _)]; congruence]|].
    split; [split; [intros _; right; exists file; auto | reflexivity]|].
    split; [discriminate|]. split; [eauto|]. split; [reflexivity|]. discriminate.
  - (* a type that is not accepted *)
    split; [apply list_elem_of_further, list_elem_of_here|].
    split; [split; [discriminate
                   | intros (f & i & r & g1 & H & _ & H' & _); congruence]|].
    split; [split; [discriminate
                   | intros [[e H] | (f & i & H & _ & H' & _)]; congruence]|].
    split; [split; [intros _; right; exists file; auto | reflexivity]|].
    split; [discriminate|]. split; [eauto|]. split; [reflexivity|]. discriminate.
  - (* not an image *)
    split; [apply list_elem_of_further, list_elem_of_here|].
    split; [split; [discriminate
                   | intros (f & i & r & g1 & H & _ & _ & H' & _); congruence]|].
    split; [split; [discriminate
                   | intros [[e' H] | (f & i & H & _ & _ & H' & _)]; congruence]|].
    split; [split; [intros _; right; exists file; eauto | reflexivity]|].
    split; [discriminate|]. split; [eauto|]. split; [reflexivity|]. discriminate.
  - (* the detector raises *)
    destruct (orchestrator_raises detector image (transaction_mode_of request) g)
      as [(e & He & _) | (r & g1 & cv & Hr & Hl & Hcv)];
      [|destruct Hwhy as [Hw | [e Hw]]; congruence].
    split; [do 2 apply list_elem_of_further; apply list_elem_of_here|].
    split.
    { split; [discriminate|]. intros (f & i & r & g1 & H & _ & _ & H' & Hd & _).
      assert (f = file) by congruence. subst f.
      assert (i = image) by congruence. subst i. congruence. }
    split.
    { split; [|reflexivity]. intros _. right. exists file, image.
      destruct Hwhy as [Hw | Hw]; auto 8. }
    split.
    { split; [discriminate|].
      intros [H | (f & H & Hx)]; [congruence|].
      assert (f = file) by congruence. subst f.
      destruct Hx as [Hx | [Hx | [e' Hx]]]; [|congruence..].
      pose proof (Hunnamed file Hx). congruence. }
    split; [reflexivity|]. split; [eauto|]. split; [discriminate|].
    intros _. left. reflexivity.
  - (* the response cannot be serialised *)
    split; [do 2 apply list_elem_of_further; apply list_elem_of_here|].
    split.
    { split; [discriminate|].
      intros (f & i & r & g1 & H & _ & _ & H' & Hd' & Hj').
      assert (f = file) by congruence. subst f.
      assert (i = image) by congruence. subst i.
      assert (r = result) by congruence. subst r. congruence. }
    split.
    { split; [|reflexivity]. intros _. right. exists file, image.
      split; [exact Hf|]. split; [exact Hn|]. split; [exact Ha|].
      split; [exact Hp|]. right. right. eauto. }
    split.
    { split; [discriminate|].
      intros [H | (f & H & Hx)]; [congruence|].
      assert (f = file) by congruence. subst f.
      destruct Hx as [Hx | [Hx | [e' Hx]]]; [|congruence..].
      pose proof (Hunnamed file Hx). congruence. }
    split; [reflexivity|]. split; [eauto|]. split; [discriminate|].
    intros _. right. exists file, image, result, e. auto.
  - (* an analysis is served *)
    split; [apply list_elem_of_here|].
    split; [split; [intros _; exists file, image, result, g'; auto 8
                   | reflexivity]|].
    split.
    { split; [discriminate|].
      intros [[e H] | (f & i & H & _ & _ & H' & Hwhy)]; [congruence|].
      assert (f = file) by congruence. subst f.
      assert (i = image) by congruence. subst i.
      destruct Hwhy as [Hw | [[e Hw] | (r & g1 & e & Hd' & Hj')]];
        congruence. }
    split.
    { split; [discriminate|].
      intros [H | (f & H & Hx)]; [congruence|].
      assert (f = file) by congruence. subst f.
      destruct Hx as [Hx | [Hx | [e' Hx]]]; [|congruence..].
      pose proof (Hunnamed file Hx). congruence. }
    split; [discriminate|]. split; [congruence|]. split; discriminate.
Qed.
End Endpoint.

Section Response.
Import App.
Context {S : Scalar} {B : Backend S}.

(** What the orchestrator returns, by mode. *)
Lemma orchestrator_result (detector : ImageAuthenticityDetector.t)
    (image : Image.t) (mode : bool) (g g' : rng)
    (result : ImageAuthenticityDetector.Result) :
  ImageAuthenticityDetector.detect_tampering detector image mode g
  = (Returned result, g') ->
  exists basic g1 cv_image,
    Image.to_cv image = Returned cv_image
    /\ SimpleImageDetector.detect_tampering image g = (Returned basic, g1)
    /\ result
       = if mode then
           ImageAuthenticityDetector.reconcile
             (ImageAuthenticityDetector.merge basic
                (Some (TransactionAnalyzer.analyze_transaction_screenshot
                         image g1).1) "comprehensive")
             (TransactionAnalyzer.fraud_indicators
                (TransactionAnalyzer.analyze_transaction_screenshot image g1).1)
         else ImageAuthenticityDetector.merge basic None "basic".
Proof.
  intros Hd.
  destruct (orchestrator_raises detector image mode g)
    as [(e & He & _) | (r & g2 & cv_image & Hr & Hl & Hcv)]; [congruence|].
  destruct (proj2 (simple_detector_outcome image g) cv_image Hcv)
    as (basic & g1 & Hb).
  exists basic, g1, cv_image. split; [exact Hcv|]. split; [exact Hb|].
  destruct mode.
  - rewrite (detect_tampering_transaction detector image g g1 basic Hl Hb) in Hd.
    congruence.
  - rewrite (detect_tampering_basic detector image g g1 basic Hl Hb) in Hd.
    congruence.
Qed.

(** What the report keeps of the analyses it is compiled from. *)
Lemma compile_report_fields
    (metadata_analysis : TransactionAnalyzer.MetadataAnalysis)
    (text_analysis : TransactionAnalyzer.TextAnalysis)
    (pattern_analysis : TransactionAnalyzer.PatternAnalysis)
    (search : TransactionAnalyzer.ReverseSearch) :
  let report :=
    TransactionAnalyzer.compile_report metadata_analysis text_analysis
      pattern_analysis search in
  TransactionAnalyzer.pattern_analysis report = Some pattern_analysis
  /\ TransactionAnalyzer.reverse_search report = Some search
  /\ (forall i,
        i ∈ TransactionAnalyzer.collect_indicators metadata_analysis
              text_analysis pattern_analysis ->
        i ∈ TransactionAnalyzer.fraud_indicators report)
  /\ (TransactionAnalyzer.found_matches search = true ->
      exists i, i ∈ TransactionAnalyzer.fraud_indicators report
                /\ FraudIndicator.severity i = "high").
Proof.
  cbv zeta. unfold TransactionAnalyzer.compile_report.
  destruct (TransactionAnalyzer.found_matches search);
    cbn [TransactionAnalyzer.pattern_analysis TransactionAnalyzer.reverse_search
         TransactionAnalyzer.fraud_indicators].
  - split; [reflexivity|]. split; [reflexivity|]. split.
    + intros i Hi. apply elem_of_app. left. exact Hi.
    + intros _.
      exists (TransactionAnalyzer.indicator "reverse_search" "high"
                "Similar images found online - possible template reuse").
      split; [|reflexivity]. apply elem_of_app. right. apply list_elem_of_here.
  - split; [reflexivity|]. split; [reflexivity|]. split.
    + intros i Hi. exact Hi.
    + discriminate.
Qed.

(** A high indicator in the report makes the verdict "not authentic". *)
Lemma reconcile_high (result : ImageAuthenticityDetector.Result)
    (indicators : list FraudIndicator.t) (i : FraudIndicator.t) :
  i ∈ indicators -> FraudIndicator.severity i = "high" ->
  ImageAuthenticityDetector.is_authentic
    (ImageAuthenticityDetector.reconcile result indicators) = false.
Proof.
  intros Hi Hs.
  destruct (reconcile_branches result indicators) as (Hhigh & _).
  cbv zeta in Hhigh. destruct (Hhigh ltac:(eauto)) as (_ & Ha & _). exact Ha.
Qed.

(** X16.  What a served analysis guarantees.  Whenever the endpoint
    answers with an analysis, the status is 200, the verdict is the word
    "Original" or "Edited", and the key [transaction_analysis] is present
    exactly in transaction mode, which is on unless the form field
    [transaction_mode], lower-cased, differs from "true".  The verdict is
    "Edited" whenever the response carries the key [reverse_search],
    lists a copy-paste entry among its suspicious regions, or lists a
    fraud indicator of high severity. *)
Theorem served_analysis (detector : ImageAuthenticityDetector.t)
    (request : Request) (jsonify : Response -> Outcome unit)
    (processing_time : num) (g g' : rng)
    (response : Response) (status : Z) :
  analyze_image detector request jsonify processing_time g
  = ((Analysis response, status), g') ->
  status = 200
  /\ result response ∈ ["Original"; "Edited"]
  /\ (transaction_analysis response <> None
      <-> lower (default "true" (form_transaction_mode request)) = "true")
  /\ analysis_type response
     = (if transaction_mode_of request then "comprehensive" else "basic")
  /\ (reverse_search response <> None -> result response = "Edited")
  /\ (forall view,
        transaction_analysis response = Some view ->
        (exists region, copy_paste_entry region ∈ suspicious_regions view)
        \/ (exists i, i ∈ fraud_indicators view
                      /\ FraudIndicator.severity i = "high") ->
        result response = "Edited").
Proof.
  intros Hout.
  destruct (analyze_image_cases detector request jsonify processing_time g)
    as [(? & _ & H) | [(_ & H) | [(? & _ & _ & H) | [(? & _ & _ & _ & H)
       | [(? & ? & _ & _ & _ & _ & H) | [(? & ? & _ & _ & _ & _ & _ & H)
       | [(? & ? & ? & ? & ? & ? & _ & _ & _ & _ & _ & _ & _ & _ & H)
       | (file & image & cv_image & res & g1 & Hf & Hn & Ha & Hp & Hl & Hcv
          & Hd & Hj & H)]]]]]]]; cbv zeta in H; rewrite H in Hout;
    try discriminate Hout.
  injection Hout as <- <- <-. split; [reflexivity|].
  assert (Hmode : transaction_mode_of request = true
                  <-> lower (default "true" (form_transaction_mode request))
                      = "true").
  { unfold transaction_mode_of. rewrite bool_decide_eq_true.
    destruct (form_transaction_mode request); reflexivity. }
  destruct (orchestrator_result detector image _ g g1 res Hd)
    as (basic & g2 & cv' & _ & Hb & Hres).
  assert (Hhigh : transaction_mode_of request = true ->
            (exists i, i ∈ TransactionAnalyzer.fraud_indicators
                             (TransactionAnalyzer.analyze_transaction_screenshot
                                image g2).1
                       /\ FraudIndicator.severity i = "high") ->
            ImageAuthenticityDetector.is_authentic res = false).
  { intros Hm (i & Hi & Hs). rewrite Hm in Hres. rewrite Hres.
    exact (reconcile_high _ _ i Hi Hs). }
  assert (Hta : transaction_mode_of request = true ->
            ImageAuthenticityDetector.transaction_analysis res
            = Some (TransactionAnalyzer.analyze_transaction_screenshot
                      image g2).1).
  { intros Hm. rewrite Hm in Hres. rewrite Hres.
    destruct (reconcile_branches
                (ImageAuthenticityDetector.merge basic
                   (Some (TransactionAnalyzer.analyze_transaction_screenshot
                            image g2).1) "comprehensive")
                (TransactionAnalyzer.fraud_indicators
                   (TransactionAnalyzer.analyze_transaction_screenshot
                      image g2).1)) as (_ & _ & _ & Ht & _).
    exact Ht. }
  assert (Hty : ImageAuthenticityDetector.analysis_type res
                = if transaction_mode_of request then "comprehensive"
                  else "basic").
  { rewrite Hres. destruct (transaction_mode_of request); [|reflexivity].
    destruct (reconcile_branches
                (ImageAuthenticityDetector.merge basic
                   (Some (TransactionAnalyzer.analyze_transaction_screenshot
                            image g2).1) "comprehensive")
                (TransactionAnalyzer.fraud_indicators
                   (TransactionAnalyzer.analyze_transaction_screenshot
                      image g2).1)) as (_ & _ & _ & _ & Ht).
    exact Ht. }
  assert (Hbasic : transaction_mode_of request = false ->
            ImageAuthenticityDetector.transaction_analysis res = None).
  { intros Hm. rewrite Hm in Hres. rewrite Hres. reflexivity. }
  assert (Hedited : ImageAuthenticityDetector.is_authentic res = false ->
            result (prepare_response res processing_time) = "Edited").
  { intros He. unfold prepare_response. cbn [result]. rewrite He. reflexivity. }
  split.
  { unfold prepare_response. cbn [result].
    destruct (ImageAuthenticityDetector.is_authentic res);
      [apply list_elem_of_here | apply list_elem_of_further, list_elem_of_here]. }
  split.
  { rewrite <- Hmode. unfold prepare_response. cbn [transaction_analysis].
    destruct (transaction_mode_of request) eqn:Hm.
    - rewrite (Hta eq_refl). split; [reflexivity | discriminate].
    - rewrite (Hbasic eq_refl). split; [congruence | discriminate]. }
  split.
  { unfold prepare_response. cbn [analysis_type]. exact Hty. }
  destruct (transaction_mode_of request) eqn:Hm.
  2:{ split.
      - intros Hrs. unfold prepare_response in Hrs.
        cbn [reverse_search] in Hrs. rewrite (Hbasic eq_refl) in Hrs.
        congruence.
      - intros view Hv. unfold prepare_response in Hv.
        cbn [transaction_analysis] in Hv. rewrite (Hbasic eq_refl) in Hv.
        discriminate Hv. }
  specialize (Hta eq_refl). specialize (Hhigh eq_refl).
  set (report := (TransactionAnalyzer.analyze_transaction_screenshot
                    image g2).1) in *.
  assert (Hreport : report
                    = TransactionAnalyzer.compile_report
                        (TransactionAnalyzer._analyze_metadata image)
                        (TransactionAnalyzer._analyze_text_content cv_image)
                        (TransactionAnalyzer._analyze_visual_patterns cv_image)
                        (TransactionAnalyzer._simulate_reverse_search image g2).1).
  { unfold report. rewrite (chain_returns_report image cv_image g2 Hcv).
    reflexivity. }
  destruct (compile_report_fields
              (TransactionAnalyzer._analyze_metadata image)
              (TransactionAnalyzer._analyze_text_content cv_image)
              (TransactionAnalyzer._analyze_visual_patterns cv_image)
              (TransactionAnalyzer._simulate_reverse_search image g2).1)
    as (Hpat & Hsearch & Hcollect & Hfound).
  rewrite <- Hreport in Hpat, Hsearch, Hcollect, Hfound.
  split.
  - intros Hrs. apply Hedited, Hhigh, Hfound.
    unfold prepare_response in Hrs. cbn [reverse_search] in Hrs.
    rewrite Hta, Hsearch in Hrs.
    destruct (TransactionAnalyzer.found_matches _); [reflexivity | congruence].
  - intros view Hv Hwhy. apply Hedited, Hhigh.
    unfold prepare_response in Hv. cbn [transaction_analysis] in Hv.
    rewrite Hta in Hv. injection Hv as <-.
    cbn [suspicious_regions fraud_indicators] in Hwhy.
    destruct Hwhy as [[region Hr] | Hi]; [|exact Hi].
    unfold collect_suspicious_regions in Hr. rewrite Hpat in Hr.
    cbn [app] in Hr.
    apply elem_of_app in Hr. destruct Hr as [Hr|Hr].
    2:{ apply list_elem_of_In, List.in_map_iff in Hr.
        destruct Hr as (x & Hx & _). discriminate Hx. }
    apply list_elem_of_In, List.in_map_iff in Hr.
    destruct Hr as (x & Hx & Hin). injection Hx as ->.
    exists (TransactionAnalyzer.indicator "copy_paste" "high"
              ("Potential copy-paste detected: "
               +:+ TransactionAnalyzer.description region)).
    split; [|reflexivity]. apply Hcollect.
    unfold TransactionAnalyzer.collect_indicators.
    apply elem_of_app. left. apply elem_of_app. right.
    apply list_elem_of_In, List.in_map_iff. exists region.
    split; [reflexivity | exact Hin].
Qed.
End Response.

(** ** The properties on the sample inputs *)

(** The cloned screenshot has no EXIF: its only finding is the metadata
    signal, and its confidence is 0.3 x 0.15. *)
Lemma confidence_with_findings_witness :
  exists (r : @SimpleImageDetector.Result Q_scalar) (g' : nat),
    SimpleImageDetector.detect_tampering (B := Samples.plain) Samples.cloned
      0%nat = (Returned r, g')
    /\ g' = 0%nat
    /\ (0.03 <= SimpleImageDetector.confidence r <= 0.75)%Q
    /\ SimpleImageDetector.is_authentic r = true.
Proof.
  destruct (SimpleImageDetector.detect_tampering (B := Samples.plain)
              Samples.cloned 0%nat) as [[r|e] g'] eqn:Hd;
    [|vm_compute in Hd; discriminate Hd].
  destruct (proj1 confidence_with_findings Samples.plain Samples.cloned
              0%nat g' r Hd) as (Hg & Hb & Hv).
  { vm_compute in Hd. injection Hd as <- _. reflexivity. }
  exists r, g'. split; [reflexivity|]. split; [exact Hg|]. split; [exact Hb|].
  apply Hv. vm_compute in Hd. injection Hd as <- _. reflexivity.
Defined.

(** On the spliced picture, a PNG, the verdict is "tampered", and the
    noise, the edge and the metadata signals are all three suspicious. *)
Lemma tampered_verdict_needs_witness :
  exists (r : @SimpleImageDetector.Result Q_scalar) (g' : nat),
    SimpleImageDetector.detect_tampering (B := Lab.spliced) Samples.cloned
      0%nat = (Returned r, g')
    /\ SimpleImageDetector.is_authentic r = false
    /\ Signal.suspicious
         (SimpleImageDetector.noise_patterns
            (SimpleImageDetector.analysis_breakdown r)) = true
    /\ Signal.suspicious
         (SimpleImageDetector.edge_consistency
            (SimpleImageDetector.analysis_breakdown r)) = true
    /\ Signal.suspicious
         (SimpleImageDetector.metadata
            (SimpleImageDetector.analysis_breakdown r)) = true.
Proof.
  destruct (SimpleImageDetector.detect_tampering (B := Lab.spliced)
              Samples.cloned 0%nat) as [[r|e] g'] eqn:Hd;
    [|vm_compute in Hd; discriminate Hd].
  assert (Hf : SimpleImageDetector.is_authentic r = false)
    by (vm_compute in Hd; injection Hd as <- _; reflexivity).
  destruct (proj1 tampered_verdict_needs Lab.spliced Samples.cloned
              0%nat g' r Hd Hf) as (_ & Hpng).
  exists r, g'. split; [reflexivity|]. split; [exact Hf|].
  apply Hpng. discriminate.
Defined.


(** The region found in the striped plane ends before column 64. *)
Lemma copy_paste_region_bounds_witness :
  exists r : @TransactionAnalyzer.CopyPaste Q_scalar,
    r ∈ TransactionAnalyzer.copy_paste_regions
          (TransactionAnalyzer._analyze_visual_patterns (B := Samples.plain)
             Samples.striped)
    /\ TransactionAnalyzer.x2 r + 32 < (shape Samples.striped).2
    /\ 64 < (shape Samples.striped).2.
Proof.
  destruct (TransactionAnalyzer.copy_paste_regions
              (TransactionAnalyzer._analyze_visual_patterns (B := Samples.plain)
                 Samples.striped)) as [|r l] eqn:E;
    [vm_compute in E; discriminate E|].
  assert (Hr : r ∈ TransactionAnalyzer.copy_paste_regions
                     (TransactionAnalyzer._analyze_visual_patterns
                        (B := Samples.plain) Samples.striped))
    by (rewrite E; apply list_elem_of_here).
  destruct (copy_paste_region_bounds (B := Samples.plain) Samples.striped r Hr)
    as (_ & _ & _ & _ & (_ & Hx & _) & _ & Hbig).
  exists r. split; [rewrite <- E; exact Hr|]. split; [exact Hx|].
  destruct Hbig as [Hh | Hw]; [vm_compute in Hh; discriminate Hh | exact Hw].
Defined.

(** The grid of the 8 x 8 square has sixteen cells. *)
Lemma sharpness_grid_witness :
  exists ds : list (@num Q_scalar),
    len ds = 16
    /\ TransactionAnalyzer.visual_quality_score
         (TransactionAnalyzer._analyze_visual_patterns (B := Samples.plain)
            Samples.gray8)
       = np_mean (Backend := Samples.plain) ds.
Proof.
  destruct (sharpness_grid (B := Samples.plain) Samples.gray8
              (List.map (List.map (fun _ => 0%Z)) Samples.gray8) eq_refl)
    as [_ H].
  destruct H as (ds & rows & cols & _ & Hlen & _ & _ & Hr & Hc & _ & Hq);
    [vm_compute; discriminate | vm_compute; discriminate |].
  exists ds. split; [|exact Hq].
  rewrite Hlen, (proj2 Hr eq_refl), (proj2 Hc eq_refl). reflexivity.
Defined.

(** The cloned screenshot is judged edited in transaction mode. *)
Lemma high_indicator_forces_edited_witness :
  exists (r : @ImageAuthenticityDetector.Result Q_scalar) (g' : nat),
    ImageAuthenticityDetector.detect_tampering (B := Samples.plain) Lab.loaded
      Samples.cloned true 0%nat = (Returned r, g')
    /\ ImageAuthenticityDetector.is_authentic r = false.
Proof.
  destruct (high_indicator_forces_edited (B := Samples.plain) Lab.loaded
              Samples.cloned Samples.striped 0%nat eq_refl eq_refl)
    as (r & g' & _ & _ & _ & _ & Hr & _ & Ha & _).
  { right. vm_compute. discriminate. }
  exists r, g'. split; [exact Hr | exact Ha].
Defined.

(** On the blind machine the unreadable picture is declared authentic. *)
Lemma blind_analysis_is_authentic_witness :
  exists r : @ImageAuthenticityDetector.Result Q_scalar,
    ImageAuthenticityDetector.detect_tampering (B := Lab.blind) Lab.loaded
      Lab.unreadable true 0%nat = (Returned r, 1%nat)
    /\ ImageAuthenticityDetector.is_authentic r = true
    /\ ImageAuthenticityDetector.details r
       = "No significant tampering indicators detected".
Proof.
  assert (Hsize : Image.size Lab.unreadable
                  ∉ TransactionAnalyzer.common_resolutions).
  { intros H.
    repeat (apply elem_of_cons in H; destruct H as [H|H]; [discriminate H|]).
    inversion H. }
  assert (Hfmt : Image.format Lab.unreadable <> Some "JPEG") by discriminate.
  destruct (blind_analysis_is_authentic (B := Lab.blind) Lab.loaded
              Lab.unreadable Samples.gray8 0%nat
              "cv2.error" "cv2.error" "not a TIFF file (header b'' not valid)"
              "tesseract is not installed or it's not in your PATH"
              eq_refl eq_refl (or_introl Hfmt)
              eq_refl eq_refl eq_refl eq_refl Hsize true)
    as (r & Hr & Ha & _ & Hd & _).
  exists r. split; [exact Hr|]. split; [exact Ha | exact Hd].
Defined.

(** The upload "receipt.PNG" of the cloned screenshot is served. *)
Lemma served_analysis_witness :
  exists (response : @App.Response Q_scalar) (status : Z) (g' : nat),
    App.analyze_image (B := Samples.plain) Lab.loaded Lab.request
      Lab.serialised (0%Q : @num Q_scalar) 0%nat
    = ((App.Analysis response, status), g')
    /\ status = 200
    /\ App.analysis_type response = "comprehensive".
Proof.
  destruct (App.analyze_image (B := Samples.plain) Lab.loaded Lab.request
              Lab.serialised (0%Q : @num Q_scalar) 0%nat)
    as [[[e|response] status] g'] eqn:H;
    [vm_compute in H; discriminate H|].
  destruct (served_analysis (B := Samples.plain) Lab.loaded Lab.request
              Lab.serialised (0%Q : @num Q_scalar) 0%nat g' response status H)
    as (Hs & _ & _ & Ht & _).
  exists response, status, g'. split; [reflexivity|]. split; [exact Hs|].
  exact Ht.
Defined.

(** X15 on three requests: a body over the size limit and a response
    that cannot be serialised are answered with 500, the same upload with
    a response that can be serialised with 200. *)
Lemma analyze_image_status_witness :
  (App.analyze_image (B := Samples.plain) Lab.loaded Lab.oversized
     Lab.serialised (0%Q : @num Q_scalar) 0%nat).1.2 = 500
  /\ (App.analyze_image (B := Samples.plain) Lab.loaded Lab.request
        Lab.unsortable (0%Q : @num Q_scalar) 0%nat).1.2 = 500
  /\ (App.analyze_image (B := Samples.plain) Lab.loaded Lab.request
        Lab.serialised (0%Q : @num Q_scalar) 0%nat).1.2 = 200.
Proof.
  assert (Hmode : App.transaction_mode_of Lab.request = true)
    by (vm_compute; reflexivity).
  destruct (ImageAuthenticityDetector.detect_tampering (B := Samples.plain)
              Lab.loaded Samples.cloned true 0%nat) as [[result|e] g'] eqn:Hd;
    [|vm_compute in Hd; discriminate Hd].
  split; [|split].
  - apply (analyze_image_status (B := Samples.plain) Lab.loaded Lab.oversized
             Lab.serialised (0%Q : @num Q_scalar) 0%nat).
    left. exists "413 Request Entity Too Large". reflexivity.
  - apply (analyze_image_status (B := Samples.plain) Lab.loaded Lab.request
             Lab.unsortable (0%Q : @num Q_scalar) 0%nat).
    right. exists Lab.upload, Samples.cloned.
    split; [reflexivity|]. split; [discriminate|]. split; [reflexivity|].
    split; [reflexivity|]. right. right.
    exists result, g',
      "'<' not supported between instances of 'int' and 'str'".
    rewrite Hmode. split; [exact Hd | reflexivity].
  - apply (analyze_image_status (B := Samples.plain) Lab.loaded Lab.request
             Lab.serialised (0%Q : @num Q_scalar) 0%nat).
    exists Lab.upload, Samples.cloned, result, g'.
    split; [reflexivity|]. split; [discriminate|]. split; [reflexivity|].
    split; [reflexivity|]. rewrite Hmode. split; [exact Hd | reflexivity].
Defined.
